(** * FinTrade frontend: the fetch / normalize contract of [src/App.jsx]

    A shallow embedding of the three pieces of [App.jsx] that carry a
    contract: the numeric coercer [num], the portfolio row normalizer
    [normalizePortfolioRow] and the data-fetching hook [useApi] with its
    [execute] callback.

    JavaScript numbers are IEEE 754 binary64 values; they are represented
    by [spec_float], the specification of floating-point numbers of the
    Rocq library, at precision 53 and maximal exponent 1024, and every
    rounding is the library's round-to-nearest-even. *)

From Stdlib Require Import ZArith Bool List Ascii String Lia.
From Stdlib Require Import Floats.SpecFloat.
From stdpp Require Import gmap strings.

Local Open Scope string_scope.
Local Open Scope Z_scope.

(** ** JavaScript numbers *)

Module JSNumber.

Abbreviation number := spec_float.

Definition prec : Z := 53.
Definition emax : Z := 1024.

Definition NaN : number := S754_nan.
Definition Infinity : number := S754_infinity false.
Definition zero : number := S754_zero false.

(** The global [isNaN] and [isFinite], on an argument that is a number. *)
Definition isNaN (x : number) : bool :=
  match x with
  | S754_nan => true
  | _ => false
  end.

Definition isFinite (x : number) : bool :=
  match x with
  | S754_nan | S754_infinity _ => false
  | S754_zero _ | S754_finite _ _ _ => true
  end.

(** The Number value of a mathematical integer [m] with sign [s]
    (round to nearest, ties to even, overflow to an infinity). *)
Definition of_integer (s : bool) (m : Z) : number :=
  match m with
  | Z0 => S754_zero s
  | Zpos p => binary_round prec emax s p 0
  | Zneg _ => S754_nan
  end.

(** The Number value of the quotient [m / d] of two positive integers
    with sign [s]: the quotient is computed with the position of the
    remainder, then rounded once. *)
Definition of_quotient (s : bool) (m d : positive) : number :=
  let '(q, e, l) := SFdiv_core_binary prec emax (Zpos m) 0 (Zpos d) 0 in
  binary_round_aux prec emax s q e l.

(** The Number value of [m * 10 ^ e] with sign [s], for [0 <= m]. *)
Definition of_decimal (s : bool) (m e : Z) : number :=
  match m with
  | Z0 => S754_zero s
  | Zpos p =>
      if 0 <=? e then of_integer s (m * 10 ^ e)
      else of_quotient s p (Z.to_pos (10 ^ (- e)))
  | Zneg _ => S754_nan
  end.

(** [Math.round]: the integer closest to [x], a tie going towards
    +Infinity; NaN, the infinities, the zeros and the integers are
    returned as they are, and a result of zero keeps the sign of [x]. *)
Definition Math_round (x : number) : number :=
  match x with
  | S754_finite s m e =>
      if 0 <=? e then x
      else
        let k := - e in
        let sm := if s then Zneg m else Zpos m in
        let n := Z.shiftr (2 * sm + 2 ^ k) (k + 1) in
        match n with
        | Z0 => S754_zero s
        | Zpos p => binary_round prec emax false p 0
        | Zneg p => binary_round prec emax true p 0
        end
  | _ => x
  end.

End JSNumber.
Export JSNumber.

(** ** Strings to numbers

    A string is the sequence of its bytes in UTF-8. Every character the
    code tests for is ASCII, and a character outside ASCII is encoded by
    bytes above 127 only, so that testing bytes agrees with testing the
    UTF-16 code units the program sees.

    [StringToNumber] is the conversion [Number(s)] applies to a string:
    white space is trimmed (that of ASCII here), the empty string is +0,
    a literal has its value and anything else is NaN. The value of a
    decimal literal is rounded once from its exact mathematical value, as
    the engines do. *)

Module StringNumericLiteral.

Definition is_digit (c : ascii) : bool :=
  let n := N_of_ascii c in ((48 <=? n) && (n <=? 57))%N.

Definition digit_value (c : ascii) : Z := Z.of_N (N_of_ascii c) - 48.

(** The longest prefix of decimal digits, and what follows it. *)
Fixpoint DecimalDigits (s : string) : string * string :=
  match s with
  | String c s' =>
      if is_digit c
      then let (d, r) := DecimalDigits s' in (String c d, r)
      else ("", s)
  | "" => ("", "")
  end.

(** The mathematical value of a sequence of decimal digits. *)
Fixpoint MV (acc : Z) (d : string) : Z :=
  match d with
  | String c d' => MV (10 * acc + digit_value c) d'
  | "" => acc
  end.

(** An optional sign; [true] is minus. *)
Definition Sign (s : string) : bool * string :=
  match s with
  | String "-" r => (true, r)
  | String "+" r => (false, r)
  | _ => (false, s)
  end.

(** What follows the digits of the mantissa: nothing, or an exponent
    marker, an optional sign and at least one digit, up to the end. *)
Definition ExponentPart (s : string) : option Z :=
  match s with
  | "" => Some 0
  | String c r =>
      if (Ascii.eqb c "e" || Ascii.eqb c "E")%bool then
        let (neg, r1) := Sign r in
        match DecimalDigits r1 with
        | ("", _) => None
        | (d, "") => Some (if neg then - MV 0 d else MV 0 d)
        | (_, String _ _) => None
        end
      else None
  end.

(** An unsigned decimal literal other than [Infinity]: digits with an
    optional fraction, or a fraction alone, then an optional exponent.
    The result [(m, e)] stands for [m * 10 ^ e]. *)
Definition StrUnsignedDecimalLiteral (s : string) : option (Z * Z) :=
  let (ip, r1) := DecimalDigits s in
  let (fp, r2) :=
    match r1 with
    | String "." r => DecimalDigits r
    | _ => ("", r1)
    end in
  match ip ++ fp with
  | "" => None
  | String _ _ as ds =>
      match ExponentPart r2 with
      | Some x => Some (MV 0 ds, x - Z.of_nat (String.length fp))
      | None => None
      end
  end.

(** A signed literal written with digits. *)
Definition digits_literal (s : string) : option number :=
  let (neg, r) := Sign s in
  match StrUnsignedDecimalLiteral r with
  | Some (m, e) => Some (of_decimal neg m e)
  | None => None
  end.

(** A signed decimal literal: [Infinity], or one written with digits. *)
Definition StrDecimalLiteral (s : string) : option number :=
  let (neg, r) := Sign s in
  if String.eqb r "Infinity" then Some (S754_infinity neg)
  else digits_literal s.

(** Integer literals in base 16, 8 and 2 take no sign. *)
Definition radix_digit (b : Z) (c : ascii) : option Z :=
  let n := Z.of_N (N_of_ascii c) in
  let v :=
    if (48 <=? n) && (n <=? 57) then n - 48
    else if (97 <=? n) && (n <=? 102) then n - 87
    else if (65 <=? n) && (n <=? 70) then n - 55
    else 16 in
  if v <? b then Some v else None.

Fixpoint radix_MV (b : Z) (acc : Z) (s : string) : option Z :=
  match s with
  | "" => Some acc
  | String c s' =>
      match radix_digit b c with
      | Some v => radix_MV b (b * acc + v) s'
      | None => None
      end
  end.

Definition NonDecimalIntegerLiteral (s : string) : option number :=
  match s with
  | String "0" (String p (String c r)) =>
      let b :=
        if (Ascii.eqb p "x" || Ascii.eqb p "X")%bool then 16
        else if (Ascii.eqb p "o" || Ascii.eqb p "O")%bool then 8
        else if (Ascii.eqb p "b" || Ascii.eqb p "B")%bool then 2
        else 0 in
      match radix_MV b 0 (String c r) with
      | Some m => Some (of_integer false m)
      | None => None
      end
  | _ => None
  end.

(** White space and line terminators of ASCII. *)
Definition is_space (c : ascii) : bool :=
  let n := N_of_ascii c in
  (((9 <=? n) && (n <=? 13)) || (n =? 32))%N.

Fixpoint trim_start (s : string) : string :=
  match s with
  | String c s' => if is_space c then trim_start s' else s
  | "" => ""
  end.

Fixpoint trim_end (s : string) : string :=
  match s with
  | String c s' =>
      match trim_end s' with
      | "" => if is_space c then "" else String c ""
      | t => String c t
      end
  | "" => ""
  end.

(** [Number(s)] for a string [s]: the empty string is +0, a numeric
    literal has its value, anything else is NaN. *)
Definition StringToNumber (s : string) : number :=
  match trim_end (trim_start s) with
  | "" => zero
  | t =>
      match NonDecimalIntegerLiteral t with
      | Some x => x
      | None =>
          match StrDecimalLiteral t with
          | Some x => x
          | None => NaN
          end
      end
  end.

End StringNumericLiteral.
Export StringNumericLiteral.

(** ** Values of the backend payload

    A raw field is absent ([undefined]) or a JSON value. An array or an
    object is represented by the string that [String(v)] returns for it,
    the only thing [num] asks of it: the elements joined by commas for an
    array, ["[object Object]"] for an object. An array or object for
    which [String(v)] throws is not among these values; the normalizer on
    whole JSON values, further down, has them. *)

Inductive value :=
| VUndefined
| VNull
| VBool (b : bool)
| VNum (x : number)
| VStr (s : string)
| VObj (str : string).

(** [ToBoolean]: what [!v] and [v || w] test. *)
Definition truthy (v : value) : bool :=
  match v with
  | VUndefined | VNull => false
  | VBool b => b
  | VNum x =>
      match x with
      | S754_zero _ | S754_nan => false
      | _ => true
      end
  | VStr s => negb (String.eqb s "")
  | VObj _ => true
  end.

(** [a ?? b] and [a || b]. *)
Definition nullish (v : value) : bool :=
  match v with
  | VUndefined | VNull => true
  | _ => false
  end.

Definition coalesce (a b : value) : value := if nullish a then b else a.
Definition or_else (a b : value) : value := if truthy a then a else b.

Declare Scope js_scope.
Delimit Scope js_scope with js.
Bind Scope js_scope with value.
Notation "a ?? b" := (coalesce a b) (at level 50, left associativity) : js_scope.
Notation "a || b" := (or_else a b) : js_scope.

(** Reading a property of an object: [undefined] when it has none. None
    of the keys the normalizer reads is inherited by a plain object. *)
Definition get (s : gmap string value) (k : string) : value :=
  default VUndefined (s !! k).

(** ** The numeric coercer, [num] *)

(** The class [[\d.\-\+eE]]; the expression replaces every character
    outside it by nothing. *)
Definition numeric_char (c : ascii) : bool :=
  (is_digit c || Ascii.eqb c "." || Ascii.eqb c "-" || Ascii.eqb c "+"
   || Ascii.eqb c "e" || Ascii.eqb c "E")%bool.

Fixpoint replace_non_numeric (s : string) : string :=
  match s with
  | String c s' =>
      if numeric_char c then String c (replace_non_numeric s')
      else replace_non_numeric s'
  | "" => ""
  end.

(** The last three lines of [num], on [String(v)]. *)
Definition coerce (str : string) : number :=
  let cleaned := replace_non_numeric str in
  let parsed := StringToNumber cleaned in
  if isNaN parsed then zero else parsed.

(** The first two lines of [num] select on the kind of [v]; for what is
    left, [String(v)] is the string itself, ["true"] or ["false"], or the
    string of the array or object. *)
Definition num (v : value) : number :=
  match v with
  | VNull | VUndefined | VStr "" => zero
  | VNum x => if isFinite x then x else zero
  | VBool b => coerce (if b then "true" else "false")
  | VStr s => coerce s
  | VObj str => coerce str
  end.

(** ** The row normalizer, [normalizePortfolioRow] *)

Record PortfolioRow := {
  symbol : value;
  company : value;
  score : number;
  price : number;
  stop_loss : number;
  percentage_allocation : number;
  number_of_shares : number;
  risk : number;
  investment_amount : number
}.

Definition normalizePortfolioRow (s : gmap string value) : PortfolioRow :=
  let price :=
    (get s "price" ?? get s "current_price" ?? get s "entry_price"
       ?? get s "avg_price" ?? get s "ltp" ?? VNum zero)%js in
  let stopLoss :=
    (get s "stop_loss" ?? get s "stoploss" ?? get s "sl" ?? get s "stop"
       ?? VNum zero)%js in
  let alloc :=
    (get s "percentage_allocation" ?? get s "allocation_pct"
       ?? get s "alloc_percent" ?? get s "allocation" ?? VNum zero)%js in
  let shares :=
    (get s "number_of_shares" ?? get s "shares" ?? get s "qty"
       ?? get s "quantity" ?? VNum zero)%js in
  let risk :=
    (get s "risk" ?? get s "risk_amount" ?? get s "max_risk" ?? VNum zero)%js in
  {| symbol := (get s "symbol" || get s "ticker" || VStr "")%js;
     company := (get s "company" || get s "name" || VStr "")%js;
     score := num (get s "score");
     price := num price;
     stop_loss := num stopLoss;
     percentage_allocation := num alloc;
     number_of_shares := Math_round (num shares);
     risk := num risk;
     investment_amount := num (get s "investment_amount") |}.

(** ** The fetch client, [useApi]

    The hook keeps three state cells and returns them with [execute].
    One call of [execute] acts on them in two uninterrupted parts: before
    the first [await], and once the response is there or an exception is
    caught; between its two [await]s it touches no state. What the request
    is made of (method, headers, serialized body) has no effect on the
    state and is left out. *)

Record FetchResult := {
  data : value;
  loading : bool;
  error : value
}.

(** [useState(null)], [useState(false)], [useState(null)]. *)
Definition initial : FetchResult :=
  {| data := VNull; loading := false; error := VNull |}.

Definition setData (d : value) (st : FetchResult) : FetchResult :=
  {| data := d; loading := loading st; error := error st |}.
Definition setLoading (b : bool) (st : FetchResult) : FetchResult :=
  {| data := data st; loading := b; error := error st |}.
Definition setError (e : value) (st : FetchResult) : FetchResult :=
  {| data := data st; loading := loading st; error := e |}.

(** The parsed body, through the three properties [execute] reads of it;
    a property the body does not have reads as [undefined]. *)
Module Envelope.
Record t := {
  success : value;
  data : value;
  error : value
}.
End Envelope.

(** How a request ends. An exception carries its [message]. *)
Inductive response :=
| TransportError (message : string)  (* [fetch] rejects, or the request cannot be built *)
| BodyNotJSON (message : string)     (* [response.json()] rejects *)
| BodyNull (message : string)        (* the body is [null]: reading [result.success] throws *)
| Body (result : Envelope.t).

(** What the promise of [execute] is fulfilled with:
    [{success: true, data}] or [{success: false, error}]. The [catch]
    takes every exception of the [try], so that no path rejects it. *)
Inductive ExecuteResult :=
| Success (data : value)
| Failure (error : string).

Definition unknown_error : string := "An unknown error occurred".

Section Execute.

(** The decimal representation of a number, which [new Error(x)] needs
    when the [error] of an envelope is a number; left open. *)
Variable NumberToString : number -> string.

Definition ToString (v : value) : string :=
  match v with
  | VUndefined => "undefined"
  | VNull => "null"
  | VBool b => if b then "true" else "false"
  | VNum x => NumberToString x
  | VStr s => s
  | VObj str => str
  end.

(** The body of the [try]: [inl] is the [message] of what it throws,
    [inr] is [result.data]. *)
Definition try_body (r : response) : string + value :=
  match r with
  | TransportError m | BodyNotJSON m | BodyNull m => inl m
  | Body result =>
      if negb (truthy (Envelope.success result))
      then inl (ToString (Envelope.error result || VStr unknown_error)%js)
      else inr (Envelope.data result)
  end.

(** Before the first [await]. *)
Definition execute_begin (st : FetchResult) : FetchResult :=
  setError VNull (setLoading true st).

(** After the request has settled: the rest of the [try], or the
    [catch], then the [finally]. *)
Definition execute_settle (r : response) (st : FetchResult)
  : ExecuteResult * FetchResult :=
  match try_body r with
  | inr d => (Success d, setLoading false (setData d st))
  | inl m => (Failure m, setLoading false (setError (VStr m) st))
  end.

(** A call of [execute] with nothing in between its two parts. *)
Definition execute (r : response) (st : FetchResult)
  : ExecuteResult * FetchResult :=
  execute_settle r (execute_begin st).

(** Overlapping calls of one client. The event loop runs one part of one
    call at a time: a call is invoked, and later it settles; only a call
    in flight can settle, and it settles once. *)
Inductive event :=
| Invoke (id : nat)
| Settle (id : nat) (r : response).

Record client := {
  view : FetchResult;
  in_flight : gset nat
}.

Definition step (c : client) (ev : event) : option client :=
  match ev with
  | Invoke id =>
      if decide (id ∈ in_flight c) then None
      else Some {| view := execute_begin (view c);
                   in_flight := {[ id ]} ∪ in_flight c |}
  | Settle id r =>
      if decide (id ∈ in_flight c)
      then Some {| view := snd (execute_settle r (view c));
                   in_flight := in_flight c ∖ {[ id ]} |}
      else None
  end.

Fixpoint run (c : client) (evs : list event) : option client :=
  match evs with
  | [] => Some c
  | ev :: evs' =>
      match step c ev with
      | Some c' => run c' evs'
      | None => None
      end
  end.

End Execute.

(** ** The descriptions the code is compared with *)

(** Every character of a string satisfies a test. *)
Fixpoint all_chars (P : ascii -> bool) (s : string) : bool :=
  match s with
  | String c s' => P c && all_chars P s'
  | "" => true
  end.

(** The characters a string keeps: a digit, [.], [-], [+], [e] or [E]. *)
Definition kept_characters : list ascii :=
  ["0"; "1"; "2"; "3"; "4"; "5"; "6"; "7"; "8"; "9";
   "."; "-"; "+"; "e"; "E"]%char.

Fixpoint keep_only (allowed : list ascii) (s : string) : string :=
  match s with
  | String c s' =>
      if existsb (Ascii.eqb c) allowed
      then String c (keep_only allowed s')
      else keep_only allowed s'
  | "" => ""
  end.

(** The normalizer in the words of its description: absent gives 0, a
    number gives itself when finite and 0 otherwise, a string is stripped,
    parsed, and gives 0 when the parse is not a number. The description
    says nothing of other values. *)
Definition num_described (v : value) : option number :=
  match v with
  | VNull | VUndefined => Some zero
  | VNum x => Some (if isFinite x then x else zero)
  | VStr s =>
      if String.eqb s "" then Some zero
      else
        let parsed := StringToNumber (keep_only kept_characters s) in
        Some (if isNaN parsed then zero else parsed)
  | VBool _ | VObj _ => None
  end.

(** A character of decoration in the everyday sense: one that is not a
    digit, a point or a sign. A letter is decoration. *)
Definition decoration (c : ascii) : bool :=
  negb (is_digit c || Ascii.eqb c "." || Ascii.eqb c "-" || Ascii.eqb c "+").

(** Decoration that holds no exponent marker either. *)
Definition plain_decoration (c : ascii) : bool :=
  (decoration c && negb (Ascii.eqb c "e" || Ascii.eqb c "E"))%bool.

(** The values the description of [num] speaks of: absent, a number or a
    string. *)
Definition raw_field (v : value) : bool :=
  match v with
  | VBool _ | VObj _ => false
  | _ => true
  end.

(** Probing a list of aliases in order: the first value that is not
    skipped, the fallback when there is none. *)
Fixpoint probe (skip : value -> bool) (s : gmap string value)
    (aliases : list string) (fallback : value) : value :=
  match aliases with
  | [] => fallback
  | k :: aliases' =>
      if skip (get s k) then probe skip s aliases' fallback else get s k
  end.

(** The alias a field is read from: its value is not skipped, and the
    value of every alias before it in the list is. *)
Definition first_kept (skip : value -> bool) (s : gmap string value)
    (aliases : list string) (k : string) : Prop :=
  exists before after,
    aliases = (before ++ k :: after)%list
    /\ (forall k', In k' before -> skip (get s k') = true)
    /\ skip (get s k) = false.

Definition is_undefined (v : value) : bool :=
  match v with
  | VUndefined => true
  | _ => false
  end.

Definition falsy (v : value) : bool := negb (truthy v).

Definition symbol_aliases := ["symbol"; "ticker"].
Definition company_aliases := ["company"; "name"].
Definition score_aliases := ["score"].
Definition price_aliases :=
  ["price"; "current_price"; "entry_price"; "avg_price"; "ltp"].
Definition stop_loss_aliases := ["stop_loss"; "stoploss"; "sl"; "stop"].
Definition percentage_allocation_aliases :=
  ["percentage_allocation"; "allocation_pct"; "alloc_percent"; "allocation"].
Definition number_of_shares_aliases :=
  ["number_of_shares"; "shares"; "qty"; "quantity"].
Definition risk_aliases := ["risk"; "risk_amount"; "max_risk"].
Definition investment_amount_aliases := ["investment_amount"].

(** The row built by probing, with one test for the text fields and one
    for the numeric fields. *)
Definition row_by_probing (skip_text skip_numeric : value -> bool)
    (s : gmap string value) : PortfolioRow :=
  let text a := probe skip_text s a (VStr "") in
  let numeric a := num (probe skip_numeric s a (VNum zero)) in
  {| symbol := text symbol_aliases;
     company := text company_aliases;
     score := numeric score_aliases;
     price := numeric price_aliases;
     stop_loss := numeric stop_loss_aliases;
     percentage_allocation := numeric percentage_allocation_aliases;
     number_of_shares := Math_round (numeric number_of_shares_aliases);
     risk := numeric risk_aliases;
     investment_amount := numeric investment_amount_aliases |}.

(** The row in the words of its description: every field takes the first
    alias that is not undefined. *)
Definition row_first_present (s : gmap string value) : PortfolioRow :=
  row_by_probing is_undefined is_undefined s.

Definition is_string (v : value) : bool :=
  match v with
  | VStr _ => true
  | _ => false
  end.

(** A response on which [execute] fails: an exception, or a body whose
    [success] is falsy. *)
Definition failed (r : response) : bool :=
  match r with
  | Body result => falsy (Envelope.success result)
  | _ => true
  end.

(** ** Inputs of the examples *)

Definition envelope_x : Envelope.t :=
  {| Envelope.success := VBool true;
     Envelope.data := VObj "[object Object]";
     Envelope.error := VUndefined |}.
Definition envelope_first : Envelope.t :=
  {| Envelope.success := VBool true;
     Envelope.data := VStr "first";
     Envelope.error := VUndefined |}.
Definition envelope_second : Envelope.t :=
  {| Envelope.success := VBool true;
     Envelope.data := VStr "second";
     Envelope.error := VUndefined |}.
Definition envelope_bad_symbol : Envelope.t :=
  {| Envelope.success := VBool false;
     Envelope.data := VUndefined;
     Envelope.error := VStr "bad symbol" |}.
Definition loaded : FetchResult :=
  {| data := VStr "earlier"; loading := false; error := VNull |}.
Definition idle_client : client :=
  {| view := initial; in_flight := ∅ |}.

Definition number_5 : number := S754_finite false 5629499534213120 (-50).
Definition number_42 : number := S754_finite false 5910974510923776 (-47).
Definition number_9_9 : number := S754_finite false 5573204538870989 (-49).
Definition number_1234_56 : number := S754_finite false 5429652300748554 (-42).

Definition number_10 : number := S754_finite false 5629499534213120 (-49).

Definition row_null_price : gmap string value :=
  {[ "price" := VNull; "current_price" := VStr "5" ]}.
Definition row_numeric_symbol : gmap string value :=
  {[ "symbol" := VNum number_42 ]}.
Definition row_both_prices : gmap string value :=
  {[ "price" := VNum number_10; "current_price" := VNum number_5 ]}.
Definition row_only_ltp : gmap string value :=
  {[ "ltp" := VStr "7" ]}.
Definition row_text : gmap string value :=
  {[ "symbol" := VStr "TCS"; "name" := VStr "Tata Consultancy";
     "qty" := VStr "2.5 units" ]}.
Definition row_other_names : gmap string value :=
  {[ "rating" := VNum number_42; "amount" := VNum number_10 ]}.
Definition row_empty_texts : gmap string value :=
  {[ "symbol" := VStr ""; "ticker" := VStr "TCS";
     "company" := VStr ""; "name" := VStr "Tata Consultancy";
     "price" := VStr ""; "current_price" := VStr "5" ]}.

Definition row_skipped_aliases : gmap string value :=
  {[ "price" := VNull; "entry_price" := VStr ""; "ltp" := VStr "7";
     "stoploss" := VNum zero; "sl" := VStr "3" ]}.

(** ** The portfolio table, [PortfolioResults]

    The table maps [normalizePortfolioRow] over the portfolio; its cells
    are further down, after [toFixed]. *)

Definition rows (portfolio : list (gmap string value)) : list PortfolioRow :=
  map normalizePortfolioRow portfolio.

(** Every key [normalizePortfolioRow] reads. *)
Definition row_keys : list string :=
  symbol_aliases ++ company_aliases ++ score_aliases ++ price_aliases
  ++ stop_loss_aliases ++ percentage_allocation_aliases
  ++ number_of_shares_aliases ++ risk_aliases ++ investment_amount_aliases.

(** The invariant of a client: while [loading] shows, a call is in
    flight; [error] is null or a message. *)
Definition client_ok (c : client) : Prop :=
  (loading (view c) = true -> in_flight c <> ∅)
  /\ (error (view c) = VNull \/ exists m, error (view c) = VStr m).

Definition row_with_notes : gmap string value :=
  {[ "symbol" := VStr "TCS"; "price" := VStr "5"; "notes" := VStr "hold" ]}.
Definition envelope_no_message : Envelope.t :=
  {| Envelope.success := VBool false;
     Envelope.data := VUndefined;
     Envelope.error := VStr "" |}.
Definition envelope_text_flag : Envelope.t :=
  {| Envelope.success := VStr "false";
     Envelope.data := VStr "payload";
     Envelope.error := VUndefined |}.

(** ** Text helpers of the views

    [toLowerCase] converts the letters of ASCII. The conversion of the
    other characters yields a letter of ASCII in two cases only (the
    Kelvin sign gives [k], the dotted capital I gives [i] followed by a
    combining dot), neither of which can form one of the words the views
    look for, so that the tests below decide as the program does. *)

Definition lower (c : ascii) : ascii :=
  let n := N_of_ascii c in
  if ((65 <=? n) && (n <=? 90))%N then ascii_of_N (n + 32) else c.

Fixpoint toLowerCase (s : string) : string :=
  match s with
  | String c s' => String (lower c) (toLowerCase s')
  | "" => ""
  end.

(** [s.startsWith(p)] and [s.includes(p)]. *)
Fixpoint startsWith (s p : string) : bool :=
  match p, s with
  | "", _ => true
  | String a p', String b s' => Ascii.eqb a b && startsWith s' p'
  | String _ _, "" => false
  end.

Fixpoint includes (s p : string) : bool :=
  startsWith s p
  || match s with
     | String _ s' => includes s' p
     | "" => false
     end.

(** ** The class pickers, [getSentimentClasses], [getGradeColor] and
    [getSignalClasses]

    Each returns a class string; [None] stands for the TypeError of
    calling a string method on a value that has none. *)

Definition sentiment_green : string :=
  "bg-green-100 text-green-800 dark:bg-green-900/50 dark:text-green-300".
Definition sentiment_red : string :=
  "bg-red-100 text-red-800 dark:bg-red-900/50 dark:text-red-300".
Definition sentiment_gray : string :=
  "bg-gray-100 text-gray-800 dark:bg-gray-700 dark:text-gray-300".

Definition getSentimentClasses (sentiment : value) : option string :=
  match (sentiment || VStr "")%js with
  | VStr t =>
      let s := toLowerCase t in
      if (includes s "bullish" || includes s "positive")%bool
      then Some sentiment_green
      else if (includes s "bearish" || includes s "negative")%bool
      then Some sentiment_red
      else Some sentiment_gray
  | _ => None
  end.

Definition grade_gray : string := "text-gray-500 dark:text-gray-400".
Definition grade_green : string := "text-green-500 dark:text-green-400".
Definition grade_blue : string := "text-blue-500 dark:text-blue-400".
Definition grade_yellow : string := "text-yellow-500 dark:text-yellow-400".
Definition grade_red : string := "text-red-500 dark:text-red-400".

Definition getGradeColor (grade : value) : option string :=
  if negb (truthy grade) then Some grade_gray
  else
    match grade with
    | VStr g =>
        if startsWith g "A" then Some grade_green
        else if startsWith g "B" then Some grade_blue
        else if startsWith g "C" then Some grade_yellow
        else Some grade_red
    | _ => None
    end.

Definition signal_none : string := "bg-gray-200 text-gray-800".
Definition signal_strong_buy : string :=
  "bg-gradient-to-r from-green-500 to-emerald-600 text-white shadow-lg".
Definition signal_buy : string :=
  "bg-gradient-to-r from-green-400 to-emerald-500 text-white".
Definition signal_hold : string :=
  "bg-gradient-to-r from-blue-400 to-indigo-500 text-white".
Definition signal_sell : string :=
  "bg-gradient-to-r from-red-500 to-rose-600 text-white".
Definition signal_other : string := "bg-gray-500 text-white".

Definition getSignalClasses (signal : value) : option string :=
  if negb (truthy signal) then Some signal_none
  else
    match signal with
    | VStr t =>
        let s := toLowerCase t in
        if includes s "strong buy" then Some signal_strong_buy
        else if includes s "buy" then Some signal_buy
        else if includes s "hold" then Some signal_hold
        else if (includes s "avoid" || includes s "sell")%bool
        then Some signal_sell
        else Some signal_other
    | _ => None
    end.

(** ** Pages: [App], [renderPage] and the [Navbar]

    The application keeps the name of the page, the selected symbol and
    the theme; the navigation bar keeps the menu that is open. *)

Record AppState := {
  page : string;
  selectedSymbol : string;
  theme : string;
  openMenu : option string
}.

(** [useState('home')], [useState('')], [useState('light')],
    [useState(null)]. *)
Definition App_initial : AppState :=
  {| page := "home"; selectedSymbol := ""; theme := "light"; openMenu := None |}.

Inductive PageView :=
| HomePage
| StocksListPage
| AnalysisPage (type : string)
| PortfolioPage (type : string)
| ComparePage (initialSymbol : string).

Definition renderPage (st : AppState) : PageView :=
  if String.eqb (page st) "home" then HomePage
  else if String.eqb (page st) "stocks" then StocksListPage
  else if String.eqb (page st) "analyze_swing" then AnalysisPage "swing"
  else if String.eqb (page st) "analyze_position" then AnalysisPage "position"
  else if String.eqb (page st) "portfolio_swing" then PortfolioPage "swing"
  else if String.eqb (page st) "portfolio_position" then PortfolioPage "position"
  else if String.eqb (page st) "compare" then ComparePage (selectedSymbol st)
  else HomePage.

(** The labels of the [switch]. *)
Definition page_labels : list string :=
  ["home"; "stocks"; "analyze_swing"; "analyze_position";
   "portfolio_swing"; "portfolio_position"; "compare"].

Record NavItem := {
  item_name : string;
  item_page : string;
  subItems : option (list string)
}.

Definition navItems : list NavItem :=
  [ {| item_name := "Home"; item_page := "home"; subItems := None |};
    {| item_name := "Stocks"; item_page := "stocks"; subItems := None |};
    {| item_name := "Swing Trading"; item_page := "swing";
       subItems := Some ["View All Stocks"; "Analyze Stock"; "Create Portfolio"] |};
    {| item_name := "Position Trading"; item_page := "position";
       subItems := Some ["View All Stocks"; "Analyze Stock"; "Create Portfolio"] |};
    {| item_name := "Compare"; item_page := "compare"; subItems := None |} ].

Definition setPage (p : string) (st : AppState) : AppState :=
  {| page := p; selectedSymbol := selectedSymbol st; theme := theme st;
     openMenu := openMenu st |}.
Definition setSelectedSymbol (s : string) (st : AppState) : AppState :=
  {| page := page st; selectedSymbol := s; theme := theme st;
     openMenu := openMenu st |}.
Definition setTheme (t : string) (st : AppState) : AppState :=
  {| page := page st; selectedSymbol := selectedSymbol st; theme := t;
     openMenu := openMenu st |}.
Definition setOpenMenu (m : option string) (st : AppState) : AppState :=
  {| page := page st; selectedSymbol := selectedSymbol st; theme := theme st;
     openMenu := m |}.

Definition handleSubItemClick (mainPage subItem : string) (st : AppState)
  : AppState :=
  let st' :=
    if String.eqb subItem "View All Stocks" then setPage "stocks" st
    else if String.eqb subItem "Analyze Stock"
    then setPage ("analyze_" ++ mainPage) st
    else if String.eqb subItem "Create Portfolio"
    then setPage ("portfolio_" ++ mainPage) st
    else st in
  setOpenMenu None st'.

Definition toggleTheme (st : AppState) : AppState :=
  setTheme (if String.eqb (theme st) "light" then "dark" else "light") st.

Definition handleStockSelection (symbol : string) (st : AppState) : AppState :=
  setPage "compare" (setSelectedSymbol symbol st).

(** The button of a navigation item: it opens or closes the menu of an
    item that has one, and goes to the page of an item that has none. *)
Definition clickItem (item : NavItem) (st : AppState) : AppState :=
  match subItems item with
  | Some _ =>
      setOpenMenu
        (if bool_decide (openMenu st = Some (item_page item))
         then None else Some (item_page item)) st
  | None => setPage (item_page item) st
  end.

(** What the user can do. An entry of a menu is there to click while the
    menu of its item is open, and a stock while the stocks page shows. *)
Inductive action :=
| ClickLogo
| ClickItem (i : nat)
| ClickSubItem (i j : nat)
| ClickOutside
| ToggleTheme
| SelectStock (symbol : string)
| ClearSelection.

Definition App_step (st : AppState) (a : action) : option AppState :=
  match a with
  | ClickLogo => Some (setPage "home" st)
  | ClickItem i =>
      match nth_error navItems i with
      | Some item => Some (clickItem item st)
      | None => None
      end
  | ClickSubItem i j =>
      match nth_error navItems i with
      | Some item =>
          match subItems item with
          | Some subs =>
              match nth_error subs j with
              | Some sub =>
                  if bool_decide (openMenu st = Some (item_page item))
                  then Some (handleSubItemClick (item_page item) sub st)
                  else None
              | None => None
              end
          | None => None
          end
      | None => None
      end
  | ClickOutside => Some (setOpenMenu None st)
  | ToggleTheme => Some (toggleTheme st)
  | SelectStock symbol =>
      if String.eqb (page st) "stocks"
      then Some (handleStockSelection symbol st) else None
  | ClearSelection =>
      if String.eqb (page st) "compare"
      then Some (setSelectedSymbol "" st) else None
  end.

Fixpoint App_run (st : AppState) (acts : list action) : option AppState :=
  match acts with
  | [] => Some st
  | a :: acts' =>
      match App_step st a with
      | Some st' => App_run st' acts'
      | None => None
      end
  end.

Definition is_toggle (a : action) : bool :=
  match a with
  | ToggleTheme => true
  | _ => false
  end.

(** What every state of the application satisfies. *)
Definition App_ok (st : AppState) : Prop :=
  In (page st) page_labels
  /\ (theme st = "light" \/ theme st = "dark")
  /\ (openMenu st = None \/ openMenu st = Some "swing"
      \/ openMenu st = Some "position").

(** ** The stocks list, [StocksListPage]

    [stocks] is [data?.stocks]: [None] when there is no data or no list.
    Symbols and search terms are taken to be ASCII, where [toLowerCase]
    is the conversion of the program. *)

Definition filteredStocks (stocks : option (list string)) (searchTerm : string)
  : list string :=
  match stocks with
  | Some l =>
      List.filter
        (fun stock => includes (toLowerCase stock) (toLowerCase searchTerm)) l
  | None => []
  end.

Definition ascii_only (s : string) : bool :=
  all_chars (fun c => (N_of_ascii c <? 128)%N) s.

(** ** The grid of data points, [DataGrid], and [SentimentNewsTab]

    An object is the list of its entries in the order of
    [Object.entries]; [None] is a value that is falsy or not an object. *)

Definition displayable (v : value) : bool :=
  match v with
  | VStr _ | VNum _ => true
  | _ => false
  end.

Definition validEntries (data : list (string * value)) : list (string * value) :=
  List.filter (fun '(_, value) => displayable value) data.

(** [key.replace(/_/g, ' ')]. *)
Fixpoint replace_underscores (key : string) : string :=
  match key with
  | String c key' =>
      String (if Ascii.eqb c "_" then " "%char else c) (replace_underscores key')
  | "" => ""
  end.

Inductive DataGridView :=
| NoDataAvailable
| NoValidDataPoints
| Grid (cells : list (string * value)).

Definition DataGrid (data : option (list (string * value))) : DataGridView :=
  match data with
  | None => NoDataAvailable
  | Some entries =>
      match validEntries entries with
      | [] => NoValidDataPoints
      | valid => Grid (map (fun '(key, value) => (replace_underscores key, value)) valid)
      end
  end.

(** [const { mda_tone, mda_score, ...marketSentiment } = data.sentiment || {}]:
    the entries left once the two keys are taken out. *)
Definition marketSentiment (sentiment : option (list (string * value)))
  : list (string * value) :=
  List.filter
    (fun '(key, _) => negb (String.eqb key "mda_tone" || String.eqb key "mda_score"))
    (default [] sentiment).

Definition SentimentGrid (sentiment : option (list (string * value)))
  : DataGridView :=
  DataGrid (Some (marketSentiment sentiment)).

(** ** The disclaimer, [DisclaimerFooter]

    A text is a sequence of code units, whatever they are; [substring(0,
    200)] takes the first 200 of them. *)

Section Disclaimer.

Variable code_unit : Type.
Variable full_stop : code_unit.

Definition disclaimer_shown (showFull : bool) (text : list code_unit)
  : list code_unit :=
  if showFull then text
  else (firstn 200 text ++ [full_stop; full_stop; full_stop])%list.

End Disclaimer.

Definition stocks_sample : list string := ["RELIANCE.NS"; "TCS.NS"; "tatasteel.ns"].
Definition sentiment_sample : list (string * value) :=
  [("overall_sentiment", VStr "Bullish"); ("mda_tone", VStr "Positive");
   ("news_count", VNum number_42); ("mda_score", VNum number_5);
   ("sources", VObj "a,b")].

(** ** The integer a number stands for

    A finite number is [(-1)^s * m * 2^e]; it is a whole number when [e]
    is not negative or [m] is a multiple of [2^(-e)]. *)

Definition signed_mantissa (s : bool) (m : positive) : Z :=
  if s then Zneg m else Zpos m.

Definition integer_of (x : number) : option Z :=
  match x with
  | S754_zero _ => Some 0
  | S754_finite s m e =>
      if 0 <=? e then Some (signed_mantissa s m * 2 ^ e)
      else if signed_mantissa s m mod 2 ^ (- e) =? 0
      then Some (signed_mantissa s m / 2 ^ (- e))
      else None
  | S754_infinity _ | S754_nan => None
  end.

Definition row_fraction : gmap string value :=
  {[ "shares" := VStr "12.5 units" ]}.

(** [n] is the whole number nearest to [sm * 2^e], a half going up. *)
Definition nearest_half_up (sm e n : Z) : Prop :=
  if 0 <=? e then n = sm * 2 ^ e
  else 2 ^ (1 - e) * n <= 2 * sm + 2 ^ (- e) < 2 ^ (1 - e) * (n + 1).

Definition number_minus_2_5 : number := S754_finite true 5629499534213120 (-51).
Definition row_half_shares : gmap string value :=
  {[ "number_of_shares" := VNum number_minus_2_5 ]}.

(** ** Fixed-point notation: [toFixed] and [formatPercentage] *)

From Stdlib Require Import DecimalString DecimalN DecimalPos.

(** The decimal digits of a natural number. *)
Definition decimal (n : N) : string := NilZero.string_of_uint (N.to_uint n).

Fixpoint zeros (z : nat) : string :=
  match z with
  | O => ""
  | S z' => String "0" (zeros z')
  end.

Fixpoint first_units (n : nat) (s : string) : string :=
  match n, s with
  | S n', String c s' => String c (first_units n' s')
  | _, _ => ""
  end.

Fixpoint other_units (n : nat) (s : string) : string :=
  match n, s with
  | S n', String _ s' => other_units n' s'
  | _, _ => s
  end.

(** The digits of [n] with a point before the last [f] of them, and
    zeros before when there are not enough. *)
Definition fixed_notation (f : nat) (n : N) : string :=
  let m := decimal n in
  match f with
  | O => m
  | S _ =>
      let k := String.length m in
      let m := if (k <=? f)%nat then zeros (f + 1 - k) ++ m else m in
      let k := String.length m in
      first_units (k - f) m ++ "." ++ other_units (k - f) m
  end.

(** The integer nearest to [m * 2^e * 10^f], a half going up. *)
Definition scaled (m : positive) (e : Z) (f : nat) : N :=
  let t := Zpos m * 10 ^ Z.of_nat f in
  Z.to_N (if 0 <=? e then t * 2 ^ e
          else Z.shiftr (2 * t + 2 ^ (- e)) (1 - e)).

(** [10^21 <= m * 2^e]. *)
Definition at_least_1e21 (m : positive) (e : Z) : bool :=
  if 0 <=? e then 10 ^ 21 <=? Zpos m * 2 ^ e
  else 10 ^ 21 * 2 ^ (- e) <=? Zpos m.

Section ToFixed.

(** The notation of a number of [10^21] or more is that of [String];
    left open. *)
Variable NumberToString : number -> string.

(** [x.toFixed(f)], for the [f] of the program: 0, 1 and 2, all within
    the 0 to 100 the method accepts. *)
Definition toFixed (f : nat) (x : number) : string :=
  match x with
  | S754_nan => "NaN"
  | S754_infinity s => if s then "-Infinity" else "Infinity"
  | S754_zero _ => fixed_notation f 0
  | S754_finite s m e =>
      (if s then "-" else "")
      ++ (if at_least_1e21 m e then NumberToString (S754_finite false m e)
          else fixed_notation f (scaled m e f))
  end.

(** The number 1, and [formatPercentage]. Every call hands it the result
    of [num], a number, which [??] leaves as it is. *)
Definition one : number := S754_finite false 4503599627370496 (-52).

Definition formatPercentage (value : number) : string :=
  toFixed 1 (SFmul prec emax value one) ++ "%".

End ToFixed.

Definition number_minus_0_01 : number :=
  S754_finite true 5764607523034235 (-59).
Definition number_12_34 : number := S754_finite false 6946802425218990 (-49).

(** ** The portfolio form, [PortfolioPage.handleSubmit]

    [parseFloat] reads the longest literal a text starts with, after
    white space (that of ASCII here), and is NaN when there is none;
    [parseInt] with base 10 reads a sign and the digits that follow. Both
    take the exact value of the digits. *)

(** The exponent a text starts with, 0 when it starts with none. *)
Definition exponent_prefix (s : string) : Z :=
  match s with
  | String c r =>
      if (Ascii.eqb c "e" || Ascii.eqb c "E")%bool then
        let (neg, r1) := Sign r in
        match DecimalDigits r1 with
        | ("", _) => 0
        | (d, _) => if neg then - MV 0 d else MV 0 d
        end
      else 0
  | "" => 0
  end.

Definition parseFloat (s : string) : number :=
  let (neg, r) := Sign (trim_start s) in
  if startsWith r "Infinity" then S754_infinity neg
  else
    let (ip, r1) := DecimalDigits r in
    let (fp, r2) :=
      match r1 with
      | String "." r' => DecimalDigits r'
      | _ => ("", r1)
      end in
    match ip ++ fp with
    | "" => NaN
    | String _ _ as ds =>
        of_decimal neg (MV 0 ds)
          (exponent_prefix r2 - Z.of_nat (String.length fp))
    end.

Definition parseInt10 (s : string) : number :=
  let (neg, r) := Sign (trim_start s) in
  match DecimalDigits r with
  | ("", _) => NaN
  | (d, _) => of_integer neg (MV 0 d)
  end.

(** The body of the request. *)
Record PortfolioRequest := {
  budget : number;
  risk_appetite : string;
  time_period : option number
}.

Definition handleSubmit (type budget risk timePeriod : string)
  : PortfolioRequest :=
  {| budget := parseFloat budget;
     risk_appetite := risk;
     time_period :=
       if String.eqb type "position" then Some (parseInt10 timePeriod)
       else None |}.

(** ** The cells of the portfolio table, [PortfolioResults]

    For one row of the table: the text of the score cell, which is
    ['N/A'] for a falsy score and [score.toFixed(0)] otherwise, and the
    numbers the other five numeric cells hand to their formatters, each
    field passing through [num] once more. *)

Record TableCells := {
  cell_score : string;
  cell_price : number;
  cell_stop_loss : number;
  cell_percentage_allocation : number;
  cell_number_of_shares : number;
  cell_risk : number
}.

Definition table_cells (NumberToString : number -> string) (s : PortfolioRow)
  : TableCells :=
  {| cell_score :=
       if truthy (VNum (score s)) then toFixed NumberToString 0 (score s)
       else "N/A";
     cell_price := num (VNum (price s));
     cell_stop_loss := num (VNum (stop_loss s));
     cell_percentage_allocation := num (VNum (percentage_allocation s));
     cell_number_of_shares := num (VNum (number_of_shares s));
     cell_risk := num (VNum (risk s)) |}.

Definition row_overflow_score : gmap string value :=
  {[ "score" := VStr "1e999"; "price" := VStr "-1e999" ]}.

(** ** The body of the request, [JSON.stringify]

    [execute] sends the object it is given as [JSON.stringify] writes it:
    the members in the order they were added, a name and a string between
    quotation marks with the escapes of JSON, a number by its decimal
    representation when it is finite and as [null] when it is NaN or an
    infinity, a member that is undefined left out. A string is the UTF-8
    of a well-formed text, whose bytes from 128 on are written as they
    are. *)

Definition quotation_mark : ascii := "034"%char.
Definition reverse_solidus : ascii := "092"%char.

Definition hex_digit (n : N) : ascii :=
  ascii_of_N (if (n <? 10)%N then 48 + n else 87 + n).

(** One code unit between the quotation marks. *)
Definition QuoteJSONUnit (c : ascii) : string :=
  let n := N_of_ascii c in
  if (n =? 8)%N then String reverse_solidus "b"
  else if (n =? 9)%N then String reverse_solidus "t"
  else if (n =? 10)%N then String reverse_solidus "n"
  else if (n =? 12)%N then String reverse_solidus "f"
  else if (n =? 13)%N then String reverse_solidus "r"
  else if (n =? 34)%N then String reverse_solidus (String quotation_mark "")
  else if (n =? 92)%N then String reverse_solidus (String reverse_solidus "")
  else if (n <? 32)%N then
    String reverse_solidus
      ("u00" ++ String (hex_digit (n / 16)) (String (hex_digit (n mod 16)) ""))
  else String c "".

Fixpoint QuoteJSONUnits (s : string) : string :=
  match s with
  | String c s' => QuoteJSONUnit c ++ QuoteJSONUnits s'
  | "" => ""
  end.

Definition QuoteJSONString (s : string) : string :=
  String quotation_mark (QuoteJSONUnits s ++ String quotation_mark "").

(** The members of an object, each with its value already written. *)
Fixpoint SerializeJSONMembers (members : list (string * string)) : string :=
  match members with
  | [] => ""
  | [(k, v)] => QuoteJSONString k ++ ":" ++ v
  | (k, v) :: rest =>
      QuoteJSONString k ++ ":" ++ v ++ "," ++ SerializeJSONMembers rest
  end.

Definition SerializeJSONObject (members : list (string * string)) : string :=
  "{" ++ SerializeJSONMembers members ++ "}".

Section Stringify.

Variable NumberToString : number -> string.

Definition SerializeJSONNumber (x : number) : string :=
  if isFinite x then NumberToString x else "null".

(** [JSON.stringify(p)] for the object [handleSubmit] builds. *)
Definition JSON_stringify (p : PortfolioRequest) : string :=
  SerializeJSONObject
    ([("budget", SerializeJSONNumber (budget p));
      ("risk_appetite", QuoteJSONString (risk_appetite p))]
     ++ match time_period p with
        | Some t => [("time_period", SerializeJSONNumber t)]
        | None => []
        end)%list.

End Stringify.

(** The text [{"budget":] a body starts with. *)
Definition budget_member : string :=
  "{" ++ QuoteJSONString "budget" ++ ":".

(** ** The normalizer on whole JSON values

    [String(v)] is not defined on every value of a payload. For an
    object it looks for a method [toString], then [valueOf], that returns
    a primitive. An object parsed from JSON finds
    [Object.prototype.toString], which gives ["[object Object]"], unless
    it has a member of its own named [toString]: what it holds there is a
    JSON value, not a function, [Object.prototype.valueOf] returns the
    object itself, and the conversion throws a TypeError. An array joins
    the strings of its elements with commas, the empty string standing
    for null and undefined, and throws when the conversion of an element
    does. This is the conversion of ECMAScript; what an engine adds of
    its own, such as a limit on the depth of nested arrays, is left out.

    [num] and [normalizePortfolioRow] are embedded a second time here,
    over JSON values as they are parsed and with the exception; the
    embedding above is this one on the values that have a string. *)

#[warnings="-register-all"] Inductive json :=
| JUndefined
| JNull
| JBool (b : bool)
| JNum (x : number)
| JStr (s : string)
| JArr (items : list json)
| JObj (members : list (string * json)).

Module Throwing.

Definition truthy (v : json) : bool :=
  match v with
  | JUndefined | JNull => false
  | JBool b => b
  | JNum x =>
      match x with
      | S754_zero _ | S754_nan => false
      | _ => true
      end
  | JStr s => negb (String.eqb s "")
  | JArr _ | JObj _ => true
  end.

Definition nullish (v : json) : bool :=
  match v with
  | JUndefined | JNull => true
  | _ => false
  end.

Definition coalesce (a b : json) : json := if nullish a then b else a.
Definition or_else (a b : json) : json := if truthy a then a else b.

Declare Scope json_scope.
Delimit Scope json_scope with json.
Bind Scope json_scope with json.
Notation "a ?? b" := (coalesce a b) (at level 50, left associativity) : json_scope.
Notation "a || b" := (or_else a b) : json_scope.

Definition get (s : gmap string json) (k : string) : json :=
  default JUndefined (s !! k).

(** An object has a member of its own under a name. *)
Definition hasOwnProperty (members : list (string * json)) (k : string) : bool :=
  existsb (fun m => String.eqb (fst m) k) members.

(** [Array.prototype.join] on the strings of the elements; [None] is an
    exception thrown by the conversion of one of them. *)
Fixpoint join (elements : list (option string)) : option string :=
  match elements with
  | [] => Some ""
  | [e] => e
  | e :: rest =>
      match e, join rest with
      | Some a, Some b => Some (a ++ "," ++ b)
      | _, _ => None
      end
  end.

Section ToString.

Variable NumberToString : number -> string.

(** [String(v)]; [None] when it throws. *)
Fixpoint ToString (v : json) : option string :=
  match v with
  | JUndefined => Some "undefined"
  | JNull => Some "null"
  | JBool b => Some (if b then "true" else "false")
  | JNum x => Some (NumberToString x)
  | JStr s => Some s
  | JArr items =>
      join (map (fun e =>
                   match e with
                   | JUndefined | JNull => Some ""
                   | _ => ToString e
                   end) items)
  | JObj members =>
      if hasOwnProperty members "toString" then None
      else Some "[object Object]"
  end.

(** [num]; [None] when [String(v)] throws. *)
Definition num (v : json) : option number :=
  match v with
  | JNull | JUndefined | JStr "" => Some zero
  | JNum x => Some (if isFinite x then x else zero)
  | _ => option_map coerce (ToString v)
  end.

Record PortfolioRow := {
  symbol : json;
  company : json;
  score : number;
  price : number;
  stop_loss : number;
  percentage_allocation : number;
  number_of_shares : number;
  risk : number;
  investment_amount : number
}.

(** The fields of the object are evaluated in the order they are
    written; the first [num] that throws ends the call. *)
Definition normalizePortfolioRow (s : gmap string json) : option PortfolioRow :=
  let price :=
    (get s "price" ?? get s "current_price" ?? get s "entry_price"
       ?? get s "avg_price" ?? get s "ltp" ?? JNum zero)%json in
  let stopLoss :=
    (get s "stop_loss" ?? get s "stoploss" ?? get s "sl" ?? get s "stop"
       ?? JNum zero)%json in
  let alloc :=
    (get s "percentage_allocation" ?? get s "allocation_pct"
       ?? get s "alloc_percent" ?? get s "allocation" ?? JNum zero)%json in
  let shares :=
    (get s "number_of_shares" ?? get s "shares" ?? get s "qty"
       ?? get s "quantity" ?? JNum zero)%json in
  let risk :=
    (get s "risk" ?? get s "risk_amount" ?? get s "max_risk" ?? JNum zero)%json in
  match num (get s "score") with None => None | Some score_ =>
  match num price with None => None | Some price_ =>
  match num stopLoss with None => None | Some stop_loss_ =>
  match num alloc with None => None | Some percentage_allocation_ =>
  match num shares with None => None | Some number_of_shares_ =>
  match num risk with None => None | Some risk_ =>
  match num (get s "investment_amount") with None => None | Some investment_amount_ =>
  Some {| symbol := (get s "symbol" || get s "ticker" || JStr "")%json;
          company := (get s "company" || get s "name" || JStr "")%json;
          score := score_;
          price := price_;
          stop_loss := stop_loss_;
          percentage_allocation := percentage_allocation_;
          number_of_shares := Math_round number_of_shares_;
          risk := risk_;
          investment_amount := investment_amount_ |}
  end end end end end end end.

End ToString.

Definition is_string (v : json) : bool :=
  match v with
  | JStr _ => true
  | _ => false
  end.

Definition string_or_absent (v : json) : bool :=
  match v with
  | JStr _ | JUndefined | JNull => true
  | _ => false
  end.

End Throwing.

(** A value that has no string: an object that has a member of its own
    named [toString], or an array that holds a value that has no
    string. *)
Fixpoint no_string (v : json) : bool :=
  match v with
  | JObj members => Throwing.hasOwnProperty members "toString"
  | JArr items => existsb no_string items
  | _ => false
  end.

(** The value a list of aliases selects: that of the first alias which
    is neither null nor undefined, 0 when there is none. *)
Fixpoint selected (s : gmap string json) (aliases : list string) : json :=
  match aliases with
  | [] => JNum zero
  | k :: aliases' =>
      if Throwing.nullish (Throwing.get s k) then selected s aliases'
      else Throwing.get s k
  end.

(** The alias lists of the seven numeric fields. *)
Definition numeric_aliases : list (list string) :=
  [score_aliases; price_aliases; stop_loss_aliases;
   percentage_allocation_aliases; number_of_shares_aliases; risk_aliases;
   investment_amount_aliases].

(** A JSON value as a [value], when it has a string. *)
Definition to_value (NumberToString : number -> string) (v : json)
  : option value :=
  match v with
  | JUndefined => Some VUndefined
  | JNull => Some VNull
  | JBool b => Some (VBool b)
  | JNum x => Some (VNum x)
  | JStr s => Some (VStr s)
  | JArr _ | JObj _ => option_map VObj (Throwing.ToString NumberToString v)
  end.

Definition to_row (NumberToString : number -> string)
    (r : Throwing.PortfolioRow) : option PortfolioRow :=
  match to_value NumberToString (Throwing.symbol r),
        to_value NumberToString (Throwing.company r) with
  | Some symbol_, Some company_ =>
      Some {| symbol := symbol_;
              company := company_;
              score := Throwing.score r;
              price := Throwing.price r;
              stop_loss := Throwing.stop_loss r;
              percentage_allocation := Throwing.percentage_allocation r;
              number_of_shares := Throwing.number_of_shares r;
              risk := Throwing.risk r;
              investment_amount := Throwing.investment_amount r |}
  | _, _ => None
  end.

Definition json_toString_member : json := JObj [("toString", JNum one)].

Definition row_price_throws : gmap string json :=
  {[ "price" := json_toString_member ]}.
Definition row_json_numeric_symbol : gmap string json :=
  {[ "symbol" := JNum number_42 ]}.
Definition row_ltp_unread : gmap string json :=
  {[ "symbol" := JStr "TCS"; "price" := JStr "5";
     "qty" := JArr [JNum number_5; JNull];
     "ltp" := json_toString_member ]}.
Definition row_ltp_unread_result : Throwing.PortfolioRow :=
  {| Throwing.symbol := JStr "TCS"; Throwing.company := JStr "";
     Throwing.score := zero; Throwing.price := number_5;
     Throwing.stop_loss := zero; Throwing.percentage_allocation := zero;
     Throwing.number_of_shares := number_5; Throwing.risk := zero;
     Throwing.investment_amount := zero |}.

(** ** The numbers of some literals *)

Example StringToNumber_tenth :
  StringToNumber "0.1" = S754_finite false 7205759403792794 (-56).
Proof. reflexivity. Qed.

Example StringToNumber_largest :
  StringToNumber "1.7976931348623158e308"
  = S754_finite false 9007199254740991 971.
Proof. vm_compute. reflexivity. Qed.

Example StringToNumber_overflow :
  StringToNumber "1.7976931348623159e308" = Infinity.
Proof. vm_compute. reflexivity. Qed.

Example StringToNumber_tie_to_even :
  StringToNumber "9007199254740993" = StringToNumber "9007199254740992"
  /\ StringToNumber "9007199254740995" = StringToNumber "9007199254740996".
Proof. vm_compute. auto. Qed.

Example StringToNumber_smallest :
  StringToNumber "5e-324" = S754_finite false 1 (-1074)
  /\ StringToNumber "2.4703282292062327e-324" = zero.
Proof. vm_compute. auto. Qed.

Example StringToNumber_not_literals :
  map StringToNumber ["-"; "."; "e5"; "1e"; "1.2.3"; "9.9ee"; "+-1"]
  = [NaN; NaN; NaN; NaN; NaN; NaN; NaN].
Proof. reflexivity. Qed.

Example StringToNumber_forms :
  map StringToNumber ["5."; ".5e1"; "+5"; "05.0"; "50e-1"; "0.5E+1"]
  = [number_5; number_5; number_5; number_5; number_5; number_5]
  /\ StringToNumber "" = zero /\ StringToNumber "-0" = S754_zero true.
Proof. vm_compute. auto. Qed.

Example Math_round_halves :
  map Math_round (map StringToNumber ["2.5"; "-2.5"; "0.5"; "-0.5"; "-0.2"; "0.4"])
  = [StringToNumber "3"; StringToNumber "-2"; StringToNumber "1";
     S754_zero true; S754_zero true; zero].
Proof. vm_compute. reflexivity. Qed.

(** ** Rounding never produces NaN *)

Section RoundingNotNaN.

Lemma shr_1_nonneg mrs : 0 <= shr_m mrs -> 0 <= shr_m (shr_1 mrs).
Proof.
  destruct mrs as [m r s]; destruct m as [|[p|p|]|[p|p|]]; simpl; lia.
Qed.

Lemma iter_shr_1_nonneg p :
  forall mrs, 0 <= shr_m mrs -> 0 <= shr_m (SpecFloat.iter_pos shr_1 p mrs).
Proof.
  induction p as [p IH|p IH|]; simpl; intros mrs H.
  - apply IH, IH, shr_1_nonneg, H.
  - apply IH, IH, H.
  - apply shr_1_nonneg, H.
Qed.

Lemma shr_fexp_nonneg m e l :
  0 <= m -> 0 <= shr_m (fst (shr_fexp prec emax m e l)).
Proof.
  intros H. unfold shr_fexp, shr.
  assert (H0 : 0 <= shr_m (shr_record_of_loc m l))
    by (destruct l as [|[]]; exact H).
  destruct (fexp prec emax (Zdigits2 m + e) - e); simpl; auto.
  apply iter_shr_1_nonneg, H0.
Qed.

Lemma round_nearest_even_nonneg m l :
  0 <= m -> 0 <= round_nearest_even m l.
Proof.
  intros H. destruct l as [|[]]; simpl; try lia.
  destruct (Z.even m); lia.
Qed.

Lemma binary_round_aux_not_nan s m e l :
  0 <= m -> isNaN (binary_round_aux prec emax s m e l) = false.
Proof.
  intros H. unfold binary_round_aux.
  pose proof (shr_fexp_nonneg m e l H) as H1.
  destruct (shr_fexp prec emax m e l) as [mrs1 e1]; simpl in H1.
  pose proof (shr_fexp_nonneg _ e1 loc_Exact
                (round_nearest_even_nonneg _ (loc_of_shr_record mrs1) H1)) as H2.
  destruct (shr_fexp prec emax _ e1 loc_Exact) as [mrs2 e2]; simpl in H2.
  destruct (shr_m mrs2) as [|q|q]; [reflexivity| |lia].
  destruct (e2 <=? emax - prec); reflexivity.
Qed.

Lemma binary_round_not_nan s p e :
  isNaN (binary_round prec emax s p e) = false.
Proof.
  unfold binary_round. destruct (shl_align p e _) as [mz ez].
  apply binary_round_aux_not_nan. lia.
Qed.

Lemma of_integer_not_nan s m : 0 <= m -> isNaN (of_integer s m) = false.
Proof.
  destruct m; simpl; intros H; [reflexivity| |lia].
  apply binary_round_not_nan.
Qed.

Lemma of_quotient_not_nan s m d : isNaN (of_quotient s m d) = false.
Proof.
  unfold of_quotient, SFdiv_core_binary.
  set (k := _ - _ - Z.min _ _).
  set (m' := match k with Z0 => Zpos m | Zpos _ => Z.shiftl (Zpos m) k | Zneg _ => 0 end).
  assert (Hm : 0 <= m').
  { subst m'. destruct k; try lia. apply Z.shiftl_nonneg. lia. }
  pose proof (Z.div_pos m' (Zpos d) Hm ltac:(lia)) as Hq.
  unfold Z.div in Hq. destruct (Z.div_eucl m' (Zpos d)) as [q r]; simpl in Hq.
  apply binary_round_aux_not_nan, Hq.
Qed.

Lemma of_decimal_not_nan s m e : 0 <= m -> isNaN (of_decimal s m e) = false.
Proof.
  intros H. unfold of_decimal. destruct m as [|p|p]; [reflexivity| |lia].
  destruct (0 <=? e) eqn:He.
  - apply of_integer_not_nan. apply Z.leb_le in He.
    apply Z.mul_nonneg_nonneg; [lia|]. apply Z.pow_nonneg. lia.
  - apply of_quotient_not_nan.
Qed.

Lemma Math_round_not_nan x : isNaN x = false -> isNaN (Math_round x) = false.
Proof.
  destruct x as [s|s| |s m e]; simpl; try (intros; reflexivity || assumption).
  intros _. destruct (0 <=? e); [reflexivity|].
  destruct (Z.shiftr _ _); [reflexivity| |]; apply binary_round_not_nan.
Qed.

End RoundingNotNaN.

(** ** Characters *)

Ltac ascii_cases c := destruct c as [[] [] [] [] [] [] [] []].

Lemma kept_characters_numeric c :
  existsb (Ascii.eqb c) kept_characters = numeric_char c.
Proof. ascii_cases c; reflexivity. Qed.

Lemma digit_numeric c : is_digit c = true -> numeric_char c = true.
Proof. unfold numeric_char. intros ->. reflexivity. Qed.

Lemma digit_value_nonneg c : is_digit c = true -> 0 <= digit_value c.
Proof.
  unfold is_digit, digit_value. intros H.
  apply andb_true_iff in H as [H _]. apply N.leb_le in H. lia.
Qed.

Lemma numeric_not_space c : numeric_char c = true -> is_space c = false.
Proof. ascii_cases c; vm_compute; congruence. Qed.

Lemma numeric_not_radix_prefix p :
  numeric_char p = true ->
  (Ascii.eqb p "x" || Ascii.eqb p "X")%bool = false
  /\ (Ascii.eqb p "o" || Ascii.eqb p "O")%bool = false
  /\ (Ascii.eqb p "b" || Ascii.eqb p "B")%bool = false.
Proof. ascii_cases p; vm_compute; intuition congruence. Qed.

Lemma radix_digit_zero c : radix_digit 0 c = None.
Proof. ascii_cases c; reflexivity. Qed.

(** ** Strings *)

Lemma all_chars_app P a b :
  all_chars P (a ++ b) = (all_chars P a && all_chars P b)%bool.
Proof.
  induction a as [|c a IH]; simpl; [reflexivity|].
  rewrite IH. apply andb_assoc.
Qed.

Lemma all_chars_impl (P Q : ascii -> bool) s :
  (forall c, P c = true -> Q c = true) ->
  all_chars P s = true -> all_chars Q s = true.
Proof.
  intros HPQ. induction s as [|c s IH]; simpl; [reflexivity|].
  intros H. apply andb_true_iff in H as [Hc Hs].
  rewrite (HPQ c Hc), (IH Hs). reflexivity.
Qed.

Lemma replace_non_numeric_app a b :
  replace_non_numeric (a ++ b) = replace_non_numeric a ++ replace_non_numeric b.
Proof.
  induction a as [|c a IH]; simpl; [reflexivity|].
  destruct (numeric_char c); simpl; rewrite IH; reflexivity.
Qed.

Lemma replace_non_numeric_keeps s :
  all_chars numeric_char s = true -> replace_non_numeric s = s.
Proof.
  induction s as [|c s IH]; simpl; [reflexivity|].
  intros H. apply andb_true_iff in H as [Hc Hs].
  rewrite Hc, (IH Hs). reflexivity.
Qed.

Lemma replace_non_numeric_drops s :
  all_chars (fun c => negb (numeric_char c)) s = true ->
  replace_non_numeric s = "".
Proof.
  induction s as [|c s IH]; simpl; [reflexivity|].
  intros H. apply andb_true_iff in H as [Hc Hs].
  apply negb_true_iff in Hc. rewrite Hc. apply IH, Hs.
Qed.

Lemma keep_only_kept_characters s :
  keep_only kept_characters s = replace_non_numeric s.
Proof.
  induction s as [|c s IH]; cbn [keep_only replace_non_numeric]; [reflexivity|].
  rewrite kept_characters_numeric, IH. reflexivity.
Qed.

Lemma append_empty_r (s : string) : s ++ "" = s.
Proof.
  induction s as [|c s IH]; [reflexivity|].
  change (String c s ++ "") with (String c (s ++ "")). rewrite IH. reflexivity.
Qed.

(** ** The grammar of numeric literals accepts kept characters only *)

Lemma DecimalDigits_spec s :
  forall d r, DecimalDigits s = (d, r) ->
    s = d ++ r /\ all_chars is_digit d = true.
Proof.
  induction s as [|c s IH]; simpl; intros d r H.
  - inversion H; subst. split; reflexivity.
  - destruct (is_digit c) eqn:Hc.
    + destruct (DecimalDigits s) as [d' r'].
      destruct (IH d' r' eq_refl) as [-> Hd].
      inversion H; subst. simpl. rewrite Hc, Hd. split; reflexivity.
    + inversion H; subst. split; reflexivity.
Qed.

Lemma MV_nonneg d :
  forall acc, 0 <= acc -> all_chars is_digit d = true -> 0 <= MV acc d.
Proof.
  induction d as [|c d IH]; simpl; intros acc Hacc H; [exact Hacc|].
  apply andb_true_iff in H as [Hc Hd].
  apply IH; [|exact Hd]. pose proof (digit_value_nonneg c Hc). lia.
Qed.

Lemma Sign_spec s neg r :
  Sign s = (neg, r) ->
  s = r \/ exists c, numeric_char c = true /\ s = String c r.
Proof.
  unfold Sign. intros H.
  destruct s as [|c s]; [inversion H; auto|].
  destruct (Ascii.eqb_spec c "-") as [->|Hm];
    [inversion H; subst; right; eexists; split; [|reflexivity]; reflexivity|].
  destruct (Ascii.eqb_spec c "+") as [->|Hp];
    [inversion H; subst; right; eexists; split; [|reflexivity]; reflexivity|].
  left.
  ascii_cases c; try (inversion H; reflexivity); congruence.
Qed.

Lemma digits_numeric d : all_chars is_digit d = true -> all_chars numeric_char d = true.
Proof. apply all_chars_impl, digit_numeric. Qed.

Lemma ExponentPart_chars s x :
  ExponentPart s = Some x -> all_chars numeric_char s = true.
Proof.
  unfold ExponentPart. destruct s as [|c s]; [reflexivity|].
  destruct (Ascii.eqb c "e" || Ascii.eqb c "E")%bool eqn:Hc; [|discriminate].
  destruct (Sign s) as [neg r1] eqn:Hs.
  destruct (DecimalDigits r1) as [d r2] eqn:Hd.
  destruct (DecimalDigits_spec _ _ _ Hd) as [-> Hdig].
  intros H. destruct d as [|c' d]; [discriminate|].
  destruct r2; [|discriminate].
  rewrite append_empty_r in Hs.
  assert (Hce : numeric_char c = true).
  { unfold numeric_char. apply orb_true_iff in Hc as [-> | ->];
      rewrite ?orb_true_r; reflexivity. }
  simpl. rewrite Hce. simpl.
  apply digits_numeric in Hdig.
  destruct (Sign_spec _ _ _ Hs) as [-> | (c0 & Hc0 & ->)]; [exact Hdig|].
  simpl. rewrite Hc0. exact Hdig.
Qed.

Lemma append_eq_empty (a b : string) : a ++ b = "" -> a = "" /\ b = "".
Proof. destruct a; [auto|discriminate]. Qed.

Lemma StrUnsignedDecimalLiteral_chars s m e :
  StrUnsignedDecimalLiteral s = Some (m, e) ->
  all_chars numeric_char s = true /\ 0 <= m /\ s <> "".
Proof.
  unfold StrUnsignedDecimalLiteral.
  destruct (DecimalDigits s) as [ip r1] eqn:Hip.
  destruct (DecimalDigits_spec _ _ _ Hip) as [-> Hipd].
  match goal with
  | |- context [let (_, _) := ?X in _] => destruct X as [fp r2] eqn:Hfr
  end.
  assert (Hfp : all_chars is_digit fp = true
                /\ exists sep, all_chars numeric_char sep = true
                               /\ r1 = sep ++ fp ++ r2).
  { destruct r1 as [|c r].
    - inversion Hfr; subst. split; [reflexivity|]. exists "". split; reflexivity.
    - destruct (Ascii.eqb_spec c ".") as [->|Hne].
      + destruct (DecimalDigits_spec _ _ _ Hfr) as [-> Hd].
        split; [exact Hd|]. exists ".". split; reflexivity.
      + assert (Hr : fp = "" /\ r2 = String c r)
          by (ascii_cases c; try congruence; inversion Hfr; auto).
        destruct Hr as [-> ->]. split; [reflexivity|].
        exists "". split; reflexivity. }
  destruct Hfp as (Hfpd & sep & Hsep & ->).
  destruct (ip ++ fp) as [|c0 ds] eqn:Hds; [discriminate|].
  destruct (ExponentPart r2) as [x|] eqn:Hexp; [|discriminate].
  intros H; inversion H; subst m e; clear H.
  split; [|split].
  - rewrite !all_chars_app, (digits_numeric _ Hipd), Hsep,
      (digits_numeric _ Hfpd), (ExponentPart_chars _ _ Hexp). reflexivity.
  - change (0 <= MV 0 (String c0 ds)).
    rewrite <- Hds. apply MV_nonneg; [lia|].
    rewrite all_chars_app, Hipd, Hfpd. reflexivity.
  - intros Hnil. apply append_eq_empty in Hnil as [-> Hnil].
    apply append_eq_empty in Hnil as [_ Hnil].
    apply append_eq_empty in Hnil as [-> _]. discriminate Hds.
Qed.

Lemma digits_literal_chars n x :
  digits_literal n = Some x ->
  all_chars numeric_char n = true /\ n <> "" /\ isNaN x = false.
Proof.
  unfold digits_literal. destruct (Sign n) as [neg r] eqn:Hs.
  destruct (StrUnsignedDecimalLiteral r) as [[m e]|] eqn:Hu; [|discriminate].
  destruct (StrUnsignedDecimalLiteral_chars _ _ _ Hu) as (Hr & Hm & Hne).
  intros H; inversion H; subst x; clear H.
  split; [|split].
  - destruct (Sign_spec _ _ _ Hs) as [-> | (c & Hc & ->)]; [exact Hr|].
    simpl. rewrite Hc. exact Hr.
  - destruct (Sign_spec _ _ _ Hs) as [-> | (c & Hc & ->)]; [exact Hne|discriminate].
  - apply of_decimal_not_nan, Hm.
Qed.

Lemma trim_start_numeric s :
  all_chars numeric_char s = true -> trim_start s = s.
Proof.
  destruct s as [|c s]; simpl; [reflexivity|]. intros H.
  apply andb_true_iff in H as [Hc _].
  rewrite (numeric_not_space c Hc). reflexivity.
Qed.

Lemma trim_end_numeric s :
  all_chars numeric_char s = true -> trim_end s = s.
Proof.
  induction s as [|c s IH]; simpl; [reflexivity|]. intros H.
  apply andb_true_iff in H as [Hc Hs].
  rewrite (IH Hs), (numeric_not_space c Hc). destruct s; reflexivity.
Qed.

Lemma NonDecimalIntegerLiteral_numeric s :
  all_chars numeric_char s = true -> NonDecimalIntegerLiteral s = None.
Proof.
  destruct s as [|c0 [|p [|c r]]]; simpl; intros H;
    try reflexivity; try (ascii_cases c0; reflexivity).
  apply andb_true_iff in H as [_ H]. apply andb_true_iff in H as [Hp _].
  destruct (numeric_not_radix_prefix p Hp) as (Hx & Ho & Hb).
  destruct (Ascii.eqb_spec c0 "0") as [->|Hne];
    [|ascii_cases c0; try congruence; reflexivity].
  cbv beta iota. rewrite Hx, Ho, Hb. simpl. rewrite radix_digit_zero. reflexivity.
Qed.

Lemma StrDecimalLiteral_numeric s :
  all_chars numeric_char s = true -> StrDecimalLiteral s = digits_literal s.
Proof.
  intros H. unfold StrDecimalLiteral.
  destruct (Sign s) as [neg r] eqn:Hs.
  destruct (String.eqb_spec r "Infinity") as [->|Hne]; [|reflexivity].
  destruct (Sign_spec _ _ _ Hs) as [-> | (c & _ & ->)].
  - discriminate H.
  - simpl in H. rewrite andb_false_r in H. discriminate H.
Qed.

(** [Number] of a literal written with digits is its value. *)
Lemma StringToNumber_digits_literal n x :
  digits_literal n = Some x -> StringToNumber n = x.
Proof.
  intros H. destruct (digits_literal_chars _ _ H) as (Hc & Hne & _).
  unfold StringToNumber.
  rewrite (trim_start_numeric _ Hc), (trim_end_numeric _ Hc).
  destruct n as [|c n]; [congruence|].
  rewrite (NonDecimalIntegerLiteral_numeric _ Hc),
    (StrDecimalLiteral_numeric _ Hc), H. reflexivity.
Qed.

(** ** Facts on [num] *)

Lemma coerce_not_nan str : isNaN (coerce str) = false.
Proof.
  unfold coerce. destruct (isNaN (StringToNumber _)) eqn:H; [reflexivity|exact H].
Qed.

Lemma num_not_nan v : isNaN (num v) = false.
Proof.
  destruct v as [| |b|x|s|str]; try reflexivity; try apply coerce_not_nan.
  - simpl. destruct x; reflexivity.
  - destruct s; [reflexivity|apply coerce_not_nan].
Qed.

(** On a number the result is finite; the parse of a string is the one
    place an infinity can come from. *)
Lemma num_number_finite x : isFinite (num (VNum x)) = true.
Proof. simpl. destruct (isFinite x) eqn:H; [exact H|reflexivity]. Qed.

Lemma num_string s : num (VStr s) = coerce s.
Proof. destruct s; reflexivity. Qed.

Lemma coerce_decorated pre n post x :
  all_chars (fun c => negb (numeric_char c)) pre = true ->
  all_chars (fun c => negb (numeric_char c)) post = true ->
  digits_literal n = Some x ->
  coerce (pre ++ n ++ post) = x.
Proof.
  intros Hpre Hpost Hn.
  destruct (digits_literal_chars _ _ Hn) as (Hc & _ & Hnan).
  unfold coerce.
  rewrite !replace_non_numeric_app, (replace_non_numeric_drops _ Hpre),
    (replace_non_numeric_drops _ Hpost), (replace_non_numeric_keeps _ Hc).
  change ("" ++ n ++ "") with (n ++ ""). rewrite append_empty_r.
  rewrite (StringToNumber_digits_literal _ _ Hn), Hnan. reflexivity.
Qed.

(** ** The numeric coercer *)

(** C1. [num] is meant to return a finite number for every absent, numeric
    or string input. On a string whose literal is beyond the range of the
    numbers it does not: ["1e999"] parses to Infinity, which is not NaN,
    and is returned as it is, while the number Infinity itself gives 0. *)
Theorem num_string_overflow :
  num (VStr "1e999") = Infinity
  /\ isFinite (num (VStr "1e999")) = false
  /\ num (VNum Infinity) = zero.
Proof. vm_compute. auto. Qed.

(** C2. On an absent, numeric or string input [num] computes the function
    of its description: 0 for null, undefined and the empty string; a
    finite number unchanged and 0 for another number; for a string, the
    parse of what is left of it once every character other than a digit,
    [.], [-], [+], [e], [E] is removed, and 0 when that parse is NaN. *)
Theorem num_computes_description :
  (forall v, raw_field v = true -> num_described v = Some (num v))
  /\ num VNull = zero /\ num VUndefined = zero /\ num (VStr "") = zero
  /\ (forall x, isFinite x = true -> num (VNum x) = x).
Proof.
  split; [|repeat split; try reflexivity].
  - intros [| |b|x|s|str] H; try reflexivity; try discriminate H.
    destruct s as [|c s]; [reflexivity|].
    unfold num_described, num, coerce.
    change (String.eqb (String c s) "") with false. cbv iota.
    rewrite keep_only_kept_characters. reflexivity.
  - intros x H. simpl. rewrite H. reflexivity.
Qed.

Lemma num_computes_description_witness :
  raw_field (VStr "9.9 %") = true
  /\ num_described (VStr "9.9 %") = Some (num (VStr "9.9 %")).
Proof.
  split; [reflexivity|].
  apply (proj1 num_computes_description). reflexivity.
Defined.

Lemma plain_decoration_not_numeric c :
  plain_decoration c = negb (numeric_char c).
Proof. ascii_cases c; reflexivity. Qed.

(** C3, as stated, fails: the text around the number may hold the letter
    [e], which is kept with the digits. In ["9.9 percent"] the number 9.9
    is followed by a space and letters; what is kept is ["9.9ee"], not a
    literal, and the result is 0. *)
Lemma num_surrounding_text_counterexample :
  all_chars decoration " percent" = true
  /\ digits_literal "9.9" = Some number_9_9
  /\ num (VStr ("" ++ "9.9" ++ " percent")) = zero
  /\ num (VStr ("" ++ "9.9" ++ " percent")) <> number_9_9.
Proof. vm_compute. repeat split; discriminate. Qed.

(** C3, amended. For every string made of a literal written with digits
    and, before and after it, characters none of which is a digit, [.],
    [-], [+], [e] or [E], [num] returns the value of the literal; and
    ["₹1,234.56"] gives 1234.56, ["9.9 %"] gives 9.9, ["-"] gives 0. *)
Theorem num_decorated_literal :
  (forall pre n post x,
      all_chars plain_decoration pre = true ->
      all_chars plain_decoration post = true ->
      digits_literal n = Some x ->
      num (VStr (pre ++ n ++ post)) = x)
  /\ num (VStr "₹1,234.56") = number_1234_56
  /\ num (VStr "9.9 %") = number_9_9
  /\ num (VStr "-") = zero.
Proof.
  split; [|vm_compute; auto].
  intros pre n post x Hpre Hpost Hn. rewrite num_string.
  apply coerce_decorated; [| |exact Hn];
    eapply all_chars_impl; try eassumption;
    intros c Hc; rewrite <- plain_decoration_not_numeric; exact Hc.
Qed.

Lemma num_decorated_literal_witness :
  all_chars plain_decoration "Rs " = true
  /\ all_chars plain_decoration " only" = true
  /\ digits_literal "-1.5e3" = Some (S754_finite true 6597069766656000 (-42))
  /\ num (VStr ("Rs " ++ "-1.5e3" ++ " only"))
     = S754_finite true 6597069766656000 (-42).
Proof.
  split; [reflexivity|]. split; [reflexivity|]. split; [reflexivity|].
  apply (proj1 num_decorated_literal); reflexivity.
Defined.

(** ** The row normalizer *)

Lemma coalesce_assoc a b c : (a ?? b ?? c)%js = coalesce a (coalesce b c).
Proof. unfold coalesce. destruct (nullish a) eqn:Ha; [|rewrite Ha]; reflexivity. Qed.

Lemma or_else_assoc a b c : (a || b || c)%js = or_else a (or_else b c).
Proof. unfold or_else. destruct (truthy a) eqn:Ha; [rewrite Ha|]; reflexivity. Qed.

Lemma probe_nullish_cons s k l f :
  probe nullish s (k :: l) f = coalesce (get s k) (probe nullish s l f).
Proof. reflexivity. Qed.

Lemma probe_falsy_cons s k l f :
  probe falsy s (k :: l) f = or_else (get s k) (probe falsy s l f).
Proof. unfold or_else, falsy. simpl. destruct (truthy (get s k)); reflexivity. Qed.

Lemma num_coalesce_zero v : num (v ?? VNum zero)%js = num v.
Proof. destruct v; reflexivity. Qed.

Lemma coalesce_first a b : nullish a = false -> coalesce a b = a.
Proof. unfold coalesce. intros ->. reflexivity. Qed.

Lemma coalesce_skip a b : nullish a = true -> coalesce a b = b.
Proof. unfold coalesce. intros ->. reflexivity. Qed.

Lemma or_else_skip a b : truthy a = false -> or_else a b = b.
Proof. unfold or_else. intros ->. reflexivity. Qed.

Lemma get_insert_ne (s : gmap string value) k k' v :
  k <> k' -> get (<[k:=v]> s) k' = get s k'.
Proof. intros H. unfold get. rewrite lookup_insert_ne by exact H. reflexivity. Qed.

Lemma get_absent (s : gmap string value) k : s !! k = None -> get s k = VUndefined.
Proof. unfold get. intros ->. reflexivity. Qed.

(** The normalizer is probing in which a text field skips what is falsy
    and a numeric field skips null and undefined. *)
Lemma normalizePortfolioRow_probing s :
  normalizePortfolioRow s = row_by_probing falsy nullish s.
Proof.
  unfold normalizePortfolioRow, row_by_probing.
  unfold symbol_aliases, company_aliases, score_aliases, price_aliases,
    stop_loss_aliases, percentage_allocation_aliases,
    number_of_shares_aliases, risk_aliases, investment_amount_aliases.
  rewrite !probe_falsy_cons, !probe_nullish_cons, !coalesce_assoc,
    !or_else_assoc, !num_coalesce_zero.
  reflexivity.
Qed.

(** C4, as stated, fails: a numeric alias that is present with the value
    null is passed over. With [price] null and [current_price] "5",
    taking the first alias that is not undefined gives 0 and the code
    gives 5. *)
Lemma first_present_counterexample :
  price (row_first_present row_null_price) = zero
  /\ price (normalizePortfolioRow row_null_price) = number_5
  /\ normalizePortfolioRow row_null_price <> row_first_present row_null_price.
Proof.
  split; [reflexivity|]. split; [reflexivity|].
  intros H. apply (f_equal price) in H. vm_compute in H. discriminate H.
Qed.

(** C4, amended. For every mapping each field is built by probing its
    ordered aliases; a numeric field takes the first value that is
    neither null nor undefined, 0 when there is none, passes it through
    [num], and [number_of_shares] is then rounded; [symbol] and [company]
    take the first value that is truthy, the empty string when there is
    none. With [price] and [current_price] both holding a value, [price]
    wins; with [ltp] alone, [ltp] is used. *)
Theorem normalizePortfolioRow_first_alias (s : gmap string value) :
  normalizePortfolioRow s = row_by_probing falsy nullish s
  /\ (nullish (get s "price") = false ->
      price (normalizePortfolioRow s) = num (get s "price"))
  /\ (s !! "price" = None -> s !! "current_price" = None ->
      s !! "entry_price" = None -> s !! "avg_price" = None ->
      price (normalizePortfolioRow s) = num (get s "ltp")).
Proof.
  split; [apply normalizePortfolioRow_probing|]. split.
  - intros H. unfold normalizePortfolioRow; simpl.
    rewrite !coalesce_assoc, (coalesce_first _ _ H). reflexivity.
  - intros H1 H2 H3 H4. unfold normalizePortfolioRow; simpl.
    rewrite !coalesce_assoc.
    rewrite (get_absent _ _ H1), (get_absent _ _ H2), (get_absent _ _ H3),
      (get_absent _ _ H4).
    rewrite !coalesce_skip by reflexivity. apply num_coalesce_zero.
Qed.

Lemma normalizePortfolioRow_first_alias_witness :
  (nullish (get row_both_prices "price") = false
   /\ price (normalizePortfolioRow row_both_prices) = num (get row_both_prices "price"))
  /\ (row_only_ltp !! "price" = None
      /\ price (normalizePortfolioRow row_only_ltp) = num (get row_only_ltp "ltp")).
Proof.
  split; (split; [reflexivity|]).
  - apply (proj1 (proj2 (normalizePortfolioRow_first_alias row_both_prices))).
    reflexivity.
  - apply (proj2 (proj2 (normalizePortfolioRow_first_alias row_only_ltp)));
      reflexivity.
Defined.

(** ** The normalizer on whole JSON values *)

(** Induction on a JSON value, with the elements of an array. *)
Lemma json_elements_ind (P : json -> Prop) :
  P JUndefined -> P JNull -> (forall b, P (JBool b)) -> (forall x, P (JNum x)) ->
  (forall s, P (JStr s)) ->
  (forall items, Forall P items -> P (JArr items)) ->
  (forall members, P (JObj members)) ->
  forall v, P v.
Proof.
  intros HU HN HB HX HS HA HO.
  fix IH 1. intros [| |b|x|s|items|members].
  - exact HU.
  - exact HN.
  - apply HB.
  - apply HX.
  - apply HS.
  - apply HA. induction items as [|e items IHitems]; constructor.
    + apply IH.
    + exact IHitems.
  - apply HO.
Qed.

Lemma join_None elements :
  Throwing.join elements = None <-> Exists (fun e => e = None) elements.
Proof.
  induction elements as [|e [|e' rest] IH].
  - simpl. split; [discriminate|]. intros H. inversion H.
  - simpl. split.
    + intros ->. left. reflexivity.
    + intros H. inversion H; subst; [reflexivity|]. inversion H1.
  - change (Throwing.join (e :: e' :: rest))
      with (match e, Throwing.join (e' :: rest) with
            | Some a, Some b => Some (a ++ "," ++ b)
            | _, _ => None
            end).
    split.
    + destruct e as [a|]; [|left; reflexivity].
      destruct (Throwing.join (e' :: rest)) as [b|] eqn:E; [discriminate|].
      intros _. right. apply IH. reflexivity.
    + intros H. inversion H as [? ? He|? ? Hr]; subst; [reflexivity|].
      apply IH in Hr. rewrite Hr. destruct e; reflexivity.
Qed.

(** [String(v)] throws on the values that have no string, and on no
    other. *)
Lemma ToString_throws NumberToString v :
  Throwing.ToString NumberToString v = None <-> no_string v = true.
Proof.
  induction v as [| |b|x|s|items IH|members] using json_elements_ind;
    try (simpl; split; discriminate).
  - cbn [Throwing.ToString no_string]. rewrite join_None, existsb_exists.
    rewrite List.Exists_exists. split.
    + intros (o & Hin & ->). apply in_map_iff in Hin as (e & He & Hin).
      exists e. split; [exact Hin|].
      rewrite List.Forall_forall in IH. apply (IH e Hin).
      destruct e; try discriminate He; exact He.
    + intros (e & Hin & He). exists None. split; [|reflexivity].
      apply in_map_iff. exists e. split; [|exact Hin].
      rewrite List.Forall_forall in IH. apply (IH e Hin) in He.
      destruct e; try discriminate He; exact He.
  - cbn [Throwing.ToString no_string].
    destruct (Throwing.hasOwnProperty members "toString"); split;
      congruence.
Qed.

Lemma num_throws NumberToString v :
  Throwing.num NumberToString v = None <-> no_string v = true.
Proof.
  rewrite <- (ToString_throws NumberToString).
  destruct v as [| |b|x|s|items|members];
    try (simpl; split; discriminate).
  - destruct s; simpl; split; discriminate.
  - unfold Throwing.num.
    destruct (Throwing.ToString NumberToString (JArr items));
      simpl; split; congruence.
  - unfold Throwing.num.
    destruct (Throwing.ToString NumberToString (JObj members));
      simpl; split; congruence.
Qed.

Lemma num_json_not_nan NumberToString v x :
  Throwing.num NumberToString v = Some x -> isNaN x = false.
Proof.
  destruct v as [| |b|x'|s|items|members]; unfold Throwing.num.
  - intros H; inversion H; reflexivity.
  - intros H; inversion H; reflexivity.
  - simpl. intros H; inversion H; apply coerce_not_nan.
  - intros H; inversion H. destruct x' as [| | |]; reflexivity.
  - destruct s; simpl; intros H; inversion H;
      [reflexivity|apply coerce_not_nan].
  - destruct (Throwing.ToString NumberToString (JArr items)); simpl;
      intros H; inversion H; apply coerce_not_nan.
  - destruct (Throwing.ToString NumberToString (JObj members)); simpl;
      intros H; inversion H; apply coerce_not_nan.
Qed.

Lemma json_coalesce_assoc a b c :
  Throwing.coalesce (Throwing.coalesce a b) c
  = Throwing.coalesce a (Throwing.coalesce b c).
Proof.
  unfold Throwing.coalesce.
  destruct (Throwing.nullish a) eqn:Ha; [|rewrite Ha]; reflexivity.
Qed.

Lemma json_or_else_assoc a b c :
  Throwing.or_else (Throwing.or_else a b) c
  = Throwing.or_else a (Throwing.or_else b c).
Proof.
  unfold Throwing.or_else.
  destruct (Throwing.truthy a) eqn:Ha; [rewrite Ha|]; reflexivity.
Qed.

Lemma selected_cons s k l :
  selected s (k :: l) = Throwing.coalesce (Throwing.get s k) (selected s l).
Proof. reflexivity. Qed.

Lemma num_selected_one NumberToString s k :
  Throwing.num NumberToString (selected s [k])
  = Throwing.num NumberToString (Throwing.get s k).
Proof. simpl. destruct (Throwing.get s k); reflexivity. Qed.

(** The call as the seven conversions of the selected values, in the
    order of the fields. *)
Lemma normalizePortfolioRow_selected NumberToString s :
  Throwing.normalizePortfolioRow NumberToString s
  = match Throwing.num NumberToString (selected s score_aliases) with None => None | Some score_ =>
    match Throwing.num NumberToString (selected s price_aliases) with None => None | Some price_ =>
    match Throwing.num NumberToString (selected s stop_loss_aliases) with None => None | Some stop_loss_ =>
    match Throwing.num NumberToString (selected s percentage_allocation_aliases) with None => None | Some percentage_allocation_ =>
    match Throwing.num NumberToString (selected s number_of_shares_aliases) with None => None | Some number_of_shares_ =>
    match Throwing.num NumberToString (selected s risk_aliases) with None => None | Some risk_ =>
    match Throwing.num NumberToString (selected s investment_amount_aliases) with None => None | Some investment_amount_ =>
    Some {| Throwing.symbol :=
              Throwing.or_else (Throwing.get s "symbol")
                (Throwing.or_else (Throwing.get s "ticker") (JStr ""));
            Throwing.company :=
              Throwing.or_else (Throwing.get s "company")
                (Throwing.or_else (Throwing.get s "name") (JStr ""));
            Throwing.score := score_;
            Throwing.price := price_;
            Throwing.stop_loss := stop_loss_;
            Throwing.percentage_allocation := percentage_allocation_;
            Throwing.number_of_shares := Math_round number_of_shares_;
            Throwing.risk := risk_;
            Throwing.investment_amount := investment_amount_ |}
    end end end end end end end.
Proof.
  unfold Throwing.normalizePortfolioRow.
  unfold score_aliases, price_aliases, stop_loss_aliases,
    percentage_allocation_aliases, number_of_shares_aliases, risk_aliases,
    investment_amount_aliases.
  rewrite !num_selected_one, !selected_cons, !json_coalesce_assoc,
    !json_or_else_assoc.
  reflexivity.
Qed.

Lemma json_truthy_not_nullish v :
  Throwing.truthy v = true -> Throwing.nullish v = false.
Proof. destruct v; simpl; congruence. Qed.

Lemma json_or_else_not_nullish a b :
  Throwing.nullish b = false -> Throwing.nullish (Throwing.or_else a b) = false.
Proof.
  unfold Throwing.or_else. intros Hb.
  destruct (Throwing.truthy a) eqn:Ha; [|exact Hb].
  apply json_truthy_not_nullish, Ha.
Qed.

Lemma json_or_else_string a b :
  Throwing.string_or_absent a = true -> Throwing.is_string b = true ->
  Throwing.is_string (Throwing.or_else a b) = true.
Proof.
  destruct a; simpl; try discriminate; auto.
  unfold Throwing.or_else; simpl. destruct (negb _); auto.
Qed.

(** A value that is selected is the value of one of the aliases, or 0. *)
Lemma selected_get s l :
  selected s l = JNum zero \/ exists k, In k l /\ selected s l = Throwing.get s k.
Proof.
  induction l as [|k l IH]; [left; reflexivity|].
  simpl. destruct (Throwing.nullish (Throwing.get s k)).
  - destruct IH as [IH|(k' & Hin & IH)]; [left; exact IH|].
    right. exists k'. split; [right; exact Hin|exact IH].
  - right. exists k. split; [left; reflexivity|reflexivity].
Qed.

Lemma numeric_aliases_row_keys l k :
  In l numeric_aliases -> In k l -> In k row_keys.
Proof.
  unfold numeric_aliases, row_keys. intros Hl Hk.
  rewrite !in_app_iff.
  simpl in Hl. decompose [or] Hl; subst; tauto.
Qed.

(** The two embeddings agree on the values that have a string. *)
Lemma num_to_value NumberToString v w :
  to_value NumberToString v = Some w ->
  Throwing.num NumberToString v = Some (num w).
Proof.
  destruct v as [| |b|x|s|items|members]; unfold Throwing.num;
    cbn [to_value].
  - intros H; inversion H; reflexivity.
  - intros H; inversion H; reflexivity.
  - intros H; inversion H. destruct b; reflexivity.
  - intros H; inversion H; reflexivity.
  - intros H; inversion H. destruct s; reflexivity.
  - destruct (Throwing.ToString NumberToString (JArr items)); simpl;
      intros H; inversion H; reflexivity.
  - destruct (Throwing.ToString NumberToString (JObj members)); simpl;
      intros H; inversion H; reflexivity.
Qed.

Lemma to_value_nullish NumberToString v w :
  to_value NumberToString v = Some w -> Throwing.nullish v = nullish w.
Proof.
  destruct v; simpl; try (intros H; inversion H; reflexivity);
    match goal with
    | |- context [option_map VObj ?o] => destruct o
    end; simpl; intros H; inversion H; reflexivity.
Qed.

Lemma to_value_truthy NumberToString v w :
  to_value NumberToString v = Some w -> Throwing.truthy v = truthy w.
Proof.
  destruct v; simpl; try (intros H; inversion H; reflexivity);
    match goal with
    | |- context [option_map VObj ?o] => destruct o
    end; simpl; intros H; inversion H; reflexivity.
Qed.

Lemma to_value_coalesce NumberToString a b a' b' :
  to_value NumberToString a = Some a' -> to_value NumberToString b = Some b' ->
  to_value NumberToString (Throwing.coalesce a b) = Some (coalesce a' b').
Proof.
  intros Ha Hb. unfold Throwing.coalesce, coalesce.
  rewrite (to_value_nullish _ _ _ Ha). destruct (nullish a'); assumption.
Qed.

Lemma to_value_or_else NumberToString a b a' b' :
  to_value NumberToString a = Some a' -> to_value NumberToString b = Some b' ->
  to_value NumberToString (Throwing.or_else a b) = Some (or_else a' b').
Proof.
  intros Ha Hb. unfold Throwing.or_else, or_else.
  rewrite (to_value_truthy _ _ _ Ha). destruct (truthy a'); assumption.
Qed.

Lemma to_value_selected NumberToString s s' l :
  (forall k, to_value NumberToString (Throwing.get s k) = Some (get s' k)) ->
  to_value NumberToString (selected s l) = Some (probe nullish s' l (VNum zero)).
Proof.
  intros H. induction l as [|k l IH]; [reflexivity|].
  rewrite selected_cons, probe_nullish_cons.
  apply to_value_coalesce; [apply H|exact IH].
Qed.

(** On a mapping all of whose values have a string the call returns the
    row of the first embedding. *)
Lemma normalizePortfolioRow_agrees NumberToString s s' :
  (forall k, to_value NumberToString (Throwing.get s k) = Some (get s' k)) ->
  exists r, Throwing.normalizePortfolioRow NumberToString s = Some r
            /\ to_row NumberToString r = Some (normalizePortfolioRow s').
Proof.
  intros H. rewrite normalizePortfolioRow_selected, normalizePortfolioRow_probing.
  rewrite !(num_to_value _ _ _ (to_value_selected _ _ _ _ H)).
  eexists. split; [reflexivity|].
  assert (Ht : forall k k',
             to_value NumberToString
               (Throwing.or_else (Throwing.get s k)
                  (Throwing.or_else (Throwing.get s k') (JStr "")))
             = Some (or_else (get s' k) (or_else (get s' k') (VStr "")))).
  { intros k k'. apply to_value_or_else; [apply H|].
    apply to_value_or_else; [apply H|reflexivity]. }
  unfold to_row; cbn [Throwing.symbol Throwing.company].
  rewrite !Ht.
  unfold row_by_probing, symbol_aliases, company_aliases.
  rewrite !probe_falsy_cons. reflexivity.
Qed.

(** C5, as stated, fails twice. [symbol] and [company] are copied, not
    converted: a mapping whose [symbol] is the number 42 gives a row whose
    [symbol] is that number, not a string. And the call raises on a
    mapping whose [price] is an object with a member [toString]:
    [String(v)] throws in [num]. *)
Lemma symbol_not_string_counterexample :
  symbol (normalizePortfolioRow row_numeric_symbol) = VNum number_42
  /\ is_string (symbol (normalizePortfolioRow row_numeric_symbol)) = false
  /\ (forall NumberToString,
        option_map Throwing.symbol
          (Throwing.normalizePortfolioRow NumberToString row_json_numeric_symbol)
        = Some (JNum number_42))
  /\ no_string (selected row_price_throws price_aliases) = true
  /\ (forall NumberToString,
        Throwing.normalizePortfolioRow NumberToString row_price_throws = None).
Proof.
  split; [reflexivity|]. split; [reflexivity|].
  split; [intros; reflexivity|]. split; [reflexivity|].
  intros; reflexivity.
Qed.

(** C5, amended. For every mapping of JSON values the call raises
    exactly when the value that one of the seven numeric fields selects,
    the first of its aliases that is neither null nor undefined, has no
    string: an object with a member of its own named [toString], or an
    array that holds one. It returns, then, when no value under a key it
    reads is such a value, and on the empty mapping, where the text
    fields are the empty string and the numbers 0. A row it returns has
    every field defined: [symbol] and [company] are neither undefined nor
    null, and the seven numeric fields are numbers other than NaN.
    [symbol] is a string when the values under [symbol] and [ticker] are
    strings or absent, and [company] is one when those under [company]
    and [name] are. Where every value has a string the row is that of
    [normalizePortfolioRow] above. *)
Theorem normalizePortfolioRow_defined (NumberToString : number -> string)
    (s : gmap string json) :
  let result := Throwing.normalizePortfolioRow NumberToString s in
  (result = None <->
   exists aliases, In aliases numeric_aliases
                   /\ no_string (selected s aliases) = true)
  /\ ((forall k, In k row_keys -> no_string (Throwing.get s k) = false) ->
      exists r, result = Some r)
  /\ (forall r, result = Some r ->
      (Throwing.nullish (Throwing.symbol r) = false
       /\ Throwing.nullish (Throwing.company r) = false)
      /\ (isNaN (Throwing.score r) = false
          /\ isNaN (Throwing.price r) = false
          /\ isNaN (Throwing.stop_loss r) = false
          /\ isNaN (Throwing.percentage_allocation r) = false
          /\ isNaN (Throwing.number_of_shares r) = false
          /\ isNaN (Throwing.risk r) = false
          /\ isNaN (Throwing.investment_amount r) = false)
      /\ (Throwing.string_or_absent (Throwing.get s "symbol") = true ->
          Throwing.string_or_absent (Throwing.get s "ticker") = true ->
          Throwing.is_string (Throwing.symbol r) = true)
      /\ (Throwing.string_or_absent (Throwing.get s "company") = true ->
          Throwing.string_or_absent (Throwing.get s "name") = true ->
          Throwing.is_string (Throwing.company r) = true))
  /\ Throwing.normalizePortfolioRow NumberToString ∅
     = Some {| Throwing.symbol := JStr ""; Throwing.company := JStr "";
               Throwing.score := zero; Throwing.price := zero;
               Throwing.stop_loss := zero;
               Throwing.percentage_allocation := zero;
               Throwing.number_of_shares := zero; Throwing.risk := zero;
               Throwing.investment_amount := zero |}
  /\ (forall s' : gmap string value,
        (forall k, to_value NumberToString (Throwing.get s k) = Some (get s' k)) ->
        exists r, result = Some r
                  /\ to_row NumberToString r = Some (normalizePortfolioRow s')).
Proof.
  cbv zeta.
  assert (Hiff : Throwing.normalizePortfolioRow NumberToString s = None <->
                 exists aliases, In aliases numeric_aliases
                                 /\ no_string (selected s aliases) = true).
  { rewrite normalizePortfolioRow_selected. split.
    - intros H.
      repeat match type of H with
      | match Throwing.num NumberToString (selected s ?l) with _ => _ end = None =>
          destruct (Throwing.num NumberToString (selected s l)) eqn:?;
            [|exists l; split;
              [unfold numeric_aliases; simpl; tauto
              |apply (num_throws NumberToString); assumption]]
      end.
      discriminate H.
    - intros (l & Hin & Ht). apply (num_throws NumberToString) in Ht.
      unfold numeric_aliases in Hin. simpl in Hin.
      decompose [or] Hin; subst;
        repeat match goal with
        | |- match ?o with _ => _ end = None =>
            first [rewrite Ht; reflexivity
                  |destruct o; [|reflexivity]]
        end;
        contradiction. }
  split; [exact Hiff|]. split; [|split; [|split]].
  - intros Hk.
    assert (E : Throwing.normalizePortfolioRow NumberToString s = None
                \/ exists r, Throwing.normalizePortfolioRow NumberToString s
                             = Some r)
      by (destruct (Throwing.normalizePortfolioRow NumberToString s);
          [right; eexists; reflexivity|left; reflexivity]).
    destruct E as [E|E]; [|exact E].
    apply Hiff in E as (l & Hin & Ht).
    destruct (selected_get s l) as [H0|(k & Hkl & H0)];
      rewrite H0 in Ht; [discriminate Ht|].
    rewrite (Hk k (numeric_aliases_row_keys l k Hin Hkl)) in Ht.
    discriminate Ht.
  - intros r. rewrite normalizePortfolioRow_selected. intros H.
    repeat match type of H with
    | match Throwing.num NumberToString ?v with _ => _ end = Some _ =>
        let E := fresh "E" in
        destruct (Throwing.num NumberToString v) eqn:E;
          [apply num_json_not_nan in E|discriminate H]
    end.
    inversion H; subst r; clear H. cbn.
    split; [|split; [|split]].
    + split; apply json_or_else_not_nullish; apply json_or_else_not_nullish;
        reflexivity.
    + repeat split; try assumption. apply Math_round_not_nan. assumption.
    + intros H1 H2. apply json_or_else_string; [exact H1|].
      apply json_or_else_string; [exact H2|reflexivity].
    + intros H1 H2. apply json_or_else_string; [exact H1|].
      apply json_or_else_string; [exact H2|reflexivity].
  - reflexivity.
  - intros s' H. apply normalizePortfolioRow_agrees, H.
Qed.

Lemma normalizePortfolioRow_defined_witness :
  no_string (Throwing.get row_ltp_unread "ltp") = true
  /\ Throwing.normalizePortfolioRow (fun _ => "5") row_ltp_unread
     = Some row_ltp_unread_result
  /\ Throwing.string_or_absent (Throwing.get row_ltp_unread "symbol") = true
  /\ Throwing.string_or_absent (Throwing.get row_ltp_unread "ticker") = true
  /\ Throwing.is_string (Throwing.symbol row_ltp_unread_result) = true
  /\ isNaN (Throwing.number_of_shares row_ltp_unread_result) = false.
Proof.
  assert (H : Throwing.normalizePortfolioRow (fun _ => "5") row_ltp_unread
              = Some row_ltp_unread_result) by reflexivity.
  pose proof (proj1 (proj2 (proj2
    (normalizePortfolioRow_defined (fun _ => "5") row_ltp_unread))) _ H)
    as (_ & Hn & Hs & _).
  split; [reflexivity|]. split; [exact H|].
  split; [reflexivity|]. split; [reflexivity|]. split.
  - apply Hs; reflexivity.
  - apply Hn.
Defined.

(** C9. [score] and [investment_amount] probe no alias: for every mapping
    they are [num] of the value under that one key, 0 when the key is
    absent, and a value under any other key changes neither. *)
Theorem score_and_investment_amount_no_alias (s : gmap string value) :
  score (normalizePortfolioRow s) = num (get s "score")
  /\ investment_amount (normalizePortfolioRow s) = num (get s "investment_amount")
  /\ (s !! "score" = None -> score (normalizePortfolioRow s) = zero)
  /\ (s !! "investment_amount" = None ->
      investment_amount (normalizePortfolioRow s) = zero)
  /\ (forall k v, k <> "score" ->
        score (normalizePortfolioRow (<[k:=v]> s)) = score (normalizePortfolioRow s))
  /\ (forall k v, k <> "investment_amount" ->
        investment_amount (normalizePortfolioRow (<[k:=v]> s))
        = investment_amount (normalizePortfolioRow s)).
Proof.
  repeat split; simpl.
  - intros H. rewrite (get_absent _ _ H). reflexivity.
  - intros H. rewrite (get_absent _ _ H). reflexivity.
  - intros k v H. rewrite (get_insert_ne _ _ _ _ H). reflexivity.
  - intros k v H. rewrite (get_insert_ne _ _ _ _ H). reflexivity.
Qed.

Lemma score_and_investment_amount_no_alias_witness :
  (row_other_names !! "score" = None
   /\ score (normalizePortfolioRow row_other_names) = zero)
  /\ ("rating" <> "score"
      /\ score (normalizePortfolioRow (<["rating" := VNum number_42]> row_other_names))
         = score (normalizePortfolioRow row_other_names)).
Proof.
  split; (split; [done|]).
  - apply (proj1 (proj2 (proj2
             (score_and_investment_amount_no_alias row_other_names)))).
    reflexivity.
  - apply (proj1 (proj2 (proj2 (proj2 (proj2
             (score_and_investment_amount_no_alias row_other_names)))))).
    done.
Defined.

Lemma probe_first_kept skip s aliases fallback k :
  first_kept skip s aliases k -> probe skip s aliases fallback = get s k.
Proof.
  intros (before & after & -> & Hb & Hk).
  induction before as [|k' before IH]; simpl.
  - rewrite Hk. reflexivity.
  - rewrite (Hb k') by (left; reflexivity).
    apply IH. intros k'' Hin. apply Hb. right. exact Hin.
Qed.

Lemma probe_all_skipped skip s aliases fallback :
  (forall k, In k aliases -> skip (get s k) = true) ->
  probe skip s aliases fallback = fallback.
Proof.
  induction aliases as [|k aliases IH]; intros H; simpl; [reflexivity|].
  rewrite (H k) by (left; reflexivity).
  apply IH. intros k' Hin. apply H. right. exact Hin.
Qed.

(** C10. [symbol] and [company] skip every falsy value: with [symbol] the
    empty string and [ticker] a string that is not empty the row has the
    ticker, and a falsy [company] falls through to [name]. A numeric chain
    skips null and undefined only: a first alias holding any other value,
    falsy or not, is the one used; an alias that is null or undefined is
    passed over for the next one; in all, a numeric field is [num] of the
    first alias, at whatever place in its list, whose value is neither
    null nor undefined, and 0 when every alias is null or undefined,
    where a text field is the first alias whose value is truthy. *)
Theorem text_fields_skip_falsy (s : gmap string value) :
  let r := normalizePortfolioRow s in
  (forall t, get s "symbol" = VStr "" -> get s "ticker" = VStr t -> t <> "" ->
             symbol r = VStr t)
  /\ (truthy (get s "symbol") = false ->
      symbol r = (get s "ticker" || VStr "")%js)
  /\ (truthy (get s "company") = false ->
      company r = (get s "name" || VStr "")%js)
  /\ (nullish (get s "price") = false -> price r = num (get s "price"))
  /\ (nullish (get s "stop_loss") = false ->
      stop_loss r = num (get s "stop_loss"))
  /\ (nullish (get s "percentage_allocation") = false ->
      percentage_allocation r = num (get s "percentage_allocation"))
  /\ (nullish (get s "number_of_shares") = false ->
      number_of_shares r = Math_round (num (get s "number_of_shares")))
  /\ (nullish (get s "risk") = false -> risk r = num (get s "risk"))
  /\ (nullish (get s "price") = true ->
      nullish (get s "current_price") = false ->
      price r = num (get s "current_price"))
  /\ (nullish (get s "stop_loss") = true ->
      nullish (get s "stoploss") = false ->
      stop_loss r = num (get s "stoploss"))
  /\ (nullish (get s "percentage_allocation") = true ->
      nullish (get s "allocation_pct") = false ->
      percentage_allocation r = num (get s "allocation_pct"))
  /\ (nullish (get s "number_of_shares") = true ->
      nullish (get s "shares") = false ->
      number_of_shares r = Math_round (num (get s "shares")))
  /\ (nullish (get s "risk") = true ->
      nullish (get s "risk_amount") = false ->
      risk r = num (get s "risk_amount"))
  /\ (forall k, first_kept nullish s price_aliases k ->
                price r = num (get s k))
  /\ (forall k, first_kept nullish s stop_loss_aliases k ->
                stop_loss r = num (get s k))
  /\ (forall k, first_kept nullish s percentage_allocation_aliases k ->
                percentage_allocation r = num (get s k))
  /\ (forall k, first_kept nullish s number_of_shares_aliases k ->
                number_of_shares r = Math_round (num (get s k)))
  /\ (forall k, first_kept nullish s risk_aliases k ->
                risk r = num (get s k))
  /\ ((forall k, In k price_aliases -> nullish (get s k) = true) ->
      price r = zero)
  /\ ((forall k, In k stop_loss_aliases -> nullish (get s k) = true) ->
      stop_loss r = zero)
  /\ ((forall k, In k percentage_allocation_aliases ->
                 nullish (get s k) = true) ->
      percentage_allocation r = zero)
  /\ ((forall k, In k number_of_shares_aliases ->
                 nullish (get s k) = true) ->
      number_of_shares r = zero)
  /\ ((forall k, In k risk_aliases -> nullish (get s k) = true) ->
      risk r = zero)
  /\ (forall k, first_kept falsy s symbol_aliases k -> symbol r = get s k)
  /\ (forall k, first_kept falsy s company_aliases k -> company r = get s k).
Proof.
  cbv zeta.
  assert (Hfirst :
    (forall t, get s "symbol" = VStr "" -> get s "ticker" = VStr t -> t <> "" ->
               symbol (normalizePortfolioRow s) = VStr t)
    /\ (truthy (get s "symbol") = false ->
        symbol (normalizePortfolioRow s) = (get s "ticker" || VStr "")%js)
    /\ (truthy (get s "company") = false ->
        company (normalizePortfolioRow s) = (get s "name" || VStr "")%js)
    /\ (nullish (get s "price") = false ->
        price (normalizePortfolioRow s) = num (get s "price"))
    /\ (nullish (get s "stop_loss") = false ->
        stop_loss (normalizePortfolioRow s) = num (get s "stop_loss"))
    /\ (nullish (get s "percentage_allocation") = false ->
        percentage_allocation (normalizePortfolioRow s)
        = num (get s "percentage_allocation"))
    /\ (nullish (get s "number_of_shares") = false ->
        number_of_shares (normalizePortfolioRow s)
        = Math_round (num (get s "number_of_shares")))
    /\ (nullish (get s "risk") = false ->
        risk (normalizePortfolioRow s) = num (get s "risk"))).
  { unfold normalizePortfolioRow; simpl.
    rewrite !coalesce_assoc, !or_else_assoc.
    repeat split.
    - intros t Hs Ht Hne. rewrite Hs, Ht. unfold or_else; simpl.
      destruct t; [congruence|reflexivity].
    - intros H. rewrite (or_else_skip _ _ H). reflexivity.
    - intros H. rewrite (or_else_skip _ _ H). reflexivity.
    - intros H. rewrite (coalesce_first _ _ H). reflexivity.
    - intros H. rewrite (coalesce_first _ _ H). reflexivity.
    - intros H. rewrite (coalesce_first _ _ H). reflexivity.
    - intros H. rewrite (coalesce_first _ _ H). reflexivity.
    - intros H. rewrite (coalesce_first _ _ H). reflexivity. }
  assert (Hsecond :
    (nullish (get s "price") = true ->
     nullish (get s "current_price") = false ->
     price (normalizePortfolioRow s) = num (get s "current_price"))
    /\ (nullish (get s "stop_loss") = true ->
        nullish (get s "stoploss") = false ->
        stop_loss (normalizePortfolioRow s) = num (get s "stoploss"))
    /\ (nullish (get s "percentage_allocation") = true ->
        nullish (get s "allocation_pct") = false ->
        percentage_allocation (normalizePortfolioRow s)
        = num (get s "allocation_pct"))
    /\ (nullish (get s "number_of_shares") = true ->
        nullish (get s "shares") = false ->
        number_of_shares (normalizePortfolioRow s)
        = Math_round (num (get s "shares")))
    /\ (nullish (get s "risk") = true ->
        nullish (get s "risk_amount") = false ->
        risk (normalizePortfolioRow s) = num (get s "risk_amount"))).
  { unfold normalizePortfolioRow; simpl.
    rewrite !coalesce_assoc.
    repeat split; intros H1 H2;
      rewrite (coalesce_skip _ _ H1), (coalesce_first _ _ H2); reflexivity. }
  destruct Hfirst as (F1 & F2 & F3 & F4 & F5 & F6 & F7 & F8).
  destruct Hsecond as (S1 & S2 & S3 & S4 & S5).
  repeat (split; [assumption|]).
  rewrite normalizePortfolioRow_probing. unfold row_by_probing.
  cbn [symbol company price stop_loss percentage_allocation
       number_of_shares risk].
  repeat split;
    try (intros k Hk; rewrite (probe_first_kept _ _ _ _ _ Hk); reflexivity);
    intros H; rewrite (probe_all_skipped _ _ _ _ H); reflexivity.
Qed.

Lemma text_fields_skip_falsy_witness :
  (get row_empty_texts "symbol" = VStr ""
   /\ get row_empty_texts "ticker" = VStr "TCS"
   /\ symbol (normalizePortfolioRow row_empty_texts) = VStr "TCS")
  /\ (truthy (get row_empty_texts "company") = false
      /\ company (normalizePortfolioRow row_empty_texts) = VStr "Tata Consultancy")
  /\ (truthy (get row_empty_texts "price") = false
      /\ nullish (get row_empty_texts "price") = false
      /\ price (normalizePortfolioRow row_empty_texts) = zero)
  /\ (nullish (get row_null_price "price") = true
      /\ nullish (get row_null_price "current_price") = false
      /\ price (normalizePortfolioRow row_null_price) = number_5)
  /\ (first_kept nullish row_skipped_aliases price_aliases "entry_price"
      /\ price (normalizePortfolioRow row_skipped_aliases) = zero)
  /\ (first_kept nullish row_skipped_aliases stop_loss_aliases "stoploss"
      /\ stop_loss (normalizePortfolioRow row_skipped_aliases) = zero).
Proof.
  pose proof (text_fields_skip_falsy row_empty_texts) as H. cbv zeta in H.
  destruct H as (H1 & _ & H3 & H4 & _).
  pose proof (text_fields_skip_falsy row_null_price) as H'. cbv zeta in H'.
  destruct H' as (_ & _ & _ & _ & _ & _ & _ & _ & H9 & _).
  pose proof (text_fields_skip_falsy row_skipped_aliases) as H''.
  cbv zeta in H''.
  destruct H'' as (_ & _ & _ & _ & _ & _ & _ & _ & _ & _ & _ & _ & _
                   & H14 & H15 & _).
  assert (K1 : first_kept nullish row_skipped_aliases price_aliases
                 "entry_price").
  { exists ["price"; "current_price"], ["avg_price"; "ltp"].
    split; [reflexivity|]. split; [|reflexivity].
    intros k [<-|[<-|[]]]; reflexivity. }
  assert (K2 : first_kept nullish row_skipped_aliases stop_loss_aliases
                 "stoploss").
  { exists ["stop_loss"], ["sl"; "stop"].
    split; [reflexivity|]. split; [|reflexivity].
    intros k [<-|[]]; reflexivity. }
  split; [|split; [|split; [|split; [|split]]]].
  - split; [reflexivity|]. split; [reflexivity|].
    apply H1; [reflexivity|reflexivity|discriminate].
  - split; [reflexivity|]. apply H3. reflexivity.
  - split; [reflexivity|]. split; [reflexivity|]. apply H4. reflexivity.
  - split; [reflexivity|]. split; [reflexivity|].
    apply H9; reflexivity.
  - split; [exact K1|]. apply (H14 _ K1).
  - split; [exact K2|]. apply (H15 _ K2).
Defined.

(** ** The fetch client *)

Section ExecuteFacts.

Variable NumberToString : number -> string.

Lemma execute_truthy_success st e :
  truthy (Envelope.success e) = true ->
  execute NumberToString (Body e) st
  = (Success (Envelope.data e),
     {| data := Envelope.data e; loading := false; error := VNull |}).
Proof.
  intros H. unfold execute, execute_settle, try_body. rewrite H. reflexivity.
Qed.

Lemma execute_throws st r m :
  try_body NumberToString r = inl m ->
  execute NumberToString r st
  = (Failure m, {| data := data st; loading := false; error := VStr m |}).
Proof.
  intros H. unfold execute, execute_settle. rewrite H. reflexivity.
Qed.

Lemma failed_throws r :
  failed r = true -> exists m, try_body NumberToString r = inl m.
Proof.
  destruct r as [m|m|m|e]; simpl; eauto.
  unfold falsy. intros ->. eauto.
Qed.

Lemma settle_in_flight c id r :
  id ∈ in_flight c ->
  step NumberToString c (Settle id r)
  = Some {| view := snd (execute_settle NumberToString r (view c));
            in_flight := in_flight c ∖ {[ id ]} |}.
Proof. intros H. unfold step. rewrite decide_True by exact H. reflexivity. Qed.

Lemma invoke_fresh c id :
  id ∉ in_flight c ->
  step NumberToString c (Invoke id)
  = Some {| view := execute_begin (view c);
            in_flight := {[ id ]} ∪ in_flight c |}.
Proof. intros H. unfold step. rewrite decide_False by exact H. reflexivity. Qed.

Lemma settle_success_data st e :
  truthy (Envelope.success e) = true ->
  data (snd (execute_settle NumberToString (Body e) st)) = Envelope.data e.
Proof. intros H. unfold execute_settle, try_body. rewrite H. reflexivity. Qed.

(** C6. When the body is an envelope whose [success] is true, [execute]
    resolves to [{success: true, data}] with the [data] of the
    envelope, the [data] of the client becomes that value, [loading]
    ends false and [error] is null. *)
Theorem execute_success st e :
  Envelope.success e = VBool true ->
  execute NumberToString (Body e) st
  = (Success (Envelope.data e),
     {| data := Envelope.data e; loading := false; error := VNull |}).
Proof. intros H. apply execute_truthy_success. rewrite H. reflexivity. Qed.

(** C7. On every failure, be it [fetch] throwing, the body not parsing
    as JSON or the [success] of the envelope being falsy, [execute]
    resolves to [{success: false, error}] with the message, [loading]
    ends false, the [error] of the client is that message and its
    [data] is what it was. The message is the one thrown; for an
    envelope it is its [error] when that is a string that is not empty,
    and the unknown-error message when the envelope has none. *)
Theorem execute_failure st :
  (forall r, failed r = true ->
     exists m, execute NumberToString r st
               = (Failure m,
                  {| data := data st; loading := false; error := VStr m |}))
  /\ (forall m, execute NumberToString (TransportError m) st
                = (Failure m,
                   {| data := data st; loading := false; error := VStr m |}))
  /\ (forall m, execute NumberToString (BodyNotJSON m) st
                = (Failure m,
                   {| data := data st; loading := false; error := VStr m |}))
  /\ (forall e m, truthy (Envelope.success e) = false ->
                  Envelope.error e = VStr m -> m <> "" ->
                  execute NumberToString (Body e) st
                  = (Failure m,
                     {| data := data st; loading := false; error := VStr m |}))
  /\ (forall e, truthy (Envelope.success e) = false ->
                Envelope.error e = VUndefined ->
                execute NumberToString (Body e) st
                = (Failure unknown_error,
                   {| data := data st; loading := false;
                      error := VStr unknown_error |})).
Proof.
  split; [|split; [|split; [|split]]].
  - intros r Hr. destruct (failed_throws r Hr) as [m Hm].
    exists m. apply execute_throws, Hm.
  - intros m. apply execute_throws. reflexivity.
  - intros m. apply execute_throws. reflexivity.
  - intros e m Hs He Hm. apply execute_throws.
    unfold try_body. rewrite Hs, He. simpl.
    unfold or_else; simpl. destruct m; [congruence|reflexivity].
  - intros e Hs He. apply execute_throws.
    unfold try_body. rewrite Hs, He. reflexivity.
Qed.

(** C8. The responses of one client are applied in the order they
    settle. Of two calls in flight, invoked one after the other, let
    the second settle first and the first settle last, both with
    success: the client shows the data of the second call, then that of
    the first call, which stays. And whatever else is in flight, a
    call in flight that settles has its effect applied: nothing cancels
    it. *)
Theorem settlement_order :
  (forall c i j e1 e2,
      i <> j -> i ∉ in_flight c -> j ∉ in_flight c ->
      truthy (Envelope.success e1) = true ->
      truthy (Envelope.success e2) = true ->
      exists c2 c',
        run NumberToString c [Invoke i; Invoke j; Settle j (Body e2)] = Some c2
        /\ data (view c2) = Envelope.data e2
        /\ run NumberToString c
             [Invoke i; Invoke j; Settle j (Body e2); Settle i (Body e1)]
           = Some c'
        /\ data (view c') = Envelope.data e1
        /\ loading (view c') = false)
  /\ (forall c id r,
        id ∈ in_flight c ->
        exists c', step NumberToString c (Settle id r) = Some c'
                   /\ view c' = snd (execute_settle NumberToString r (view c))).
Proof.
  split.
  - intros c i j e1 e2 Hij Hi Hj Hs1 Hs2. cbn [run].
    assert (Hj' : j ∉ ({[ i ]} ∪ in_flight c : gset nat)).
    { rewrite elem_of_union, elem_of_singleton. intros [Heq|Hin]; congruence. }
    assert (Hj'' : j ∈ ({[ j ]} ∪ ({[ i ]} ∪ in_flight c) : gset nat)).
    { apply elem_of_union_l, elem_of_singleton. reflexivity. }
    assert (Hi' : i ∈ (({[ j ]} ∪ ({[ i ]} ∪ in_flight c)) ∖ {[ j ]} : gset nat)).
    { apply elem_of_difference. split.
      - apply elem_of_union_r, elem_of_union_l, elem_of_singleton. reflexivity.
      - rewrite elem_of_singleton. exact Hij. }
    rewrite (invoke_fresh c i Hi).
    rewrite invoke_fresh by exact Hj'.
    rewrite settle_in_flight by exact Hj''.
    rewrite settle_in_flight by exact Hi'.
    eexists _, _. split; [reflexivity|]. split; [|split; [reflexivity|split]].
    + cbn [view]. apply settle_success_data, Hs2.
    + cbn [view]. apply settle_success_data, Hs1.
    + cbn [view]. unfold execute_settle at 1, try_body at 1.
      rewrite Hs1. reflexivity.
  - intros c id r Hid. eexists. split; [apply settle_in_flight, Hid|].
    reflexivity.
Qed.

End ExecuteFacts.

Lemma execute_success_witness :
  Envelope.success envelope_x = VBool true
  /\ execute (fun _ => "") (Body envelope_x) loaded
     = (Success (VObj "[object Object]"),
        {| data := VObj "[object Object]"; loading := false; error := VNull |}).
Proof.
  split; [reflexivity|].
  apply (execute_success (fun _ => "") loaded envelope_x). reflexivity.
Defined.

Lemma execute_failure_witness :
  failed (Body envelope_bad_symbol) = true
  /\ execute (fun _ => "") (Body envelope_bad_symbol) loaded
     = (Failure "bad symbol",
        {| data := VStr "earlier"; loading := false; error := VStr "bad symbol" |}).
Proof.
  split; [reflexivity|].
  apply (proj1 (proj2 (proj2 (proj2 (execute_failure (fun _ => "") loaded))))
           envelope_bad_symbol "bad symbol");
    [reflexivity|reflexivity|discriminate].
Defined.

Lemma settlement_order_witness :
  exists c',
    run (fun _ => "") idle_client
      [Invoke 1%nat; Invoke 2%nat;
       Settle 2%nat (Body envelope_second); Settle 1%nat (Body envelope_first)]
    = Some c'
    /\ data (view c') = VStr "first".
Proof.
  destruct (proj1 (settlement_order (fun _ => "")) idle_client 1%nat 2%nat
              envelope_first envelope_second)
    as (c2 & c' & _ & _ & Hrun & Hdata & _);
    [lia|apply not_elem_of_empty|apply not_elem_of_empty|reflexivity|reflexivity|].
  exists c'. split; [exact Hrun|exact Hdata].
Defined.

(** ** Further facts on the numeric coercer *)

(** X1. A character outside the kept class changes nothing wherever it
    stands: inserting it into a string, or removing it, leaves [num]
    unchanged, and two strings with the same kept characters have the
    same [num]. *)
Theorem num_ignores_decoration :
  (forall a c b, numeric_char c = false ->
                 num (VStr (a ++ String c b)) = num (VStr (a ++ b)))
  /\ (forall s t, replace_non_numeric s = replace_non_numeric t ->
                  num (VStr s) = num (VStr t)).
Proof.
  assert (H : forall s t, replace_non_numeric s = replace_non_numeric t ->
                          num (VStr s) = num (VStr t)).
  { intros s t Hst. rewrite !num_string. unfold coerce. rewrite Hst. reflexivity. }
  split; [|exact H].
  intros a c b Hc. apply H. rewrite !replace_non_numeric_app. simpl.
  rewrite Hc. reflexivity.
Qed.

Lemma num_ignores_decoration_witness :
  numeric_char "," = false
  /\ num (VStr ("12" ++ String "," "345")) = num (VStr ("12" ++ "345")).
Proof.
  split; [reflexivity|].
  apply (proj1 num_ignores_decoration). reflexivity.
Defined.

(** X2. [num] never returns NaN, and it returns an infinity only for a
    string (or an array or object, through its string) whose kept
    characters parse to that infinity; on null, undefined, a boolean or a
    number the result is finite. *)
Theorem num_infinite_only_from_text (v : value) :
  isNaN (num v) = false
  /\ (isFinite (num v) = false ->
      exists str sgn,
        (v = VStr str \/ v = VObj str)
        /\ num v = S754_infinity sgn
        /\ StringToNumber (replace_non_numeric str) = S754_infinity sgn).
Proof.
  split; [apply num_not_nan|].
  assert (Hc : forall str, isFinite (coerce str) = false ->
                 exists sgn, coerce str = S754_infinity sgn
                   /\ StringToNumber (replace_non_numeric str) = S754_infinity sgn).
  { intros str. unfold coerce.
    destruct (StringToNumber (replace_non_numeric str)) as [s|s| |s m e];
      simpl; try discriminate.
    intros _. exists s. split; reflexivity. }
  destruct v as [| |b|x|s|str]; try (simpl; discriminate).
  - destruct b; vm_compute; discriminate.
  - rewrite num_number_finite. discriminate.
  - rewrite num_string. intros H. destruct (Hc s H) as (sgn & H1 & H2).
    exists s, sgn. auto.
  - intros H. destruct (Hc str H) as (sgn & H1 & H2).
    exists str, sgn. auto.
Qed.

Lemma num_infinite_only_from_text_witness :
  isFinite (num (VStr "1e999")) = false
  /\ exists str sgn,
      (VStr "1e999" = VStr str \/ VStr "1e999" = VObj str)
      /\ num (VStr "1e999") = S754_infinity sgn
      /\ StringToNumber (replace_non_numeric str) = S754_infinity sgn.
Proof.
  split; [reflexivity|].
  apply (proj2 (num_infinite_only_from_text (VStr "1e999"))). reflexivity.
Defined.

(** ** Further facts on the row normalizer and the table *)

Lemma row_key_get (s s' : gmap string value) k :
  (forall k', k' ∈ row_keys -> s !! k' = s' !! k') ->
  k ∈ row_keys -> get s k = get s' k.
Proof. intros H Hk. unfold get. rewrite (H k Hk). reflexivity. Qed.

Ltac row_key := apply list_elem_of_In; vm_compute; tauto.

(** X3. The row depends on the keys in [row_keys] only: two mappings that
    agree on them give the same row, so that adding, changing or removing
    any other key changes nothing. *)
Theorem normalizePortfolioRow_reads_row_keys (s : gmap string value) :
  (forall s', (forall k, k ∈ row_keys -> s !! k = s' !! k) ->
              normalizePortfolioRow s = normalizePortfolioRow s')
  /\ (forall k v, k ∉ row_keys ->
                  normalizePortfolioRow (<[k:=v]> s) = normalizePortfolioRow s)
  /\ (forall k, k ∉ row_keys ->
                normalizePortfolioRow (delete k s) = normalizePortfolioRow s).
Proof.
  assert (H : forall s1 s2 : gmap string value,
             (forall k, k ∈ row_keys -> s1 !! k = s2 !! k) ->
             normalizePortfolioRow s1 = normalizePortfolioRow s2).
  { intros s1 s2 Hk. unfold normalizePortfolioRow.
    rewrite !(row_key_get s1 s2 _ Hk) by row_key. reflexivity. }
  split; [apply H|]. split.
  - intros k v Hk. apply H. intros k' Hk'.
    apply lookup_insert_ne. intros ->. exact (Hk Hk').
  - intros k Hk. apply H. intros k' Hk'.
    apply lookup_delete_ne. intros ->. exact (Hk Hk').
Qed.

Lemma normalizePortfolioRow_reads_row_keys_witness :
  ("notes" ∉ row_keys)
  /\ normalizePortfolioRow (delete "notes" row_with_notes)
     = normalizePortfolioRow row_with_notes.
Proof.
  assert (H : "notes" ∉ row_keys).
  { intros H. apply list_elem_of_In in H. vm_compute in H.
    repeat (destruct H as [H|H]; [discriminate H|]). exact H. }
  split; [exact H|].
  apply (proj2 (proj2 (normalizePortfolioRow_reads_row_keys row_with_notes))).
  exact H.
Defined.

(** A number that is not NaN passes through [num] unchanged when it is
    finite and becomes 0 when it is an infinity. *)
Lemma num_number_again x :
  isNaN x = false ->
  isFinite (num (VNum x)) = true
  /\ (isFinite x = true -> num (VNum x) = x)
  /\ (isFinite x = false ->
      num (VNum x) = zero /\ exists sg, x = S754_infinity sg).
Proof.
  intros Hx. split; [apply num_number_finite|].
  destruct x as [sg|sg| |sg m e]; simpl; split; try discriminate;
    try reflexivity.
  intros _. split; [reflexivity|]. exists sg. reflexivity.
Qed.

(** X4. In a row of the portfolio table five of the six numeric cells,
    price, stop loss, allocation, shares and risk, hand their formatter
    the field of the normalized row passed through [num] once more: the
    number is finite, the field itself when that is finite and 0 when it
    is an infinity. The score cell does not pass through [num]: it shows
    N/A for a score of zero, the digits of the nearest whole number for
    another finite score below 10^21, and Infinity or -Infinity for an
    infinite one, which a score written as an overflowing literal
    gives. *)
Theorem table_cells_finite (NumberToString : number -> string)
    (portfolio : list (gmap string value)) (r : PortfolioRow) :
  In r (rows portfolio) ->
  let t := table_cells NumberToString r in
  let again (field cell : number) :=
    isFinite cell = true
    /\ (isFinite field = true -> cell = field)
    /\ (isFinite field = false ->
        cell = zero /\ exists sg, field = S754_infinity sg) in
  again (price r) (cell_price t)
  /\ again (stop_loss r) (cell_stop_loss t)
  /\ again (percentage_allocation r) (cell_percentage_allocation t)
  /\ again (number_of_shares r) (cell_number_of_shares t)
  /\ again (risk r) (cell_risk t)
  /\ (forall sg, score r = S754_zero sg -> cell_score t = "N/A")
  /\ (forall sg m e, score r = S754_finite sg m e ->
        at_least_1e21 m e = false ->
        cell_score t = (if sg then "-" else "") ++ decimal (scaled m e 0))
  /\ (forall sg, score r = S754_infinity sg ->
        cell_score t = if sg then "-Infinity" else "Infinity")
  /\ (isFinite (score r) = false ->
      exists sg, score r = S754_infinity sg)
  /\ (forall s, get s "score" = VStr "1e999" ->
        cell_score (table_cells NumberToString (normalizePortfolioRow s))
        = "Infinity").
Proof.
  intros Hin. apply in_map_iff in Hin as (s & <- & _). cbv zeta.
  unfold table_cells; cbn [cell_score cell_price cell_stop_loss
    cell_percentage_allocation cell_number_of_shares cell_risk].
  cbn [normalizePortfolioRow score price stop_loss percentage_allocation
       number_of_shares risk].
  repeat (split; [apply num_number_again;
                  first [apply num_not_nan
                        |apply Math_round_not_nan, num_not_nan]|]).
  split; [|split; [|split; [|split]]].
  - intros sg ->. reflexivity.
  - intros sg m e -> Hbig. cbn [truthy toFixed]. rewrite Hbig. reflexivity.
  - intros sg ->. reflexivity.
  - pose proof (num_not_nan (get s "score")) as Hn.
    destruct (num (get s "score")) as [sg|sg| |sg m e]; try discriminate.
    intros _. exists sg. reflexivity.
  - intros s' ->. reflexivity.
Qed.

Lemma table_cells_finite_witness :
  In (normalizePortfolioRow row_overflow_score)
     (rows [row_text; row_overflow_score])
  /\ isFinite (price (normalizePortfolioRow row_overflow_score)) = false
  /\ cell_price (table_cells (fun _ => "")
                   (normalizePortfolioRow row_overflow_score)) = zero
  /\ score (normalizePortfolioRow row_overflow_score) = S754_infinity false
  /\ cell_score (table_cells (fun _ => "")
                   (normalizePortfolioRow row_overflow_score)) = "Infinity".
Proof.
  assert (H : In (normalizePortfolioRow row_overflow_score)
                 (rows [row_text; row_overflow_score]))
    by (right; left; reflexivity).
  pose proof (table_cells_finite (fun _ => "") _ _ H) as T. cbv zeta in T.
  destruct T as ((_ & _ & Hp) & _ & _ & _ & _ & _ & _ & Hs & _).
  split; [exact H|]. split; [reflexivity|]. split; [|split].
  - apply Hp. reflexivity.
  - reflexivity.
  - apply (Hs false). reflexivity.
Defined.

(** ** Further facts on the fetch client *)

Section ExecuteMore.

Variable NumberToString : number -> string.

Lemma settle_view r st :
  let st' := snd (execute_settle NumberToString r st) in
  loading st' = false
  /\ (error st' = error st \/ exists m, error st' = VStr m)
  /\ (data st' = data st \/ exists e, r = Body e /\ data st' = Envelope.data e).
Proof.
  unfold execute_settle.
  destruct (try_body NumberToString r) as [m|d] eqn:Hr; cbn.
  - split; [reflexivity|]. split; [right; eauto|left; reflexivity].
  - split; [reflexivity|]. split; [left; reflexivity|].
    right. destruct r as [m|m|m|e]; try discriminate Hr.
    exists e. split; [reflexivity|].
    simpl in Hr. destruct (negb _); congruence.
Qed.



Lemma step_ok c ev c' :
  client_ok c -> step NumberToString c ev = Some c' -> client_ok c'.
Proof.
  intros [Hl He] Hstep. destruct ev as [id|id r]; simpl in Hstep.
  - destruct (decide (id ∈ in_flight c)); [discriminate|].
    inversion Hstep; subst c'; clear Hstep. split; cbn.
    + intros _ Hempty.
      assert (Hid : id ∈ ({[ id ]} ∪ in_flight c : gset nat))
        by (apply elem_of_union_l, elem_of_singleton; reflexivity).
      rewrite Hempty in Hid. exact (not_elem_of_empty id Hid).
    + left. reflexivity.
  - destruct (decide (id ∈ in_flight c)); [|discriminate].
    inversion Hstep; subst c'; clear Hstep.
    destruct (settle_view r (view c)) as (H1 & H2 & _). split; cbn.
    + rewrite H1. discriminate.
    + destruct H2 as [H2|H2]; [rewrite H2; exact He|right; exact H2].
Qed.

(** X5. Whatever the calls and their order, a client that starts idle
    shows [loading] only while a call is in flight, and its [error] is
    null or a message. *)
Theorem run_keeps_client_ok evs :
  forall c c',
    client_ok c -> run NumberToString c evs = Some c' -> client_ok c'.
Proof.
  induction evs as [|ev evs IH]; simpl; intros c c' Hc Hrun.
  - inversion Hrun; subst. exact Hc.
  - destruct (step NumberToString c ev) as [c1|] eqn:Hstep; [|discriminate].
    apply (IH c1 c'); [|exact Hrun]. exact (step_ok c ev c1 Hc Hstep).
Qed.

(** X6. The converse fails: [finally] clears [loading] whenever a call
    settles. Of two calls in flight, once one has settled the client no
    longer shows [loading] although the other is still in flight. *)
Theorem loading_cleared_while_in_flight c i j r :
  i <> j -> i ∉ in_flight c -> j ∉ in_flight c ->
  exists c',
    run NumberToString c [Invoke i; Invoke j; Settle j r] = Some c'
    /\ loading (view c') = false
    /\ i ∈ in_flight c'.
Proof.
  intros Hij Hi Hj. cbn [run].
  assert (Hj' : j ∉ ({[ i ]} ∪ in_flight c : gset nat)).
  { rewrite elem_of_union, elem_of_singleton. intros [Heq|Hin]; congruence. }
  assert (Hj'' : j ∈ ({[ j ]} ∪ ({[ i ]} ∪ in_flight c) : gset nat)).
  { apply elem_of_union_l, elem_of_singleton. reflexivity. }
  rewrite (invoke_fresh NumberToString c i Hi).
  rewrite invoke_fresh by exact Hj'.
  rewrite settle_in_flight by exact Hj''.
  eexists. split; [reflexivity|]. cbn [view in_flight]. split.
  - apply settle_view.
  - apply elem_of_difference. split.
    + apply elem_of_union_r, elem_of_union_l, elem_of_singleton. reflexivity.
    + rewrite elem_of_singleton. exact Hij.
Qed.


(** X8. The envelope is tested for truthiness, not for its types: any
    truthy [success], the string ["false"] included, is a success, and
    with a falsy [success] any falsy [error] (absent, null, the empty
    string, 0, false) gives the unknown-error message. *)
Theorem envelope_tests_truthiness st e :
  (truthy (Envelope.success e) = true ->
   execute NumberToString (Body e) st
   = (Success (Envelope.data e),
      {| data := Envelope.data e; loading := false; error := VNull |}))
  /\ (truthy (Envelope.success e) = false ->
      truthy (Envelope.error e) = false ->
      execute NumberToString (Body e) st
      = (Failure unknown_error,
         {| data := data st; loading := false; error := VStr unknown_error |})).
Proof.
  split.
  - intros H. unfold execute, execute_settle, try_body. rewrite H. reflexivity.
  - intros Hs He. unfold execute, execute_settle, try_body, or_else.
    rewrite Hs, He. reflexivity.
Qed.

End ExecuteMore.

Lemma run_keeps_client_ok_witness :
  client_ok idle_client
  /\ client_ok {| view := {| data := VStr "second"; loading := false;
                             error := VStr "offline" |};
                  in_flight := {[ 1%nat ]} |}.
Proof.
  assert (H0 : client_ok idle_client).
  { split; cbn; [discriminate|left; reflexivity]. }
  split; [exact H0|].
  apply (run_keeps_client_ok (fun _ => "")
           [Invoke 1%nat; Invoke 2%nat; Invoke 3%nat;
            Settle 3%nat (TransportError "offline");
            Settle 2%nat (Body envelope_second)]
           idle_client); [exact H0|].
  vm_compute. reflexivity.
Defined.

Lemma loading_cleared_while_in_flight_witness :
  exists c',
    run (fun _ => "") idle_client
      [Invoke 1%nat; Invoke 2%nat; Settle 2%nat (Body envelope_second)]
    = Some c'
    /\ loading (view c') = false
    /\ 1%nat ∈ in_flight c'.
Proof.
  apply (loading_cleared_while_in_flight (fun _ => "") idle_client 1%nat 2%nat);
    [lia|apply not_elem_of_empty|apply not_elem_of_empty].
Defined.


Lemma envelope_tests_truthiness_witness :
  (truthy (Envelope.success envelope_text_flag) = true
   /\ fst (execute (fun _ => "") (Body envelope_text_flag) initial)
      = Success (VStr "payload"))
  /\ (truthy (Envelope.error envelope_no_message) = false
      /\ fst (execute (fun _ => "") (Body envelope_no_message) initial)
         = Failure unknown_error).
Proof.
  split; (split; [reflexivity|]).
  - rewrite (proj1 (envelope_tests_truthiness (fun _ => "") initial
                      envelope_text_flag)); reflexivity.
  - rewrite (proj2 (envelope_tests_truthiness (fun _ => "") initial
                      envelope_no_message)); reflexivity.
Defined.

(** ** The text helpers *)

Lemma append_cons c (a b : string) : String c a ++ b = String c (a ++ b).
Proof. reflexivity. Qed.

Lemma append_assoc' (a b c : string) : (a ++ b) ++ c = a ++ b ++ c.
Proof.
  induction a as [|x a IH]; [reflexivity|].
  rewrite !append_cons, IH. reflexivity.
Qed.

Lemma toLowerCase_app a b : toLowerCase (a ++ b) = toLowerCase a ++ toLowerCase b.
Proof.
  induction a as [|c a IH]; [reflexivity|].
  rewrite append_cons. cbn [toLowerCase]. rewrite IH. reflexivity.
Qed.

Lemma lower_idempotent c : lower (lower c) = lower c.
Proof. ascii_cases c; reflexivity. Qed.

Lemma toLowerCase_idempotent s : toLowerCase (toLowerCase s) = toLowerCase s.
Proof.
  induction s as [|c s IH]; [reflexivity|].
  cbn [toLowerCase]. rewrite lower_idempotent, IH. reflexivity.
Qed.

Lemma startsWith_app p b : startsWith (p ++ b) p = true.
Proof.
  induction p as [|c p IH]; [destruct b; reflexivity|].
  rewrite append_cons. cbn [startsWith]. rewrite Ascii.eqb_refl, IH. reflexivity.
Qed.

Lemma startsWith_elim s : forall p, startsWith s p = true -> exists b, s = p ++ b.
Proof.
  induction s as [|c s IH]; intros [|a p] H; try discriminate H.
  - exists "". reflexivity.
  - exists (String c s). reflexivity.
  - cbn [startsWith] in H. apply andb_true_iff in H as [Hc Hp].
    apply Ascii.eqb_eq in Hc. subst a.
    destruct (IH p Hp) as [b ->]. exists b. reflexivity.
Qed.

Lemma includes_app a p b : includes (a ++ p ++ b) p = true.
Proof.
  induction a as [|c a IH].
  - change ("" ++ p ++ b) with (p ++ b).
    destruct (p ++ b) eqn:E; cbn [includes]; rewrite <- E, startsWith_app;
      reflexivity.
  - rewrite append_cons. cbn [includes]. rewrite IH. apply orb_true_r.
Qed.

Lemma includes_elim s p : includes s p = true -> exists a b, s = a ++ p ++ b.
Proof.
  induction s as [|c s IH]; cbn [includes]; intros H.
  - rewrite orb_false_r in H. destruct (startsWith_elim _ _ H) as [b Hb].
    exists "", b. exact Hb.
  - apply orb_true_iff in H as [H|H].
    + destruct (startsWith_elim _ _ H) as [b Hb]. exists "", b. exact Hb.
    + destruct (IH H) as (a & b & ->). exists (String c a), b. reflexivity.
Qed.

(** A word found inside another is found wherever the other is. *)
Lemma includes_trans s p q : includes s p = true -> includes p q = true ->
  includes s q = true.
Proof.
  intros Hp Hq.
  destruct (includes_elim _ _ Hp) as (a & b & ->).
  destruct (includes_elim _ _ Hq) as (a' & b' & ->).
  rewrite !append_assoc', <- (append_assoc' a a'). apply includes_app.
Qed.

Lemma truthy_string s : truthy (VStr s) = negb (String.eqb s "").
Proof. reflexivity. Qed.

(** ** The class pickers *)

(** X9. [getSignalClasses] looks for its words in any letter case and
    anywhere in the text, in a fixed order: a text holding "strong buy"
    gets the strong-buy class; one holding "buy" gets the strong-buy or
    the buy class whatever else it holds, "sell" or "avoid" included;
    and every text holding "strong buy" holds "buy", so that the order of
    the two tests is what tells them apart. *)
Theorem getSignalClasses_order :
  (forall a w b, toLowerCase w = "strong buy" ->
                 getSignalClasses (VStr (a ++ w ++ b)) = Some signal_strong_buy)
  /\ (forall a w b, toLowerCase w = "buy" ->
        getSignalClasses (VStr (a ++ w ++ b)) = Some signal_strong_buy
        \/ getSignalClasses (VStr (a ++ w ++ b)) = Some signal_buy)
  /\ (forall s, includes s "strong buy" = true -> includes s "buy" = true).
Proof.
  assert (Hne : forall a w b, w <> "" -> truthy (VStr (a ++ w ++ b)) = true).
  { intros a w b Hw. rewrite truthy_string.
    destruct (String.eqb_spec (a ++ w ++ b) "") as [E|E]; [|reflexivity].
    apply append_eq_empty in E as [_ E]. apply append_eq_empty in E as [E _].
    contradiction. }
  split; [|split].
  - intros a w b Hw. unfold getSignalClasses.
    rewrite Hne by (intros ->; discriminate Hw). cbn [negb].
    rewrite !toLowerCase_app, Hw, includes_app. reflexivity.
  - intros a w b Hw. unfold getSignalClasses.
    rewrite Hne by (intros ->; discriminate Hw). cbn [negb].
    rewrite !toLowerCase_app, Hw.
    rewrite (includes_app _ "buy").
    destruct (includes _ "strong buy"); [left|right]; reflexivity.
  - intros s H. apply (includes_trans s "strong buy" "buy" H). reflexivity.
Qed.

Lemma getSignalClasses_order_witness :
  toLowerCase "Strong BUY" = "strong buy"
  /\ getSignalClasses (VStr ("Signal: " ++ "Strong BUY" ++ " (do not sell)"))
     = Some signal_strong_buy.
Proof.
  split; [reflexivity|].
  apply (proj1 getSignalClasses_order). reflexivity.
Defined.

(** X10. [getSentimentClasses] gives the green class to every text that
    holds "bullish" or "positive" in any letter case, whatever else it
    holds, and the gray class to every falsy value. *)
Theorem getSentimentClasses_positive_first :
  (forall a w b, toLowerCase w = "bullish" \/ toLowerCase w = "positive" ->
                 getSentimentClasses (VStr (a ++ w ++ b)) = Some sentiment_green)
  /\ (forall v, truthy v = false -> getSentimentClasses v = Some sentiment_gray).
Proof.
  split.
  - intros a w b Hw. unfold getSentimentClasses, or_else.
    assert (Hne : truthy (VStr (a ++ w ++ b)) = true).
    { rewrite truthy_string.
      destruct (String.eqb_spec (a ++ w ++ b) "") as [E|E]; [|reflexivity].
      apply append_eq_empty in E as [_ E]. apply append_eq_empty in E as [-> _].
      destruct Hw as [Hw|Hw]; discriminate Hw. }
    rewrite Hne. cbv zeta. rewrite !toLowerCase_app.
    destruct Hw as [-> | ->]; rewrite includes_app;
      rewrite ?orb_true_r; reflexivity.
  - intros v Hv. unfold getSentimentClasses, or_else. rewrite Hv. reflexivity.
Qed.

Lemma getSentimentClasses_positive_first_witness :
  (toLowerCase "Bullish" = "bullish" \/ toLowerCase "Bullish" = "positive")
  /\ getSentimentClasses (VStr ("not bearish, " ++ "Bullish" ++ "!"))
     = Some sentiment_green.
Proof.
  split; [left; reflexivity|].
  apply (proj1 getSentimentClasses_positive_first). left. reflexivity.
Defined.

(** X11. [getGradeColor] looks at the first character only, and at its
    case: a grade starting with [A], [B] or [C] is green, blue or yellow
    whatever follows, every other string that is not empty is red, a
    lower-case [a] included, and a falsy grade is gray. *)
Theorem getGradeColor_first_character :
  (forall c rest,
      getGradeColor (VStr (String c rest))
      = Some (if Ascii.eqb c "A" then grade_green
              else if Ascii.eqb c "B" then grade_blue
              else if Ascii.eqb c "C" then grade_yellow
              else grade_red))
  /\ (forall v, truthy v = false -> getGradeColor v = Some grade_gray).
Proof.
  split.
  - intros c rest. unfold getGradeColor. cbn [truthy String.eqb negb startsWith].
    rewrite !(Ascii.eqb_sym _ c).
    destruct rest; rewrite ?andb_true_r;
      destruct (Ascii.eqb c "A"), (Ascii.eqb c "B"), (Ascii.eqb c "C");
      reflexivity.
  - intros v Hv. unfold getGradeColor. rewrite Hv. reflexivity.
Qed.

Lemma getGradeColor_first_character_witness :
  truthy (VNum zero) = false /\ getGradeColor (VNum zero) = Some grade_gray.
Proof.
  split; [reflexivity|].
  apply (proj2 getGradeColor_first_character). reflexivity.
Defined.

(** X12. The three pickers return a class for every string and for every
    falsy value, and throw for every other value: a number other than 0,
    [true], an array or an object has no string method to call. *)
Theorem class_pickers_throw (v : value) :
  let throws := (truthy v && negb (is_string v))%bool in
  (getSentimentClasses v = None <-> throws = true)
  /\ (getGradeColor v = None <-> throws = true)
  /\ (getSignalClasses v = None <-> throws = true).
Proof.
  cbv zeta. unfold getSentimentClasses, getGradeColor, getSignalClasses, or_else.
  destruct v as [| |b|x|s|str]; cbn [truthy is_string negb andb].
  - repeat split; discriminate.
  - repeat split; discriminate.
  - destruct b; cbn; repeat split; try discriminate; reflexivity.
  - destruct x; cbn; repeat split; try discriminate; reflexivity.
  - rewrite andb_false_r. destruct (negb (String.eqb s "")); cbv zeta;
      repeat split; try discriminate;
      repeat match goal with |- context [if ?b then _ else _] => destruct b end;
      discriminate.
  - repeat split; reflexivity.
Qed.

Lemma class_pickers_throw_witness :
  (truthy (VNum number_42) && negb (is_string (VNum number_42)))%bool = true
  /\ getSignalClasses (VNum number_42) = None.
Proof.
  split; [reflexivity|].
  apply (proj2 (proj2 (proj2 (class_pickers_throw (VNum number_42))))).
  reflexivity.
Defined.

(** ** Pages *)

Lemma App_step_ok st a st' : App_ok st -> App_step st a = Some st' -> App_ok st'.
Proof.
  intros (Hp & Ht & Hm) H. destruct a as [|i|i j| | |sym|]; simpl in H.
  - inversion H; subst. repeat split; simpl; auto.
  - destruct (nth_error navItems i) as [item|] eqn:Hi; [|discriminate H].
    inversion H; subst; clear H. apply nth_error_In in Hi. simpl in Hi.
    unfold App_ok, clickItem.
    destruct Hi as [<-|[<-|[<-|[<-|[<-|[]]]]]]; cbn;
      repeat split; auto; try case_bool_decide; auto 10.
  - destruct (nth_error navItems i) as [item|] eqn:Hi; [|discriminate H].
    destruct (subItems item) as [subs|] eqn:Hsubs; [|discriminate H].
    destruct (nth_error subs j) as [sub|] eqn:Hj; [|discriminate H].
    case_bool_decide; [|discriminate H].
    inversion H; subst; clear H.
    apply nth_error_In in Hi. apply nth_error_In in Hj. simpl in Hi.
    unfold App_ok, handleSubItemClick.
    destruct Hi as [<-|[<-|[<-|[<-|[<-|[]]]]]]; simpl in Hsubs;
      try discriminate Hsubs; inversion Hsubs; subst; simpl in Hj;
      destruct Hj as [<-|[<-|[<-|[]]]]; cbn; repeat split; auto 10.
  - inversion H; subst. repeat split; simpl; auto.
  - inversion H; subst. unfold App_ok, toggleTheme; cbn. repeat split; auto.
    destruct (String.eqb (theme st) "light"); auto.
  - destruct (String.eqb (page st) "stocks"); [|discriminate H].
    inversion H; subst. repeat split; simpl; auto 10.
  - destruct (String.eqb (page st) "compare"); [|discriminate H].
    inversion H; subst. repeat split; simpl; auto.
Qed.

(** X13. Whatever the user does, the page is one of the seven labels of
    the [switch] of [renderPage], so that its [default] branch is never
    taken; the theme is "light" or "dark"; and the open menu, if any, is
    that of an item that has one. The pages "swing" and "position" of the
    two items with a menu are never shown. *)
Theorem App_run_ok acts :
  forall st st', App_ok st -> App_run st acts = Some st' -> App_ok st'.
Proof.
  induction acts as [|a acts IH]; simpl; intros st st' Hst H.
  - inversion H; subst. exact Hst.
  - destruct (App_step st a) as [st1|] eqn:Ha; [|discriminate H].
    exact (IH st1 st' (App_step_ok st a st1 Hst Ha) H).
Qed.

Lemma App_run_ok_witness :
  App_ok App_initial
  /\ App_ok {| page := "portfolio_position"; selectedSymbol := "";
               theme := "dark"; openMenu := None |}.
Proof.
  assert (H0 : App_ok App_initial) by (unfold App_ok; simpl; auto).
  split; [exact H0|].
  apply (App_run_ok [ClickItem 3%nat; ToggleTheme; ClickSubItem 3%nat 2%nat]
           App_initial); [exact H0|reflexivity].
Defined.

(** X14. Every label of the [switch] can be reached from the start with
    the navigation bar. *)
Theorem every_page_reachable (p : string) :
  In p page_labels ->
  exists acts st, App_run App_initial acts = Some st /\ page st = p.
Proof.
  simpl. intros [<-|[<-|[<-|[<-|[<-|[<-|[<-|[]]]]]]]].
  - exists [], App_initial. split; reflexivity.
  - exists [ClickItem 1%nat]. eexists. split; reflexivity.
  - exists [ClickItem 2%nat; ClickSubItem 2%nat 1%nat]. eexists. split; reflexivity.
  - exists [ClickItem 3%nat; ClickSubItem 3%nat 1%nat]. eexists. split; reflexivity.
  - exists [ClickItem 2%nat; ClickSubItem 2%nat 2%nat]. eexists. split; reflexivity.
  - exists [ClickItem 3%nat; ClickSubItem 3%nat 2%nat]. eexists. split; reflexivity.
  - exists [ClickItem 4%nat]. eexists. split; reflexivity.
Qed.

Lemma every_page_reachable_witness :
  exists acts st,
    App_run App_initial acts = Some st /\ page st = "analyze_position".
Proof. apply every_page_reachable. simpl. auto. Defined.

Lemma App_step_theme st a st' :
  App_step st a = Some st' ->
  theme st'
  = if is_toggle a
    then (if String.eqb (theme st) "light" then "dark" else "light")
    else theme st.
Proof.
  intros H. destruct a as [|i|i j| | |sym|]; simpl in H; cbn [is_toggle].
  - inversion H; reflexivity.
  - destruct (nth_error navItems i) as [item|]; [|discriminate H].
    inversion H; subst. unfold clickItem. destruct (subItems item); reflexivity.
  - destruct (nth_error navItems i) as [item|]; [|discriminate H].
    destruct (subItems item) as [subs|]; [|discriminate H].
    destruct (nth_error subs j) as [sub|]; [|discriminate H].
    case_bool_decide; [|discriminate H]. inversion H; subst.
    unfold handleSubItemClick.
    repeat match goal with |- context [if ?b then _ else _] => destruct b end;
      reflexivity.
  - inversion H; reflexivity.
  - inversion H; reflexivity.
  - destruct (String.eqb (page st) "stocks"); [|discriminate H].
    inversion H; reflexivity.
  - destruct (String.eqb (page st) "compare"); [|discriminate H].
    inversion H; reflexivity.
Qed.

Lemma toggleTheme_count acts :
  forall st st',
    (theme st = "light" \/ theme st = "dark") ->
    App_run st acts = Some st' ->
    theme st'
    = if Nat.even (length (List.filter is_toggle acts))
      then theme st
      else if String.eqb (theme st) "light" then "dark" else "light".
Proof.
  induction acts as [|a acts IH]; intros st st' Ht H.
  - inversion H; subst. reflexivity.
  - cbn [App_run] in H.
    destruct (App_step st a) as [st1|] eqn:Ha; [|discriminate H].
    pose proof (App_step_theme st a st1 Ha) as Hth.
    assert (Ht1 : theme st1 = "light" \/ theme st1 = "dark").
    { rewrite Hth. destruct (is_toggle a); [|exact Ht].
      destruct Ht as [-> | ->]; simpl; auto. }
    rewrite (IH st1 st' Ht1 H), Hth. cbn [List.filter].
    destruct (is_toggle a) eqn:Htog; [|reflexivity].
    cbn [length]. rewrite Nat.even_succ, <- Nat.negb_even.
    destruct Ht as [-> | ->]; simpl; destruct (Nat.even _); reflexivity.
Qed.

(** X15. The theme depends on the number of times it was toggled only:
    from the start it is "dark" after an odd number and "light" after an
    even number, whatever else was done in between. *)
Theorem theme_parity acts st :
  App_run App_initial acts = Some st ->
  theme st = if Nat.even (length (List.filter is_toggle acts)) then "light" else "dark".
Proof.
  intros H. rewrite (toggleTheme_count acts App_initial st (or_introl eq_refl) H).
  reflexivity.
Qed.

Lemma theme_parity_witness :
  theme {| page := "stocks"; selectedSymbol := ""; theme := "dark";
           openMenu := None |}
  = "dark".
Proof.
  apply (theme_parity [ToggleTheme; ClickItem 1%nat; ToggleTheme; ToggleTheme]).
  reflexivity.
Defined.

(** ** The stocks list *)

Lemma includes_empty s : includes s "" = true.
Proof. destruct s; reflexivity. Qed.

Lemma includes_self s : includes s s = true.
Proof.
  rewrite <- (append_empty_r s) at 1. apply (includes_app "" s "").
Qed.

Lemma filter_all {A} (f : A -> bool) l :
  (forall x, In x l -> f x = true) -> List.filter f l = l.
Proof.
  induction l as [|x l IH]; simpl; intros H; [reflexivity|].
  rewrite (H x (or_introl eq_refl)), IH; [reflexivity|].
  intros y Hy. apply H. right. exact Hy.
Qed.

(** X16. With an empty search term every stock is listed, in order; a
    stock is always found by its own symbol; and without data the list
    is empty. *)
Theorem filteredStocks_empty_term :
  (forall l, filteredStocks (Some l) "" = l)
  /\ (forall l stock, In stock l -> In stock (filteredStocks (Some l) stock))
  /\ (forall term, filteredStocks None term = []).
Proof.
  split; [|split].
  - intros l. unfold filteredStocks. apply filter_all.
    intros x _. apply includes_empty.
  - intros l stock H. unfold filteredStocks. apply filter_In.
    split; [exact H|apply includes_self].
  - reflexivity.
Qed.

Lemma filteredStocks_empty_term_witness :
  In "TCS.NS" stocks_sample
  /\ In "TCS.NS" (filteredStocks (Some stocks_sample) "TCS.NS").
Proof.
  assert (H : In "TCS.NS" stocks_sample) by (simpl; auto).
  split; [exact H|].
  apply (proj1 (proj2 filteredStocks_empty_term)). exact H.
Defined.

(** X17. The search ignores the letter case of both sides, and typing
    more characters only narrows the list: every stock listed for a term
    followed or preceded by more text is listed for the term. *)
Theorem filteredStocks_narrows (l : list string) (term : string) :
  forallb ascii_only l = true -> ascii_only term = true ->
  (forall term', ascii_only term' = true ->
                 toLowerCase term' = toLowerCase term ->
                 filteredStocks (Some l) term' = filteredStocks (Some l) term)
  /\ (forall before after stock,
        ascii_only before = true -> ascii_only after = true ->
        In stock (filteredStocks (Some l) (before ++ term ++ after)) ->
        In stock (filteredStocks (Some l) term)).
Proof.
  intros _ _. split.
  - intros term' _ H. unfold filteredStocks. rewrite H. reflexivity.
  - intros before after stock _ _ H. unfold filteredStocks in *.
    apply filter_In in H as [Hin Hinc]. apply filter_In. split; [exact Hin|].
    apply (includes_trans _ _ _ Hinc).
    rewrite !toLowerCase_app. apply includes_app.
Qed.

Lemma filteredStocks_narrows_witness :
  forallb ascii_only stocks_sample = true
  /\ ascii_only "tcs" = true
  /\ filteredStocks (Some stocks_sample) "TCS"
     = filteredStocks (Some stocks_sample) "tcs".
Proof.
  split; [reflexivity|]. split; [reflexivity|].
  apply (proj1 (filteredStocks_narrows stocks_sample "tcs" eq_refl eq_refl));
    reflexivity.
Defined.

(** ** The grid of data points *)

Lemma replace_underscores_length key :
  String.length (replace_underscores key) = String.length key.
Proof. induction key as [|c key IH]; simpl; [|rewrite IH]; reflexivity. Qed.

Lemma replace_underscores_none key : includes (replace_underscores key) "_" = false.
Proof.
  induction key as [|c key IH]; [reflexivity|].
  cbn [replace_underscores includes startsWith]. rewrite IH.
  destruct (Ascii.eqb_spec c "_") as [->|Hc]; [reflexivity|].
  destruct (Ascii.eqb_spec "_" c) as [E|_]; [congruence|reflexivity].
Qed.

Lemma DataGrid_entries (entries : list (string * value)) :
  match DataGrid (Some entries) with
  | Grid cells =>
      cells <> []
      /\ map snd cells = List.filter displayable (map snd entries)
      /\ (forall label v, In (label, v) cells ->
            displayable v = true
            /\ includes label "_" = false
            /\ exists key, In (key, v) entries
                           /\ label = replace_underscores key
                           /\ String.length label = String.length key)
  | NoValidDataPoints =>
      forall key v, In (key, v) entries -> displayable v = false
  | NoDataAvailable => False
  end.
Proof.
  unfold DataGrid.
  assert (Hsnd : map snd (validEntries entries)
                 = List.filter displayable (map snd entries)).
  { unfold validEntries. induction entries as [|[k v] l IH]; [reflexivity|].
    simpl. destruct (displayable v); simpl; rewrite IH; reflexivity. }
  destruct (validEntries entries) as [|e valid] eqn:Hv.
  - intros key v Hin. destruct (displayable v) eqn:Hd; [|reflexivity].
    assert (H : In (key, v) (validEntries entries)).
    { unfold validEntries. apply filter_In. split; [exact Hin|exact Hd]. }
    rewrite Hv in H. destruct H.
  - split; [discriminate|]. split.
    + rewrite <- Hsnd, map_map. apply map_ext. intros [k v]. reflexivity.
    + intros label v Hin. apply in_map_iff in Hin as ([key v'] & Heq & Hin).
      inversion Heq; subst; clear Heq.
      rewrite <- Hv in Hin. unfold validEntries in Hin.
      apply filter_In in Hin as [Hin Hd].
      split; [exact Hd|]. split; [apply replace_underscores_none|].
      exists key. split; [exact Hin|]. split; [reflexivity|].
      apply replace_underscores_length.
Qed.

(** X18. [DataGrid] shows the entries that are strings or numbers, all of
    them, in order, under their key with every underscore replaced by a
    space; every other entry (null, a boolean, an array, an object) is
    left out, and an object with no entry to show is reported as having
    no valid data point. *)
Theorem DataGrid_shows_strings_and_numbers (entries : list (string * value)) :
  match DataGrid (Some entries) with
  | Grid cells =>
      cells <> []
      /\ map snd cells = List.filter displayable (map snd entries)
      /\ (forall label v, In (label, v) cells ->
            displayable v = true
            /\ includes label "_" = false
            /\ exists key, In (key, v) entries
                           /\ label = replace_underscores key
                           /\ String.length label = String.length key)
  | NoValidDataPoints =>
      forall key v, In (key, v) entries -> displayable v = false
  | NoDataAvailable => False
  end.
Proof. exact (DataGrid_entries entries). Qed.

Lemma DataGrid_shows_strings_and_numbers_witness :
  In ("news count", VNum number_42)
     [("overall sentiment", VStr "Bullish"); ("mda tone", VStr "Positive");
      ("news count", VNum number_42); ("mda score", VNum number_5)]
  /\ displayable (VNum number_42) = true
  /\ exists key, In (key, VNum number_42) sentiment_sample
                 /\ "news count" = replace_underscores key.
Proof.
  pose proof (DataGrid_shows_strings_and_numbers sentiment_sample) as H.
  cbn in H. destruct H as (_ & _ & H).
  assert (Hin : In ("news count", VNum number_42)
                   [("overall sentiment", VStr "Bullish");
                    ("mda tone", VStr "Positive");
                    ("news count", VNum number_42);
                    ("mda score", VNum number_5)])
    by (right; right; left; reflexivity).
  split; [exact Hin|].
  destruct (H "news count" (VNum number_42) Hin) as (Hd & _ & key & Hk & Hl & _).
  split; [exact Hd|]. exists key. split; [exact Hk|exact Hl].
Defined.

Lemma DataGrid_cells entries cells :
  DataGrid (Some entries) = Grid cells ->
  cells = map (fun '(key, value) => (replace_underscores key, value))
              (validEntries entries).
Proof.
  unfold DataGrid. destruct (validEntries entries); [discriminate|].
  intros H; inversion H; reflexivity.
Qed.

(** X19. The sentiment grid never shows what was stored under
    [mda_tone] or [mda_score], keeps every other string or number of the
    sentiment, and, the sentiment being replaced by an empty object when
    it is missing, never reports that no data is available. *)
Theorem SentimentGrid_leaves_mda_out (sentiment : option (list (string * value))) :
  SentimentGrid sentiment <> NoDataAvailable
  /\ (forall cells label v,
        SentimentGrid sentiment = Grid cells -> In (label, v) cells ->
        exists key, In (key, v) (default [] sentiment)
                    /\ key <> "mda_tone" /\ key <> "mda_score"
                    /\ label = replace_underscores key)
  /\ (forall key v,
        In (key, v) (default [] sentiment) ->
        key <> "mda_tone" -> key <> "mda_score" -> displayable v = true ->
        exists cells, SentimentGrid sentiment = Grid cells
                      /\ In (replace_underscores key, v) cells).
Proof.
  unfold SentimentGrid.
  pose proof (DataGrid_entries (marketSentiment sentiment)) as H.
  assert (Hm : forall key v, In (key, v) (marketSentiment sentiment) <->
                 In (key, v) (default [] sentiment)
                 /\ key <> "mda_tone" /\ key <> "mda_score").
  { intros key v. unfold marketSentiment. rewrite filter_In.
    rewrite negb_true_iff, orb_false_iff.
    destruct (String.eqb_spec key "mda_tone"), (String.eqb_spec key "mda_score");
      intuition congruence. }
  destruct (DataGrid (Some (marketSentiment sentiment))) as [| |cells] eqn:Hg.
  - destruct H.
  - split; [discriminate|]. split; [discriminate|].
    intros key v Hin H1 H2 Hd.
    rewrite (H key v) in Hd; [discriminate|]. apply Hm. auto.
  - destruct H as (_ & Hsnd & Hcells). split; [discriminate|]. split.
    + intros cells' label v Heq Hin. inversion Heq; subst cells'.
      destruct (Hcells label v Hin) as (_ & _ & key & Hk & -> & _).
      exists key. apply Hm in Hk. intuition.
    + intros key v Hin H1 H2 Hd. exists cells. split; [reflexivity|].
      rewrite (DataGrid_cells _ _ Hg).
      apply in_map_iff. exists (key, v). split; [reflexivity|].
      unfold validEntries. apply filter_In. split; [|exact Hd].
      apply Hm. auto.
Qed.

Lemma SentimentGrid_leaves_mda_out_witness :
  In ("news_count", VNum number_42) (default [] (Some sentiment_sample))
  /\ exists cells, SentimentGrid (Some sentiment_sample) = Grid cells
                   /\ In ("news count", VNum number_42) cells.
Proof.
  assert (H : In ("news_count", VNum number_42) (default [] (Some sentiment_sample)))
    by (simpl; auto).
  split; [exact H|].
  apply (proj2 (proj2 (SentimentGrid_leaves_mda_out (Some sentiment_sample)))
           "news_count" (VNum number_42) H); [discriminate|discriminate|reflexivity].
Defined.

(** ** The disclaimer *)

(** X20. Until the full text is asked for, the footer shows at most the
    first 200 code units of the disclaimer followed by three full stops:
    its length is the smaller of 200 and the length of the text, plus 3,
    so that a text of 200 code units or fewer is shown whole and still
    followed by the three full stops. *)
Theorem disclaimer_shown_length {U : Type} (dot : U) (text : list U) :
  List.length (disclaimer_shown U dot false text)
  = (Nat.min 200 (List.length text) + 3)%nat
  /\ ((List.length text <= 200)%nat ->
      disclaimer_shown U dot false text = (text ++ [dot; dot; dot])%list)
  /\ disclaimer_shown U dot true text = text.
Proof.
  unfold disclaimer_shown. split; [|split].
  - rewrite List.length_app, List.length_firstn. reflexivity.
  - intros H. rewrite firstn_all2 by exact H. reflexivity.
  - reflexivity.
Qed.

Lemma disclaimer_shown_length_witness :
  (List.length [1; 2; 3] <= 200)%nat
  /\ disclaimer_shown Z 0 false [1; 2; 3] = ([1; 2; 3] ++ [0; 0; 0])%list.
Proof.
  split; [simpl; lia|].
  apply (proj1 (proj2 (disclaimer_shown_length 0 [1; 2; 3]))). simpl; lia.
Defined.

(** ** Rounding to a whole number *)

Section RoundingWhole.

Lemma shr_exponent mrs e n : e <= snd (shr mrs e n).
Proof. destruct n; simpl; lia. Qed.

Lemma binary_round_aux_exponent s m e l :
  match binary_round_aux prec emax s m e l with
  | S754_finite _ _ e' => e <= e'
  | _ => True
  end.
Proof.
  unfold binary_round_aux, shr_fexp.
  pose proof (shr_exponent (shr_record_of_loc m l) e
                (fexp prec emax (Zdigits2 m + e) - e)) as H1.
  destruct (shr (shr_record_of_loc m l) e _) as [mrs1 e1]; simpl in H1.
  set (m1 := round_nearest_even _ _).
  pose proof (shr_exponent (shr_record_of_loc m1 loc_Exact) e1
                (fexp prec emax (Zdigits2 m1 + e1) - e1)) as H2.
  destruct (shr (shr_record_of_loc m1 loc_Exact) e1 _) as [mrs2 e2]; simpl in H2.
  destruct (shr_m mrs2); [exact I| |exact I].
  destruct (e2 <=? emax - prec); [lia|exact I].
Qed.

Lemma iter_xO_value p k : Zpos (Pos.iter xO p k) = Zpos p * 2 ^ Zpos k.
Proof.
  induction k as [|k IH] using Pos.peano_ind.
  - simpl. lia.
  - rewrite Pos.iter_succ, Pos2Z.inj_xO, IH, Pos2Z.inj_succ, Z.pow_succ_r by lia.
    lia.
Qed.

Lemma iter_xO_digits p k :
  Zpos (digits2_pos (Pos.iter xO p k)) = Zpos (digits2_pos p) + Zpos k.
Proof.
  induction k as [|k IH] using Pos.peano_ind.
  - simpl. lia.
  - rewrite Pos.iter_succ. cbn [digits2_pos]. lia.
Qed.

(** A mantissa that is already at its exponent is left as it is. *)
Lemma binary_round_aux_fixed s m e :
  fexp prec emax (Zpos (digits2_pos m) + e) = e ->
  e <= emax - prec ->
  binary_round_aux prec emax s (Zpos m) e loc_Exact = S754_finite s m e.
Proof.
  intros Hf He. unfold binary_round_aux, shr_fexp.
  cbn [Zdigits2 shr_record_of_loc]. rewrite Hf, Z.sub_diag.
  cbn [shr shr_m loc_of_shr_record round_nearest_even Zdigits2 shr_record_of_loc].
  rewrite Hf, Z.sub_diag. cbn [shr shr_m].
  apply Z.leb_le in He. rewrite He. reflexivity.
Qed.

Lemma integer_of_multiple s p k :
  integer_of (S754_finite s (Pos.iter xO p k) (Zneg k))
  = Some (signed_mantissa s p).
Proof.
  unfold integer_of. cbn [Z.leb Z.compare Z.opp].
  assert (H : signed_mantissa s (Pos.iter xO p k)
              = signed_mantissa s p * 2 ^ Zpos k).
  { pose proof (iter_xO_value p k) as Hv.
    destruct s; cbn [signed_mantissa]; [|exact Hv].
    rewrite <- !Pos2Z.opp_pos, Hv. lia. }
  rewrite H, Z.mod_mul, Z.div_mul by (apply Z.pow_nonzero; lia).
  reflexivity.
Qed.

(** The number of an integer is a whole number, or an infinity. *)
Lemma binary_round_whole s p :
  match binary_round prec emax s p 0 with
  | S754_finite s' m e => integer_of (S754_finite s' m e) <> None
  | _ => True
  end.
Proof.
  unfold binary_round, shl_align. rewrite Z.add_0_r, Z.sub_0_r.
  destruct (fexp prec emax (Zpos (digits2_pos p))) as [|k|k] eqn:Hf.
  - pose proof (binary_round_aux_exponent s (Zpos p) 0 loc_Exact) as H.
    destruct (binary_round_aux prec emax s (Zpos p) 0 loc_Exact); try exact I.
    unfold integer_of. apply Z.leb_le in H. rewrite H. discriminate.
  - pose proof (binary_round_aux_exponent s (Zpos p) 0 loc_Exact) as H.
    destruct (binary_round_aux prec emax s (Zpos p) 0 loc_Exact); try exact I.
    unfold integer_of. apply Z.leb_le in H. rewrite H. discriminate.
  - rewrite binary_round_aux_fixed.
    + rewrite integer_of_multiple. discriminate.
    + rewrite iter_xO_digits.
      replace (Zpos (digits2_pos p) + Zpos k + Zneg k)
        with (Zpos (digits2_pos p)) by lia.
      exact Hf.
    + unfold emax, prec. lia.
Qed.

Lemma Math_round_whole x :
  isFinite (Math_round x) = true -> integer_of (Math_round x) <> None.
Proof.
  destruct x as [s|s| |s m e]; cbn [Math_round]; try discriminate.
  destruct (0 <=? e) eqn:He.
  - intros _. unfold integer_of. rewrite He. discriminate.
  - destruct (Z.shiftr _ _) as [|p|p]; [intros _; discriminate| |].
    + pose proof (binary_round_whole false p) as H.
      destruct (binary_round prec emax false p 0); try discriminate;
        intros _; exact H.
    + pose proof (binary_round_whole true p) as H.
      destruct (binary_round prec emax true p 0); try discriminate;
        intros _; exact H.
Qed.

End RoundingWhole.

(** X21. [number_of_shares] is never a fraction: for every mapping it is
    a whole number or an infinity (the latter from a quantity written
    beyond the range of the numbers), and it is never NaN. *)
Theorem number_of_shares_whole (s : gmap string value) :
  let n := number_of_shares (normalizePortfolioRow s) in
  isNaN n = false
  /\ (isFinite n = true -> exists k, integer_of n = Some k).
Proof.
  cbv zeta. unfold normalizePortfolioRow; cbn [number_of_shares]. split.
  - apply Math_round_not_nan, num_not_nan.
  - intros H. pose proof (Math_round_whole _ H) as Hw.
    destruct (integer_of _) as [k|]; [exists k; reflexivity|congruence].
Qed.

Lemma number_of_shares_whole_witness :
  isFinite (number_of_shares (normalizePortfolioRow row_fraction)) = true
  /\ exists k, integer_of (number_of_shares (normalizePortfolioRow row_fraction))
               = Some k.
Proof.
  split; [reflexivity|].
  apply (proj2 (number_of_shares_whole row_fraction)). reflexivity.
Defined.

Section RoundingNearest.

Lemma digits2_pos_le p :
  forall n, Zpos p < 2 ^ n -> Zpos (digits2_pos p) <= n.
Proof.
  assert (Hneg : forall n, n < 0 -> 2 ^ n = 0)
    by (intros n Hn; apply Z.pow_neg_r; exact Hn).
  induction p as [p IH|p IH|]; intros n Hn; cbn [digits2_pos].
  - destruct (Z.lt_ge_cases n 1) as [H1|H1].
    + assert (2 ^ n <= 1) by
        (destruct (Z.lt_ge_cases n 0); [rewrite Hneg by lia; lia|
         replace n with 0 by lia; simpl; lia]). lia.
    + replace n with (Z.succ (n - 1)) in Hn by lia.
      rewrite Z.pow_succ_r in Hn by lia.
      specialize (IH (n - 1) ltac:(lia)). lia.
  - destruct (Z.lt_ge_cases n 1) as [H1|H1].
    + assert (2 ^ n <= 1) by
        (destruct (Z.lt_ge_cases n 0); [rewrite Hneg by lia; lia|
         replace n with 0 by lia; simpl; lia]). lia.
    + replace n with (Z.succ (n - 1)) in Hn by lia.
      rewrite Z.pow_succ_r in Hn by lia.
      specialize (IH (n - 1) ltac:(lia)). lia.
  - destruct (Z.lt_ge_cases n 1) as [H1|H1]; [|lia].
    assert (2 ^ n <= 1) by
      (destruct (Z.lt_ge_cases n 0); [rewrite Hneg by lia; lia|
       replace n with 0 by lia; simpl; lia]). lia.
Qed.

(** An integer below [2^53] has its own number. *)
Lemma binary_round_exact s p :
  Zpos p < 2 ^ prec ->
  integer_of (binary_round prec emax s p 0) = Some (signed_mantissa s p).
Proof.
  intros Hp. pose proof (digits2_pos_le p prec Hp) as Hd.
  assert (Hd1 : 1 <= Zpos (digits2_pos p)) by lia.
  unfold binary_round, shl_align. rewrite Z.add_0_r, Z.sub_0_r.
  destruct (fexp prec emax (Zpos (digits2_pos p))) as [|k|k] eqn:Hf.
  - rewrite binary_round_aux_fixed.
    + unfold integer_of. simpl. f_equal. lia.
    + rewrite Z.add_0_r. exact Hf.
    + unfold emax, prec. lia.
  - exfalso. unfold fexp, emin, emax, prec in *. lia.
  - rewrite binary_round_aux_fixed.
    + apply integer_of_multiple.
    + rewrite iter_xO_digits.
      replace (Zpos (digits2_pos p) + Zpos k + Zneg k)
        with (Zpos (digits2_pos p)) by lia.
      exact Hf.
    + unfold emax, prec. lia.
Qed.

Lemma Math_round_nearest s m e :
  Zpos m < 2 ^ prec ->
  exists n,
    integer_of (Math_round (S754_finite s m e)) = Some n
    /\ nearest_half_up (signed_mantissa s m) e n.
Proof.
  intros Hm. unfold nearest_half_up. cbn [Math_round].
  destruct (0 <=? e) eqn:He.
  - eexists. split; [|reflexivity]. unfold integer_of. rewrite He. reflexivity.
  - apply Z.leb_gt in He.
    fold (signed_mantissa s m). set (sm := signed_mantissa s m).
    assert (Hsm : - 2 ^ prec < sm < 2 ^ prec).
    { subst sm. destruct s; cbn [signed_mantissa]; lia. }
    set (k := - e). assert (Hk : 1 <= k) by lia.
    set (n := Z.shiftr (2 * sm + 2 ^ k) (k + 1)).
    assert (Hn : n = (2 * sm + 2 ^ k) / 2 ^ (k + 1))
      by (apply Z.shiftr_div_pow2; lia).
    assert (Hpos : 0 < 2 ^ (k + 1)) by (apply Z.pow_pos_nonneg; lia).
    assert (Hk2 : 2 ^ (k + 1) = 2 * 2 ^ k).
    { replace (k + 1) with (Z.succ k) by lia. apply Z.pow_succ_r. lia. }
    assert (Hk1 : 2 <= 2 ^ k).
    { replace k with (Z.succ (k - 1)) by lia. rewrite Z.pow_succ_r by lia.
      assert (0 < 2 ^ (k - 1)) by (apply Z.pow_pos_nonneg; lia). lia. }
    assert (Hlo : 2 ^ (k + 1) * n <= 2 * sm + 2 ^ k)
      by (rewrite Hn; apply Z.mul_div_le; exact Hpos).
    assert (Hhi : 2 * sm + 2 ^ k < 2 ^ (k + 1) * (n + 1)).
    { rewrite Hn. replace (_ / _ + 1) with (Z.succ ((2 * sm + 2 ^ k) / 2 ^ (k + 1)))
        by lia.
      apply Z.mul_succ_div_gt. exact Hpos. }
    assert (Hb : - 2 ^ prec < n < 2 ^ prec).
    { unfold prec in *. rewrite Hk2 in Hlo, Hhi. nia. }
    exists n. split.
    + destruct n as [|p|p] eqn:En.
      * reflexivity.
      * apply (binary_round_exact false p). lia.
      * apply (binary_round_exact true p). lia.
    + replace (1 - e) with (k + 1) by lia. split; [exact Hlo|exact Hhi].
Qed.

End RoundingNearest.

(** X22. When the quantity of a row is a finite number, [number_of_shares]
    is the whole number nearest to it, a half going up: [-2.5] gives
    [-2]. *)
Theorem number_of_shares_nearest (r : gmap string value) s m e :
  get r "number_of_shares" = VNum (S754_finite s m e) ->
  Zpos m < 2 ^ prec ->
  exists n,
    integer_of (number_of_shares (normalizePortfolioRow r)) = Some n
    /\ nearest_half_up (signed_mantissa s m) e n.
Proof.
  intros Hr Hm. unfold normalizePortfolioRow; cbn [number_of_shares].
  rewrite !coalesce_assoc, Hr. cbn [coalesce nullish num isFinite].
  apply Math_round_nearest, Hm.
Qed.

Lemma number_of_shares_nearest_witness :
  exists n,
    integer_of (number_of_shares (normalizePortfolioRow row_half_shares)) = Some n
    /\ nearest_half_up (-5629499534213120) (-51) n.
Proof.
  apply (number_of_shares_nearest row_half_shares true 5629499534213120 (-51));
    [reflexivity|reflexivity].
Defined.

(** ** Fixed-point notation *)

Lemma string_of_uint_digits d :
  all_chars is_digit (NilEmpty.string_of_uint d) = true.
Proof. induction d; simpl; auto. Qed.

Lemma decimal_digits n : all_chars is_digit (decimal n) = true.
Proof.
  unfold decimal, NilZero.string_of_uint.
  destruct (N.to_uint n); try reflexivity; apply string_of_uint_digits.
Qed.

Lemma MV_app a : forall acc b, MV acc (a ++ b) = MV (MV acc a) b.
Proof.
  induction a as [|c a IH]; intros acc b; [reflexivity|].
  rewrite append_cons. cbn [MV]. apply IH.
Qed.

Lemma MV_zeros z : MV 0 (zeros z) = 0.
Proof. induction z as [|z IH]; [reflexivity|]. cbn [zeros MV]. exact IH. Qed.

Lemma MV_of_uint_acc d :
  forall acc, MV (Zpos acc) (NilEmpty.string_of_uint d)
              = Zpos (Pos.of_uint_acc d acc).
Proof.
  induction d; intros acc; cbn [NilEmpty.string_of_uint MV Pos.of_uint_acc];
    try reflexivity;
    match goal with
    | |- MV ?x _ = Zpos (Pos.of_uint_acc _ ?y) =>
        replace x with (Zpos y) by (unfold digit_value; simpl; lia)
    end; apply IHd.
Qed.

Lemma MV_of_uint d :
  MV 0 (NilEmpty.string_of_uint d) = Z.of_N (Pos.of_uint d).
Proof.
  induction d; cbn [NilEmpty.string_of_uint MV Pos.of_uint];
    try reflexivity; try exact IHd;
    match goal with
    | |- MV ?x _ = Z.of_N (N.pos (Pos.of_uint_acc _ ?y)) =>
        change x with (Zpos y)
    end; apply MV_of_uint_acc.
Qed.

(** Reading the digits of a number gives the number back. *)
Lemma MV_decimal n : MV 0 (decimal n) = Z.of_N n.
Proof.
  unfold decimal, NilZero.string_of_uint.
  rewrite <- (DecimalN.Unsigned.of_to n) at 2. unfold N.of_uint.
  destruct (N.to_uint n) eqn:E; try apply MV_of_uint. reflexivity.
Qed.

Lemma decimal_nonempty n : decimal n <> "".
Proof.
  unfold decimal, NilZero.string_of_uint.
  destruct (N.to_uint n); simpl; discriminate.
Qed.

Lemma units_split n s : first_units n s ++ other_units n s = s.
Proof.
  revert s. induction n as [|n IH]; intros [|c s]; try reflexivity.
  cbn [first_units other_units]. rewrite append_cons, IH. reflexivity.
Qed.

Lemma other_units_length n s :
  String.length (other_units n s) = (String.length s - n)%nat.
Proof.
  revert s. induction n as [|n IH]; intros [|c s]; try reflexivity.
  cbn [other_units]. rewrite IH. reflexivity.
Qed.

Lemma first_units_nonempty n s :
  (0 < n)%nat -> s <> "" -> first_units n s <> "".
Proof. destruct n, s; simpl; try lia; congruence. Qed.

Lemma all_chars_units P n s :
  all_chars P s = true ->
  all_chars P (first_units n s) = true /\ all_chars P (other_units n s) = true.
Proof.
  intros H. rewrite <- (units_split n s), all_chars_app in H.
  apply andb_true_iff in H. exact H.
Qed.

Lemma append_length (a b : string) :
  String.length (a ++ b) = (String.length a + String.length b)%nat.
Proof.
  induction a as [|c a IH]; [reflexivity|].
  rewrite append_cons. simpl. rewrite IH. reflexivity.
Qed.

Lemma zeros_length z : String.length (zeros z) = z.
Proof. induction z as [|z IH]; simpl; [|rewrite IH]; reflexivity. Qed.

Lemma zeros_digits z : all_chars is_digit (zeros z) = true.
Proof. induction z as [|z IH]; simpl; auto. Qed.

(** Digits are read up to the first character that is not one. *)
Lemma DecimalDigits_stop a r :
  all_chars is_digit a = true ->
  match r with
  | "" => True
  | String c _ => is_digit c = false
  end ->
  DecimalDigits (a ++ r) = (a, r).
Proof.
  intros Ha Hr. induction a as [|c a IH].
  - change ("" ++ r) with r. destruct r as [|c r]; [reflexivity|].
    simpl. rewrite Hr. reflexivity.
  - rewrite append_cons. simpl in Ha. apply andb_true_iff in Ha as [Hc Ha].
    cbn [DecimalDigits]. rewrite Hc, (IH Ha). reflexivity.
Qed.

Lemma digit_no_sign c s : is_digit c = true -> Sign (String c s) = (false, String c s).
Proof. intros H. ascii_cases c; try discriminate H; reflexivity. Qed.

(** The notation of [n] units at [f] decimals reads back, by the
    grammar of numeric literals, as [n * 10^(-f)]; it starts with a
    digit and, when [f] is not 0, has one point followed by [f] digits. *)
Lemma fixed_notation_reads_back (f : nat) (n : N) :
  StrUnsignedDecimalLiteral (fixed_notation f n)
  = Some (Z.of_N n, - Z.of_nat f)
  /\ (exists c rest, fixed_notation f n = String c rest /\ is_digit c = true)
  /\ (f <> O ->
      exists a b, fixed_notation f n = a ++ "." ++ b
                  /\ String.length b = f
                  /\ a <> ""
                  /\ all_chars is_digit a = true
                  /\ all_chars is_digit b = true).
Proof.
  destruct f as [|f].
  - cbn [fixed_notation].
    pose proof (decimal_digits n) as Hd. pose proof (decimal_nonempty n) as Hne.
    split; [|split; [|congruence]].
    + unfold StrUnsignedDecimalLiteral.
      rewrite <- (append_empty_r (decimal n)) at 1.
      rewrite (DecimalDigits_stop _ "" Hd I). rewrite append_empty_r.
      destruct (decimal n) as [|c m] eqn:E; [congruence|].
      cbn [ExponentPart]. rewrite <- E, MV_decimal. reflexivity.
    + destruct (decimal n) as [|c m]; [congruence|].
      exists c, m. simpl in Hd. apply andb_true_iff in Hd as [Hc _]. auto.
  - cbn [fixed_notation].
    set (m := if (String.length (decimal n) <=? S f)%nat
              then zeros (S f + 1 - String.length (decimal n)) ++ decimal n
              else decimal n).
    assert (Hm : all_chars is_digit m = true).
    { subst m. destruct (_ <=? _)%nat; [|apply decimal_digits].
      rewrite all_chars_app, zeros_digits, decimal_digits. reflexivity. }
    assert (Hv : MV 0 m = Z.of_N n).
    { subst m. destruct (_ <=? _)%nat; [|apply MV_decimal].
      rewrite MV_app, MV_zeros. apply MV_decimal. }
    assert (Hl : (S f < String.length m)%nat).
    { subst m. destruct (String.length (decimal n) <=? S f)%nat eqn:E.
      - apply Nat.leb_le in E. rewrite append_length, zeros_length. lia.
      - apply Nat.leb_gt in E. exact E. }
    set (k := (String.length m - S f)%nat).
    assert (Hk : (0 < k)%nat) by (subst k; lia).
    destruct (all_chars_units is_digit k m Hm) as [Ha Hb].
    assert (Hne : m <> "") by (destruct m; [simpl in Hl; lia|discriminate]).
    pose proof (first_units_nonempty k m Hk Hne) as Hane.
    assert (Hbl : String.length (other_units k m) = S f).
    { rewrite other_units_length. subst k. lia. }
    split; [|split].
    + unfold StrUnsignedDecimalLiteral.
      rewrite (DecimalDigits_stop _ ("." ++ other_units k m) Ha) by reflexivity.
      change ("." ++ other_units k m) with (String "." (other_units k m)).
      cbv iota beta.
      rewrite <- (append_empty_r (other_units k m)) at 1.
      rewrite (DecimalDigits_stop _ "" Hb I).
      rewrite units_split.
      destruct m as [|c m'] eqn:E; [congruence|].
      cbn [ExponentPart]. rewrite Hv, Hbl. do 2 f_equal; try lia.
    + destruct (first_units k m) as [|c a] eqn:E; [congruence|].
      exists c, (a ++ "." ++ other_units k m). split; [reflexivity|].
      simpl in Ha. apply andb_true_iff in Ha as [Hc _]. exact Hc.
    + intros _. exists (first_units k m), (other_units k m). auto.
Qed.

Lemma scaled_nearest m e f :
  nearest_half_up (Zpos m * 10 ^ Z.of_nat f) e (Z.of_N (scaled m e f)).
Proof.
  unfold nearest_half_up, scaled.
  assert (Ht : 0 < Zpos m * 10 ^ Z.of_nat f).
  { apply Z.mul_pos_pos; [lia|]. apply Z.pow_pos_nonneg; lia. }
  set (t := Zpos m * 10 ^ Z.of_nat f) in *.
  destruct (0 <=? e) eqn:He.
  - apply Z.leb_le in He. rewrite Z2N.id; [reflexivity|].
    apply Z.mul_nonneg_nonneg; [lia|]. apply Z.pow_nonneg. lia.
  - apply Z.leb_gt in He.
    assert (Hpos : 0 < 2 ^ (1 - e)) by (apply Z.pow_pos_nonneg; lia).
    assert (Hk : 0 < 2 ^ (- e)) by (apply Z.pow_pos_nonneg; lia).
    rewrite Z.shiftr_div_pow2 by lia.
    assert (Hq : 0 <= (2 * t + 2 ^ (- e)) / 2 ^ (1 - e))
      by (apply Z.div_pos; lia).
    rewrite Z2N.id by exact Hq. split.
    + apply Z.mul_div_le. exact Hpos.
    + replace (_ / _ + 1) with (Z.succ ((2 * t + 2 ^ (- e)) / 2 ^ (1 - e))) by lia.
      apply Z.mul_succ_div_gt. exact Hpos.
Qed.

(** X23. For a finite number below [10^21], what [toFixed] writes is a
    numeric literal: it reads back as the sign of the number and
    [n * 10^(-f)], where [n] is the whole number nearest to the absolute
    value times [10^f], a half going up. So [Number] of the text is the
    number of that decimal, and nothing but the rounding is lost. *)
Theorem toFixed_reads_back (NumberToString : number -> string) f s m e :
  at_least_1e21 m e = false ->
  let n := Z.of_N (scaled m e f) in
  digits_literal (toFixed NumberToString f (S754_finite s m e))
  = Some (of_decimal s n (- Z.of_nat f))
  /\ StringToNumber (toFixed NumberToString f (S754_finite s m e))
     = of_decimal s n (- Z.of_nat f)
  /\ nearest_half_up (Zpos m * 10 ^ Z.of_nat f) e n.
Proof.
  intros Hbig. cbv zeta.
  assert (H : digits_literal (toFixed NumberToString f (S754_finite s m e))
              = Some (of_decimal s (Z.of_N (scaled m e f)) (- Z.of_nat f))).
  { cbn [toFixed]. rewrite Hbig.
    destruct (fixed_notation_reads_back f (scaled m e f))
      as (Hread & (c & rest & Hc & Hd) & _).
    unfold digits_literal. destruct s.
    - change ("-" ++ fixed_notation f (scaled m e f))
        with (String "-" (fixed_notation f (scaled m e f))).
      cbn [Sign]. rewrite Hread. reflexivity.
    - change ("" ++ fixed_notation f (scaled m e f))
        with (fixed_notation f (scaled m e f)).
      rewrite Hc, (digit_no_sign c rest Hd), <- Hc, Hread. reflexivity. }
  split; [exact H|]. split; [|apply scaled_nearest].
  apply StringToNumber_digits_literal, H.
Qed.

Lemma toFixed_reads_back_witness :
  at_least_1e21 6946802425218990 (-49) = false
  /\ toFixed (fun _ => "") 1 number_12_34 = "12.3"
  /\ StringToNumber (toFixed (fun _ => "") 1 number_12_34)
     = of_decimal false 123 (-1).
Proof.
  split; [reflexivity|]. split; [reflexivity|].
  apply (proj1 (proj2 (toFixed_reads_back (fun _ => "") 1 false
                         6946802425218990 (-49) eq_refl))).
Defined.

(** ** Multiplying by one *)

Lemma shr_1_even p r s :
  shr_1 {| shr_m := Zpos p~0; shr_r := r; shr_s := s |}
  = {| shr_m := Zpos p; shr_r := false; shr_s := (r || s)%bool |}.
Proof. reflexivity. Qed.

(** The product of a number of binary64 by 1 is the number. *)
Lemma SFmul_one x : valid_binary prec emax x = true -> SFmul prec emax x one = x.
Proof.
  destruct x as [s|s| |s m e]; cbn [valid_binary]; intros Hv.
  - destruct s; reflexivity.
  - destruct s; reflexivity.
  - reflexivity.
  - unfold bounded, canonical_mantissa in Hv.
    apply andb_true_iff in Hv as [Hc He].
    apply Z.eqb_eq in Hc. apply Z.leb_le in He.
    unfold one. cbn [SFmul]. rewrite xorb_false_r, Pos.mul_comm.
    let t := eval vm_compute in (4503599627370496 * m)%positive in
    change (4503599627370496 * m)%positive with t.
    unfold binary_round_aux, shr_fexp.
    cbn [Zdigits2 digits2_pos shr_record_of_loc].
    match goal with
    | |- context [fexp prec emax ?z] =>
        replace z with (Zpos (digits2_pos m) + e) by lia
    end.
    rewrite Hc. replace (e - (e + -52)) with 52 by lia.
    cbn [shr SpecFloat.iter_pos]. rewrite !shr_1_even.
    cbn [orb shr_m loc_of_shr_record round_nearest_even Zdigits2
         shr_record_of_loc].
    replace (e + -52 + 52) with e by lia.
    rewrite Hc, Z.sub_diag. cbn [shr shr_m].
    apply Z.leb_le in He. rewrite He. reflexivity.
Qed.

(** X24. [formatPercentage] writes a number of binary64 at one decimal
    and adds the percent sign, the product by 1 changing nothing; a
    negative number that rounds to no tenth keeps its sign, so that it is
    shown as "-0.0%", while negative zero is shown as "0.0%". *)
Theorem formatPercentage_one_decimal (NumberToString : number -> string) x :
  valid_binary prec emax x = true ->
  formatPercentage NumberToString x = toFixed NumberToString 1 x ++ "%"
  /\ (forall m e, x = S754_finite true m e ->
                  at_least_1e21 m e = false -> scaled m e 1 = 0%N ->
                  formatPercentage NumberToString x = "-0.0%")
  /\ (forall s, x = S754_zero s -> formatPercentage NumberToString x = "0.0%").
Proof.
  intros Hv. unfold formatPercentage. rewrite (SFmul_one x Hv).
  split; [reflexivity|]. split.
  - intros m e -> Hbig Hn. cbn [toFixed]. rewrite Hbig, Hn. reflexivity.
  - intros s ->. reflexivity.
Qed.

Lemma formatPercentage_one_decimal_witness :
  valid_binary prec emax number_minus_0_01 = true
  /\ scaled 5764607523034235 (-59) 1 = 0%N
  /\ formatPercentage (fun _ => "") number_minus_0_01 = "-0.0%".
Proof.
  split; [reflexivity|]. split; [reflexivity|].
  apply (proj1 (proj2 (formatPercentage_one_decimal (fun _ => "")
                         number_minus_0_01 eq_refl))
           5764607523034235%positive (-59)); reflexivity.
Defined.

(** ** The portfolio form *)

Lemma exponent_prefix_of_part r x : ExponentPart r = Some x -> exponent_prefix r = x.
Proof.
  unfold ExponentPart, exponent_prefix. destruct r as [|c r]; [congruence|].
  destruct (Ascii.eqb c "e" || Ascii.eqb c "E")%bool; [|discriminate].
  destruct (Sign r) as [neg r1]. destruct (DecimalDigits r1) as [[|c' d] [|c'' r2]];
    congruence.
Qed.

Lemma startsWith_Infinity_numeric r :
  all_chars numeric_char r = true -> startsWith r "Infinity" = false.
Proof.
  destruct r as [|c r]; [reflexivity|]. simpl. intros H.
  apply andb_true_iff in H as [Hc _].
  ascii_cases c; try discriminate Hc; reflexivity.
Qed.

(** [parseFloat] of a literal is its value. *)
Lemma parseFloat_digits_literal n x : digits_literal n = Some x -> parseFloat n = x.
Proof.
  intros H. destruct (digits_literal_chars _ _ H) as (Hc & _ & _).
  unfold digits_literal in H. unfold parseFloat.
  rewrite (trim_start_numeric _ Hc).
  destruct (Sign n) as [neg r] eqn:Hs.
  destruct (StrUnsignedDecimalLiteral r) as [[m e]|] eqn:Hu; [|discriminate].
  inversion H; subst x; clear H.
  destruct (StrUnsignedDecimalLiteral_chars _ _ _ Hu) as (Hr & _ & _).
  rewrite (startsWith_Infinity_numeric _ Hr).
  unfold StrUnsignedDecimalLiteral in Hu.
  destruct (DecimalDigits r) as [ip r1].
  match type of Hu with
  | context [let (_, _) := ?X in _] => destruct X as [fp r2]
  end.
  destruct (ip ++ fp) as [|c ds]; [discriminate|].
  destruct (ExponentPart r2) as [x'|] eqn:Hx; [|discriminate].
  inversion Hu; subst m e; clear Hu.
  rewrite (exponent_prefix_of_part _ _ Hx). reflexivity.
Qed.

(** X25. [handleSubmit] hands [execute] an object whose [budget] is, for
    a budget written as a numeric literal, the value of that literal,
    which is also what [num] reads in it, and NaN for an empty budget; it
    has a [time_period] for the type "position" only, the whole number
    written in the field. In the body [execute] then sends, a budget that
    is not finite, the NaN of an empty field or the infinity of an
    overflowing literal, is written [null]; a finite one is written by
    its decimal representation. *)
Theorem handleSubmit_request (NumberToString : number -> string) :
  (forall type n x risk timePeriod,
      digits_literal n = Some x ->
      budget (handleSubmit type n risk timePeriod) = x /\ num (VStr n) = x)
  /\ (forall type risk timePeriod,
        isNaN (budget (handleSubmit type "" risk timePeriod)) = true)
  /\ (forall type b risk timePeriod,
        time_period (handleSubmit type b risk timePeriod) = None
        <-> type <> "position")
  /\ (forall b risk c d,
        all_chars is_digit (String c d) = true ->
        time_period (handleSubmit "position" b risk (String c d))
        = Some (of_integer false (MV 0 (String c d))))
  /\ (forall type b risk timePeriod,
        exists rest,
          JSON_stringify NumberToString (handleSubmit type b risk timePeriod)
          = budget_member
            ++ (if isFinite (parseFloat b) then NumberToString (parseFloat b)
                else "null")
            ++ "," ++ QuoteJSONString "risk_appetite" ++ ":"
            ++ QuoteJSONString risk ++ rest
          /\ (type <> "position" -> rest = "}")
          /\ (type = "position" ->
              rest = "," ++ QuoteJSONString "time_period" ++ ":"
                     ++ (if isFinite (parseInt10 timePeriod)
                         then NumberToString (parseInt10 timePeriod)
                         else "null") ++ "}"))
  /\ (forall type risk timePeriod,
        type <> "position" ->
        JSON_stringify NumberToString (handleSubmit type "" risk timePeriod)
        = budget_member ++ "null," ++ QuoteJSONString "risk_appetite" ++ ":"
          ++ QuoteJSONString risk ++ "}")
  /\ (forall type n x risk timePeriod,
        digits_literal n = Some x -> isFinite x = false ->
        type <> "position" ->
        JSON_stringify NumberToString (handleSubmit type n risk timePeriod)
        = budget_member ++ "null," ++ QuoteJSONString "risk_appetite" ++ ":"
          ++ QuoteJSONString risk ++ "}").
Proof.
  assert (Hlayout : forall type b risk timePeriod,
    exists rest,
      JSON_stringify NumberToString (handleSubmit type b risk timePeriod)
      = budget_member
        ++ (if isFinite (parseFloat b) then NumberToString (parseFloat b)
            else "null")
        ++ "," ++ QuoteJSONString "risk_appetite" ++ ":"
        ++ QuoteJSONString risk ++ rest
      /\ (type <> "position" -> rest = "}")
      /\ (type = "position" ->
          rest = "," ++ QuoteJSONString "time_period" ++ ":"
                 ++ (if isFinite (parseInt10 timePeriod)
                     then NumberToString (parseInt10 timePeriod)
                     else "null") ++ "}")).
  { intros type b risk tp.
    unfold JSON_stringify, handleSubmit;
      cbn [budget risk_appetite time_period].
    unfold SerializeJSONNumber, budget_member, SerializeJSONObject.
    destruct (String.eqb_spec type "position") as [->|Hne].
    - eexists. split; [|split; [congruence|intros _; reflexivity]].
      cbn [app SerializeJSONMembers].
      rewrite !append_assoc'. reflexivity.
    - exists "}". split; [|split; [reflexivity|congruence]].
      cbn [app SerializeJSONMembers].
      rewrite !append_assoc'. reflexivity. }
  split; [|split; [|split; [|split; [|split]]]].
  - intros type n x risk tp H. split.
    + apply parseFloat_digits_literal, H.
    + rewrite num_string.
      apply (coerce_decorated "" n "" x eq_refl eq_refl) in H.
      change ("" ++ n ++ "") with (n ++ "") in H.
      rewrite append_empty_r in H. exact H.
  - reflexivity.
  - intros type b risk tp. unfold handleSubmit; cbn [time_period].
    destruct (String.eqb_spec type "position"); split; congruence.
  - intros b risk c d Hd. unfold handleSubmit; cbn [time_period String.eqb].
    unfold parseInt10.
    pose proof Hd as Hd'. simpl in Hd'. apply andb_true_iff in Hd' as [Hc _].
    assert (Hsp : is_space c = false)
      by (apply numeric_not_space, digit_numeric, Hc).
    cbn [trim_start]. rewrite Hsp, (digit_no_sign c d Hc).
    rewrite <- (append_empty_r (String c d)) at 1.
    rewrite (DecimalDigits_stop _ "" Hd I). reflexivity.
  - exact Hlayout.
  - split.
    + intros type risk tp Hne.
      destruct (Hlayout type "" risk tp) as (rest & -> & Hr & _).
      rewrite (Hr Hne). reflexivity.
    + intros type n x risk tp Hx Hinf Hne.
      destruct (Hlayout type n risk tp) as (rest & -> & Hr & _).
      rewrite (Hr Hne), (parseFloat_digits_literal _ _ Hx), Hinf.
      reflexivity.
Qed.

Lemma handleSubmit_request_witness :
  digits_literal "100000" = Some (S754_finite false 6871947673600000 (-36))
  /\ budget (handleSubmit "swing" "100000" "MEDIUM" "18")
     = S754_finite false 6871947673600000 (-36)
  /\ digits_literal "1e999" = Some Infinity
  /\ JSON_stringify (fun _ => "100000") (handleSubmit "swing" "1e999" "MEDIUM" "18")
     = budget_member ++ "null," ++ QuoteJSONString "risk_appetite" ++ ":"
       ++ QuoteJSONString "MEDIUM" ++ "}".
Proof.
  split; [reflexivity|]. split.
  - apply (proj1 (handleSubmit_request (fun _ => ""))
             "swing" "100000" _ "MEDIUM" "18" eq_refl).
  - split; [reflexivity|].
    apply (proj2 (proj2 (proj2 (proj2 (proj2 (proj2
             (handleSubmit_request (fun _ => "100000")))))))
             "swing" "1e999" Infinity "MEDIUM" "18");
      [reflexivity|reflexivity|discriminate].
Defined.
